(** * pink-elevenlabs: a shallow embedding of [main.go]

    The command-line client of [main.go] is embedded as functions over an
    explicit [World]: the process environment, the env files
    [godotenv.Load] can read, the file system, the remote service, the
    standard streams and the telemetry sink. A Go function that may call
    [os.Exit] becomes a computation of the monad [M], whose result is
    either a returned value or an exit code, each with the world it leaves
    behind. *)

From Stdlib Require Import ZArith String Ascii List.
From Stdlib Require Import Floats.PrimFloat Floats.FloatOps Floats.SpecFloat.
From stdpp Require Import gmap strings list fin_maps pretty.

Open Scope string_scope.
Open Scope list_scope.

Set Warnings "-register-all".

(** ** Slash-separated paths ([path/filepath], Unix) *)

Module Filepath.

(** [strings.Split(s, "/")]: the elements between separators, empty ones
    included. *)
Fixpoint split_slash (s : string) : list string :=
  match s with
  | EmptyString => [""]
  | String c r =>
      if Ascii.eqb c "/" then "" :: split_slash r
      else match split_slash r with
           | h :: t => String c h :: t
           | [] => [String c ""]
           end
  end.

Fixpoint join_slash (es : list string) : string :=
  match es with
  | [] => ""
  | [e] => e
  | e :: r => e +:+ "/" +:+ join_slash r
  end.

Definition is_rooted (p : string) : bool :=
  match p with
  | String c _ => Ascii.eqb c "/"
  | EmptyString => false
  end.

(** One step of the loop of [filepath.Clean]; [stk] holds the elements
    written so far, last one first. *)
Definition clean_push (rooted : bool) (stk : list string) (e : string) : list string :=
  if String.eqb e "" then stk
  else if String.eqb e "." then stk
  else if String.eqb e ".." then
    match stk with
    | top :: below => if String.eqb top ".." then e :: stk else below
    | [] => if rooted then [] else [e]
    end
  else e :: stk.

Definition clean_elems (rooted : bool) (es : list string) : list string :=
  rev (fold_left (clean_push rooted) es []).

Definition render (rooted : bool) (es : list string) : string :=
  if rooted then "/" +:+ join_slash es
  else match es with
       | [] => "."
       | _ => join_slash es
       end.

(** [filepath.Clean]. *)
Definition Clean (p : string) : string :=
  render (is_rooted p) (clean_elems (is_rooted p) (split_slash p)).

(** [filepath.Dir]: everything up to the last separator, cleaned. *)
Definition Dir (p : string) : string :=
  render (is_rooted p) (clean_elems (is_rooted p) (removelast (split_slash p))).

(** [filepath.Join] of two elements: empty elements are ignored, the rest
    joined by a separator and cleaned. *)
Definition Join (a b : string) : string :=
  if String.eqb a "" then (if String.eqb b "" then "" else Clean b)
  else if String.eqb b "" then Clean a
  else Clean (a +:+ "/" +:+ b).

(** [filepath.Base]: the last element, trailing separators removed. *)
Definition Base (p : string) : string :=
  if String.eqb p "" then "."
  else match filter (fun e => e <> "") (split_slash p) with
       | [] => "/"
       | e :: es => List.last es e
       end.

End Filepath.

(** ** The file system

    A tree of directories and regular files (no symbolic links, no
    permissions, no quota). The operations follow the system calls the Go
    runtime issues; a failure carries the errno. *)

Module FS.

Inductive Errno := ENOENT | ENOTDIR | EISDIR | EEXIST.

Definition strerror (e : Errno) : string :=
  match e with
  | ENOENT => "no such file or directory"
  | ENOTDIR => "not a directory"
  | EISDIR => "is a directory"
  | EEXIST => "file exists"
  end.

(** [os.PathError.Error()]. *)
Definition PathError (op path : string) (e : Errno) : string :=
  op +:+ " " +:+ path +:+ ": " +:+ strerror e.

Inductive Node :=
  | NFile (content : string)
  | NDir (children : gmap string Node).

Fixpoint lookup (n : Node) (p : list string) : Errno + Node :=
  match p with
  | [] => inr n
  | e :: p' =>
      match n with
      | NFile _ => inl ENOTDIR
      | NDir ch =>
          match ch !! e with
          | Some c => lookup c p'
          | None => inl ENOENT
          end
      end
  end.

Definition is_dir (root : Node) (p : list string) : bool :=
  match lookup root p with
  | inr (NDir _) => true
  | _ => false
  end.

(** Store [new] at [p]: the parent must be a directory, and a directory
    already at [p] is never replaced. *)
Fixpoint put (n : Node) (p : list string) (new : Node) : Errno + Node :=
  match p with
  | [] => match n with NFile _ => inr new | NDir _ => inl EISDIR end
  | e :: p' =>
      match n with
      | NFile _ => inl ENOTDIR
      | NDir ch =>
          match ch !! e with
          | Some c =>
              match put c p' new with
              | inl err => inl err
              | inr c' => inr (NDir (<[e:=c']> ch))
              end
          | None =>
              match p' with
              | [] => inr (NDir (<[e:=new]> ch))
              | _ => inl ENOENT
              end
          end
      end
  end.

Definition special (e : string) : bool :=
  String.eqb e "" || String.eqb e "." || String.eqb e "..".

(** Path resolution from the directory [cur]: every component is resolved
    in a directory; only the last one may name a regular file. *)
Fixpoint walk (root : Node) (cur : list string) (comps : list string)
  : Errno + list string :=
  match comps with
  | [] => inr cur
  | e :: rest =>
      if negb (is_dir root cur) then inl ENOTDIR
      else if String.eqb e "" || String.eqb e "." then walk root cur rest
      else if String.eqb e ".." then walk root (removelast cur) rest
      else match lookup root (cur ++ [e]) with
           | inr _ => walk root (cur ++ [e]) rest
           | inl err => inl err
           end
  end.

(** Where resolution of [p] starts: the root, or the working directory. *)
Definition start (cwd : list string) (p : string) : list string :=
  if Filepath.is_rooted p then [] else cwd.

(** [stat(2)] on resolved components. *)
Definition stat_at (root : Node) (from : list string) (comps : list string)
  : Errno + Node :=
  match walk root from comps with
  | inl e => inl e
  | inr p => lookup root p
  end.

Definition stat (root : Node) (cwd : list string) (p : string) : Errno + Node :=
  if String.eqb p "" then inl ENOENT
  else stat_at root (start cwd p) (Filepath.split_slash p).

(** The file a creating [open(2)] of the components designates. *)
Definition create_target (root : Node) (from : list string) (comps : list string)
  : Errno + list string :=
  match walk root from (removelast comps) with
  | inl e => inl e
  | inr dir =>
      let f := List.last comps "" in
      if special f then inl EISDIR
      else if is_dir root (dir ++ [f]) then inl EISDIR
      else if is_dir root dir then inr (dir ++ [f])
      else inl ENOTDIR
  end.

(** [open(p, O_RDWR|O_CREATE|O_TRUNC)]: the handle is the file's place in
    the tree. *)
Definition create (root : Node) (cwd : list string) (p : string)
  : Errno + (list string * Node) :=
  if String.eqb p "" then inl ENOENT
  else match create_target root (start cwd p) (Filepath.split_slash p) with
       | inl e => inl e
       | inr t =>
           match put root t (NFile "") with
           | inl e => inl e
           | inr root' => inr (t, root')
           end
       end.

(** [mkdir(2)] on resolved components. *)
Definition mkdir_at (root : Node) (from : list string) (comps : list string)
  : Errno + Node :=
  match walk root from (removelast comps) with
  | inl e => inl e
  | inr dir =>
      let f := List.last comps "" in
      if special f then inl EEXIST
      else match lookup root (dir ++ [f]) with
           | inr _ => inl EEXIST
           | inl _ => if is_dir root dir then put root (dir ++ [f]) (NDir ∅)
                      else inl ENOTDIR
           end
  end.

(** [os.MkdirAll], on the non-empty components of its argument, last one
    first: return at once when the path is a directory, otherwise make the
    parent (the path before its last element), then the directory itself.
    An error comes with the number of components of the path it is
    about: the argument itself, or the ancestor where the work stopped. *)
Fixpoint mkdirAll_rec (root : Node) (from : list string) (rcomps : list string)
  : (nat * Errno) + Node :=
  match stat_at root from (rev rcomps) with
  | inr (NDir _) => inr root
  | inr (NFile _) => inl (length rcomps, ENOTDIR)
  | inl e0 =>
      match rcomps with
      | [] => inl (0%nat, e0)
      | _ :: parent =>
          let made :=
            match parent with
            | [] => inr root
            | _ => mkdirAll_rec root from parent
            end in
          match made with
          | inl e => inl e
          | inr root1 =>
              match mkdir_at root1 from (rev rcomps) with
              | inr root2 => inr root2
              | inl e =>
                  match stat_at root1 from (rev rcomps) with
                  | inr (NDir _) => inr root1
                  | _ => inl (length rcomps, e)
                  end
              end
          end
      end
  end.

Definition mkdirAll (root : Node) (cwd : list string) (p : string)
  : (nat * Errno) + Node :=
  if String.eqb p "" then inl (0%nat, ENOENT)
  else mkdirAll_rec root (start cwd p)
         (rev (filter (fun e => e <> "") (Filepath.split_slash p))).

(** The elements of a path, empty ones included, before its [(n+1)]-th
    non-empty one. *)
Fixpoint upto (n : nat) (es : list string) : list string :=
  match es with
  | [] => []
  | e :: r =>
      if String.eqb e "" then e :: upto n r
      else match n with
           | O => []
           | S k => e :: upto k r
           end
  end.

(** The ancestor of [p] that has [n] components, as [os.MkdirAll] spells
    it: [p] up to the separator before its [(n+1)]-th component, and [p]
    itself when it has no more than [n]. *)
Definition ancestor (p : string) (n : nat) : string :=
  Filepath.join_slash (upto n (Filepath.split_slash p)).

(** [n'] has every directory and every entry of [n]. *)
Definition extends (n n' : Node) : Prop :=
  (forall q, is_dir n q = true -> is_dir n' q = true)
  /\ (forall q x, lookup n q = inr x -> exists x', lookup n' q = inr x').

End FS.

Definition tmp_only : FS.Node := FS.NDir {[ "tmp" := FS.NDir ∅ ]}.

(** ** Telemetry events and HTTP messages *)

Inductive Level := LevelInfo | LevelError.

(** A value of a [map[string]any] attribute mapping. *)
Inductive AttrVal :=
  | AStr (s : string)
  | AInt (n : Z).

Record Event := mkEvent {
  ev_level : Level;
  ev_name : string;
  ev_attrs : gmap string AttrVal
}.

Record voiceSettings := mkVoiceSettings {
  Stability : float;
  SimilarityBoost : float;
  Style : float;
  Speed : float;
  UseSpeakerBoost : bool
}.

Record ttsRequest := mkTtsRequest {
  Text : string;
  ModelID : string;
  VoiceSettings : voiceSettings
}.

Inductive Part :=
  | FormFile (fieldname filename content : string)
  | FormField (fieldname value : string).

(** A request body, kept structured: the JSON document of a [ttsRequest],
    or a multipart form. *)
Inductive Payload :=
  | NoBody
  | JSONBody (doc : ttsRequest)
  | MultipartBody (boundary : string) (parts : list Part).

Record Request := mkRequest {
  Method : string;
  URL : string;
  Header : gmap string string;
  Body : Payload;
  Timeout : Z  (* of the client that sends it, in seconds *)
}.

(** What [client.Do] hands back on success: the status, the bytes the body
    stream delivers, and the error that ends the stream early, if any. *)
Record Response := mkResponse {
  StatusCode : Z;
  RespBody : string;
  ReadErr : option string
}.

(** ** The world and its effects *)

Inductive Effect :=
  | EGetenv (name : string)
  | ELoadDotenv (path : string)
  | EOtel (e : Event)
  | EStdout (s : string)
  | EStderr (s : string)
  | EHTTP (req : Request)
  | EStat (path : string)
  | EOpen (path : string)
  | EMkdirAll (path : string)
  | ECreate (path : string)
  | EWrite (path : string) (data : string).

Record World := mkWorld {
  environ : gmap string string;          (* the process environment *)
  executable : option string;            (* os.Executable(), None on error *)
  evalSymlinks : string -> option string;  (* filepath.EvalSymlinks *)
  dotenv : string -> option (gmap string string);
                                         (* the variables of the env file at a
                                            path; None when it cannot be read *)
  cwd : list string;                     (* the working directory *)
  fs : FS.Node;
  remote : Request -> string + Response; (* the service: an error or a response *)
  boundary : string;                     (* what multipart.NewWriter draws *)
  trace : list Effect                    (* what happened so far, oldest first *)
}.

Definition with_environ (e : gmap string string) (w : World) : World :=
  mkWorld e (executable w) (evalSymlinks w) (dotenv w) (cwd w) (fs w)
          (remote w) (boundary w) (trace w).

Definition with_fs (t : FS.Node) (w : World) : World :=
  mkWorld (environ w) (executable w) (evalSymlinks w) (dotenv w) (cwd w) t
          (remote w) (boundary w) (trace w).

Definition log (e : Effect) (w : World) : World :=
  mkWorld (environ w) (executable w) (evalSymlinks w) (dotenv w) (cwd w) (fs w)
          (remote w) (boundary w) (trace w ++ [e]).

(** The outcome of a computation: it returns, or the process exits. *)
Inductive Result (A : Type) :=
  | Ret (a : A) (w : World)
  | Exit (code : Z) (w : World).
Arguments Ret {A} a w.
Arguments Exit {A} code w.

Definition M (A : Type) : Type := World -> Result A.

Definition ret {A} (a : A) : M A := fun w => Ret a w.

Definition bind {A B} (m : M A) (k : A -> M B) : M B :=
  fun w => match m w with
           | Ret a w' => k a w'
           | Exit c w' => Exit c w'
           end.

Notation "'let*' x := m 'in' k" := (bind m (fun x => k))
  (at level 10, x name, m at level 100, k at level 200).
Notation "m ;; k" := (bind m (fun _ => k))
  (at level 100, k at level 200, right associativity).

Definition final {A} (r : Result A) : World :=
  match r with Ret _ w => w | Exit _ w => w end.

(** The effects of one kind in a trace. *)
Definition http_calls (t : list Effect) : list Request :=
  omap (fun e => match e with EHTTP r => Some r | _ => None end) t.

Definition otel_events (t : list Effect) : list Event :=
  omap (fun e => match e with EOtel ev => Some ev | _ => None end) t.

Definition stdout (t : list Effect) : string :=
  foldr (fun e acc => match e with EStdout s => s +:+ acc | _ => acc end) "" t.

Definition stderr (t : list Effect) : string :=
  foldr (fun e acc => match e with EStderr s => s +:+ acc | _ => acc end) "" t.

Definition env_reads (t : list Effect) : list string :=
  omap (fun e => match e with EGetenv n => Some n | _ => None end) t.

(** The writes to the standard output and to the standard error, one by
    one. *)
Definition stdout_writes (t : list Effect) : list string :=
  omap (fun e => match e with EStdout s => Some s | _ => None end) t.

Definition stderr_writes (t : list Effect) : list string :=
  omap (fun e => match e with EStderr s => Some s | _ => None end) t.

(** ** Primitives of the runtime and the libraries *)

Definition emit (e : Effect) : M unit := fun w => Ret tt (log e w).

Definition os_Exit {A} (code : Z) : M A := fun w => Exit code w.

(** [os.Getenv]: the empty string when the variable is not set. *)
Definition os_Getenv (name : string) : M string :=
  fun w => Ret (default "" (environ w !! name)) (log (EGetenv name) w).

Definition os_Executable : M (option string) := fun w => Ret (executable w) w.

Definition filepath_EvalSymlinks (p : string) : M (option string) :=
  fun w => Ret (evalSymlinks w p) w.

(** Modelled from the spec: [godotenv.Load] (github.com/joho/godotenv,
    not under src/). The variables of the file are added to the
    environment; "existing process environment values are not
    overridden". A file that cannot be read changes nothing, and the
    caller ignores the error. *)
Definition godotenv_Load (path : string) : M unit :=
  fun w =>
    let w1 := log (ELoadDotenv path) w in
    match dotenv w path with
    | Some vars => Ret tt (with_environ (environ w ∪ vars) w1)
    | None => Ret tt w1
    end.

(** Modelled from the spec: the telemetry package (pink-otel, not under
    src/) is "a sink the core calls with named events". *)
Definition otel_Info (name : string) (attrs : gmap string AttrVal) : M unit :=
  emit (EOtel (mkEvent LevelInfo name attrs)).

Definition otel_Error (name : string) (attrs : gmap string AttrVal) : M unit :=
  emit (EOtel (mkEvent LevelError name attrs)).

Definition newline : string := String (ascii_of_nat 10) "".

Definition fmt_Println (s : string) : M unit := emit (EStdout (s +:+ newline)).

Definition fmt_Fprintln_Stderr (s : string) : M unit := emit (EStderr (s +:+ newline)).

(** An open file: the name it was opened under and its place in the tree. *)
Record File := mkFile {
  f_name : string;
  f_place : list string
}.

Definition os_Stat (path : string) : M (FS.Errno + FS.Node) :=
  fun w => Ret (FS.stat (fs w) (cwd w) path) (log (EStat path) w).

(** [os.Open]: a directory opens too; reading it fails later. *)
Definition open_file (t : FS.Node) (cwd : list string) (path : string) : string + File :=
  if String.eqb path "" then inl (FS.PathError "open" path FS.ENOENT)
  else match FS.walk t (FS.start cwd path) (Filepath.split_slash path) with
       | inl e => inl (FS.PathError "open" path e)
       | inr place => inr (mkFile path place)
       end.

Definition os_Open (path : string) : M (string + File) :=
  fun w => Ret (open_file (fs w) (cwd w) path) (log (EOpen path) w).

(** Reading an open file to its end. *)
Definition read_file (t : FS.Node) (f : File) : string + string :=
  match FS.lookup t (f_place f) with
  | inr (FS.NFile data) => inr data
  | inr (FS.NDir _) => inl (FS.PathError "read" (f_name f) FS.EISDIR)
  | inl e => inl (FS.PathError "read" (f_name f) e)
  end.

Definition read_all (f : File) : M (string + string) :=
  fun w => Ret (read_file (fs w) f) w.

(** [os.MkdirAll]: the error names the path the work stopped at. *)
Definition os_MkdirAll (path : string) : M (option string) :=
  fun w =>
    let w1 := log (EMkdirAll path) w in
    match FS.mkdirAll (fs w) (cwd w) path with
    | inl (n, e) => Ret (Some (FS.PathError "mkdir" (FS.ancestor path n) e)) w1
    | inr t => Ret None (with_fs t w1)
    end.

Definition os_Create (path : string) : M (string + File) :=
  fun w =>
    let w1 := log (ECreate path) w in
    match FS.create (fs w) (cwd w) path with
    | inl e => Ret (inl (FS.PathError "open" path e)) w1
    | inr (place, t) => Ret (inr (mkFile path place)) (with_fs t w1)
    end.

(** [io.Copy(outFile, resp.Body)]: the bytes the stream delivers reach the
    file; the error that ends the stream, if any, is returned. *)
Definition io_Copy (dst : File) (resp : Response) : M (option string) :=
  fun w =>
    let w1 := log (EWrite (f_name dst) (RespBody resp)) w in
    match FS.put (fs w) (f_place dst) (FS.NFile (RespBody resp)) with
    | inl e => Ret (Some (FS.PathError "write" (f_name dst) e)) w1
    | inr t => Ret (ReadErr resp) (with_fs t w1)
    end.

(** [io.ReadAll(resp.Body)], the error dropped as the callers do. *)
Definition io_ReadAll (resp : Response) : string := RespBody resp.

(** *** URLs and requests *)

Definition is_ctl (c : ascii) : bool :=
  (nat_of_ascii c <? 32)%nat || (nat_of_ascii c =? 127)%nat.

Definition is_hex (c : ascii) : bool :=
  let n := nat_of_ascii c in
  ((48 <=? n) && (n <=? 57) || (65 <=? n) && (n <=? 70) || (97 <=? n) && (n <=? 102))%nat.

Fixpoint has_ctl (s : string) : bool :=
  match s with
  | EmptyString => false
  | String c r => is_ctl c || has_ctl r
  end.

(** The first [%] that two hexadecimal digits do not follow, with the
    (at most two) bytes after it: the text of [url.EscapeError]. *)
Fixpoint bad_escape (s : string) : option string :=
  match s with
  | EmptyString => None
  | String c r =>
      if Ascii.eqb c "%" then
        match r with
        | String a (String b r') =>
            if is_hex a && is_hex b then bad_escape r'
            else Some (String c (String a (String b "")))
        | _ => Some s
        end
      else bad_escape r
  end.

(** [strings.Cut] at the first occurrence of a byte. *)
Fixpoint cut (sep : ascii) (s : string) : string * string :=
  match s with
  | EmptyString => ("", "")
  | String c r =>
      if Ascii.eqb c sep then ("", r)
      else let '(a, b) := cut sep r in (String c a, b)
  end.

Definition dquote : string := String (ascii_of_nat 34) "".

(** *** [strconv.Quote] *)

Definition lowerhex (n : nat) : ascii :=
  ascii_of_nat (if (n <? 10)%nat then 48 + n else 87 + n).

(** Two hexadecimal digits of a byte. *)
Definition hex2 (n : nat) : string :=
  String (lowerhex (n / 16)) (String (lowerhex (n mod 16)) "").

(** A byte below [0x80] inside the quotes. *)
Definition quote_ascii (c : ascii) : string :=
  let n := nat_of_ascii c in
  if (n =? 34)%nat then "\" +:+ dquote
  else if (n =? 92)%nat then "\\"
  else if ((32 <=? n) && (n <=? 126))%nat then String c ""
  else if (n =? 7)%nat then "\a"
  else if (n =? 8)%nat then "\b"
  else if (n =? 12)%nat then "\f"
  else if (n =? 10)%nat then "\n"
  else if (n =? 13)%nat then "\r"
  else if (n =? 9)%nat then "\t"
  else if (n =? 11)%nat then "\v"
  else "\x" +:+ hex2 n.

Definition between (lo hi : nat) (c : ascii) : bool :=
  ((lo <=? nat_of_ascii c) && (nat_of_ascii c <=? hi))%nat.

(** The well-formed UTF-8 encodings of two, three and four bytes. *)
Definition utf8_two (c b1 : ascii) : bool :=
  between 194 223 c && between 128 191 b1.

Definition utf8_three (c b1 b2 : ascii) : bool :=
  (between 224 224 c && between 160 191 b1
   || (between 225 236 c || between 238 239 c) && between 128 191 b1
   || between 237 237 c && between 128 159 b1)
  && between 128 191 b2.

Definition utf8_four (c b1 b2 b3 : ascii) : bool :=
  (between 240 240 c && between 144 191 b1
   || between 241 243 c && between 128 191 b1
   || between 244 244 c && between 128 143 b1)
  && between 128 191 b2 && between 128 191 b3.

(** A rune of two bytes inside the quotes. Up to U+00FF a rune is
    printable from U+00A1 on, U+00AD apart, and is written [\u00xx]
    otherwise; the tables of [unicode.IsPrint] above U+00FF are not
    modelled: every rune there is taken as printable. *)
Definition quote_two (c b1 : ascii) : string :=
  let r := ((nat_of_ascii c - 192) * 64 + (nat_of_ascii b1 - 128))%nat in
  if ((r <=? 255) && ((r <? 161) || (r =? 173)))%nat then "\u00" +:+ hex2 r
  else String c (String b1 "").

(** The text between the quotes: a byte that is no part of a well-formed
    encoding is written [\xhh]. *)
Fixpoint quote_body (s : string) : string :=
  match s with
  | EmptyString => ""
  | String c r =>
      if (nat_of_ascii c <? 128)%nat then quote_ascii c +:+ quote_body r
      else
        let invalid := "\x" +:+ hex2 (nat_of_ascii c) +:+ quote_body r in
        match r with
        | String b1 r1 =>
            if utf8_two c b1 then quote_two c b1 +:+ quote_body r1
            else
              match r1 with
              | String b2 r2 =>
                  if utf8_three c b1 b2 then
                    String c (String b1 (String b2 "")) +:+ quote_body r2
                  else
                    match r2 with
                    | String b3 r3 =>
                        if utf8_four c b1 b2 b3 then
                          String c (String b1 (String b2 (String b3 ""))) +:+ quote_body r3
                        else invalid
                    | EmptyString => invalid
                    end
              | EmptyString => invalid
              end
        | EmptyString => invalid
        end
  end.

Definition strconv_Quote (s : string) : string :=
  dquote +:+ quote_body s +:+ dquote.

(** [url.Error.Error()], the operation being [parse]. *)
Definition url_Error (url err : string) : string :=
  "parse " +:+ strconv_Quote url +:+ ": " +:+ err.

(** [url.EscapeError.Error()]. *)
Definition EscapeError (esc : string) : string :=
  "invalid URL escape " +:+ strconv_Quote esc.

(** The ways [url.Parse] rejects a URL that starts with a well-formed
    scheme and host, as every URL built here does: a control byte before
    the fragment, or a malformed escape in the path or the fragment. *)
Definition url_Parse_err (raw : string) : option string :=
  let '(u, frag) := cut "#" raw in
  let '(path, _) := cut "?" u in
  if has_ctl u then Some (url_Error u "net/url: invalid control character in URL")
  else match bad_escape path with
       | Some esc => Some (url_Error u (EscapeError esc))
       | None =>
           match bad_escape frag with
           | Some esc => Some (url_Error raw (EscapeError esc))
           | None => None
           end
       end.

Definition http_NewRequest (method url : string) (body : Payload) : string + Request :=
  match url_Parse_err url with
  | Some e => inl e
  | None => inr (mkRequest method url ∅ body 0)
  end.

(** [req.Header.Set]. *)
Definition Header_Set (key value : string) (req : Request) : Request :=
  mkRequest (Method req) (URL req) (<[key:=value]> (Header req)) (Body req) (Timeout req).

(** [(&http.Client{Timeout: t}).Do(req)]. *)
Definition client_Do (timeout : Z) (req : Request) : M (string + Response) :=
  fun w =>
    let sent := mkRequest (Method req) (URL req) (Header req) (Body req) timeout in
    Ret (remote w sent) (log (EHTTP sent) w).

(** *** JSON *)

(** How [encoding/json] names a float it cannot encode. *)
Definition float_unsupported (f : float) : option string :=
  if PrimFloat.is_nan f then Some "NaN"
  else if PrimFloat.is_infinity f then
    Some (if PrimFloat.ltb f PrimFloat.zero then "-Inf" else "+Inf")
  else None.

(** [json.Marshal] of a [ttsRequest]: the fields are encoded in order, and
    the first float without a JSON form fails the call. *)
Definition json_Marshal (r : ttsRequest) : string + Payload :=
  let vs := VoiceSettings r in
  match omap float_unsupported [Stability vs; SimilarityBoost vs; Style vs; Speed vs] with
  | bad :: _ => inl ("json: unsupported value: " +:+ bad)
  | [] => inr (JSONBody r)
  end.

(** ** The program ([main.go]) *)

Definition apiBaseURL : string := "https://api.elevenlabs.io/v1".
Definition defaultTTSModel : string := "eleven_v3".
Definition defaultVoiceModel : string := "eleven_multilingual_sts_v2".

Definition outputFormats : gmap string string :=
  {[ "opus" := "opus_48000_96";
     "mp3" := "mp3_44100_128";
     "pcm" := "pcm_44100" ]}.

Definition loadEnv : M unit :=
  let* exe := os_Executable in
  match exe with
  | Some exe =>
      let* realExe := filepath_EvalSymlinks exe in
      let exe := match realExe with Some r => r | None => exe end in
      let envPath := Filepath.Join (Filepath.Dir exe) ".env" in
      godotenv_Load envPath
  | None => ret tt
  end;;
  godotenv_Load ".env".

Definition getAPIKey : M string :=
  loadEnv;;
  let* key := os_Getenv "ELEVENLABS_API_KEY" in
  if String.eqb key "" then
    otel_Error "ELEVENLABS_API_KEY not found" ∅;;
    fmt_Fprintln_Stderr "ERROR: ELEVENLABS_API_KEY not found in environment";;
    os_Exit 1
  else ret key.

Definition getTTSVoiceID : M string :=
  loadEnv;;
  let* id := os_Getenv "ELEVENLABS_TTS_VOICE_ID" in
  if String.eqb id "" then
    otel_Error "ELEVENLABS_TTS_VOICE_ID not found" ∅;;
    fmt_Fprintln_Stderr "ERROR: ELEVENLABS_TTS_VOICE_ID not found in environment";;
    os_Exit 1
  else ret id.

Definition getVoiceChangeID : M string :=
  loadEnv;;
  let* id := os_Getenv "ELEVENLABS_VOICE_CHANGE_ID" in
  if String.eqb id "" then
    otel_Error "ELEVENLABS_VOICE_CHANGE_ID not found" ∅;;
    fmt_Fprintln_Stderr "ERROR: ELEVENLABS_VOICE_CHANGE_ID not found in environment";;
    os_Exit 1
  else ret id.

Definition checkHealth : M bool :=
  loadEnv;;
  let* key := os_Getenv "ELEVENLABS_API_KEY" in
  if String.eqb key "" then ret false
  else
    match http_NewRequest "GET" (apiBaseURL +:+ "/user") NoBody with
    | inl _ => ret false
    | inr req =>
        let req := Header_Set "xi-api-key" key req in
        let* resp := client_Do 10 req in
        match resp with
        | inl _ => ret false
        | inr resp => ret (StatusCode resp =? 200)%Z
        end
    end.

(** A Go [error] is [None] for nil, or its message. *)
Definition textToSpeech (text outputPath voiceID format : string)
    (stability similarityBoost style speed : float) (speakerBoost : bool)
  : M (option string) :=
  let* apiKey := getAPIKey in
  match outputFormats !! format with
  | None => ret (Some ("unsupported format: " +:+ format))
  | Some apiFormat =>
  let reqBody :=
    mkTtsRequest text defaultTTSModel
      (mkVoiceSettings stability similarityBoost style speed speakerBoost) in
  match json_Marshal reqBody with
  | inl err => ret (Some ("failed to marshal request: " +:+ err))
  | inr jsonBody =>
  let url := apiBaseURL +:+ "/text-to-speech/" +:+ voiceID
             +:+ "?output_format=" +:+ apiFormat in
  match http_NewRequest "POST" url jsonBody with
  | inl err => ret (Some ("failed to create request: " +:+ err))
  | inr req =>
  let req := Header_Set "Content-Type" "application/json" req in
  let req := Header_Set "xi-api-key" apiKey req in
  otel_Info "tts_request"
    {[ "voice_id" := AStr voiceID;
       "format" := AStr format;
       "text_len" := AInt (Z.of_nat (String.length text)) ]};;
  let* resp := client_Do 120 req in
  match resp with
  | inl err => ret (Some ("request failed: " +:+ err))
  | inr resp =>
  if negb (StatusCode resp =? 200)%Z then
    let body := io_ReadAll resp in
    ret (Some ("API error " +:+ pretty (StatusCode resp) +:+ ": " +:+ body))
  else
  let* err := os_MkdirAll (Filepath.Dir outputPath) in
  match err with
  | Some err => ret (Some ("failed to create output directory: " +:+ err))
  | None =>
  let* outFile := os_Create outputPath in
  match outFile with
  | inl err => ret (Some ("failed to create output file: " +:+ err))
  | inr outFile =>
  let* err := io_Copy outFile resp in
  match err with
  | Some err => ret (Some ("failed to write output: " +:+ err))
  | None =>
  otel_Info "tts_complete" {[ "output" := AStr outputPath ]};;
  ret None
  end end end end end end end.

(** The multipart writer fills a memory buffer, so creating the form file
    and the field cannot fail; the form is kept as its two parts. *)
Definition voiceChange (inputPath outputPath voiceID format : string)
  : M (option string) :=
  let* apiKey := getAPIKey in
  match outputFormats !! format with
  | None => ret (Some ("unsupported format: " +:+ format))
  | Some apiFormat =>
  let* inputFile := os_Open inputPath in
  match inputFile with
  | inl err => ret (Some ("failed to open input file: " +:+ err))
  | inr inputFile =>
  let* audio := read_all inputFile in
  match audio with
  | inl err => ret (Some ("failed to copy audio data: " +:+ err))
  | inr audio =>
  let* bnd := (fun w => Ret (boundary w) w) in
  let body :=
    MultipartBody bnd
      [FormFile "audio" (Filepath.Base inputPath) audio;
       FormField "model_id" defaultVoiceModel] in
  let url := apiBaseURL +:+ "/speech-to-speech/" +:+ voiceID
             +:+ "?output_format=" +:+ apiFormat in
  match http_NewRequest "POST" url body with
  | inl err => ret (Some ("failed to create request: " +:+ err))
  | inr req =>
  let req := Header_Set "Content-Type" ("multipart/form-data; boundary=" +:+ bnd) req in
  let req := Header_Set "xi-api-key" apiKey req in
  otel_Info "voice_change_request"
    {[ "voice_id" := AStr voiceID;
       "format" := AStr format;
       "input" := AStr inputPath ]};;
  let* resp := client_Do 120 req in
  match resp with
  | inl err => ret (Some ("request failed: " +:+ err))
  | inr resp =>
  if negb (StatusCode resp =? 200)%Z then
    let respBody := io_ReadAll resp in
    ret (Some ("API error " +:+ pretty (StatusCode resp) +:+ ": " +:+ respBody))
  else
  let* err := os_MkdirAll (Filepath.Dir outputPath) in
  match err with
  | Some err => ret (Some ("failed to create output directory: " +:+ err))
  | None =>
  let* outFile := os_Create outputPath in
  match outFile with
  | inl err => ret (Some ("failed to create output file: " +:+ err))
  | inr outFile =>
  let* err := io_Copy outFile resp in
  match err with
  | Some err => ret (Some ("failed to write output: " +:+ err))
  | None =>
  otel_Info "voice_change_complete" {[ "output" := AStr outputPath ]};;
  ret None
  end end end end end end end end.

(** The [--health] branch of [main]. *)
Definition main_health : M unit :=
  let* ok := checkHealth in
  if ok then fmt_Println "OK";; os_Exit 0
  else fmt_Println "FAIL";; os_Exit 1.

(** The flags of [tts] after [fs.Parse]: parsing the command line, and the
    defaults it fills in, belong to the [flag] package. *)
Record ttsFlags := mkTtsFlags {
  tts_output : string;
  tts_voice : string;
  tts_format : string;
  tts_stability : float;
  tts_similarityBoost : float;
  tts_style : float;
  tts_speed : float;
  tts_noSpeakerBoost : bool;
  tts_args : list string   (* the positional arguments, [fs.Args()] *)
}.

Definition cmdTTS (fl : ttsFlags) : M unit :=
  match tts_args fl with
  | [] =>
      fmt_Fprintln_Stderr "ERROR: Text argument required";;
      os_Exit 1
  | text :: _ =>
      let voiceID := tts_voice fl in
      let* voiceID :=
        (if String.eqb voiceID "" then getTTSVoiceID else ret voiceID) in
      let* err :=
        textToSpeech text (tts_output fl) voiceID (tts_format fl)
          (tts_stability fl) (tts_similarityBoost fl) (tts_style fl)
          (tts_speed fl) (negb (tts_noSpeakerBoost fl)) in
      match err with
      | Some err =>
          otel_Error "tts_failed" {[ "error" := AStr err ]};;
          emit (EStderr ("ERROR: " +:+ err +:+ newline));;
          os_Exit 1
      | None => fmt_Println (tts_output fl)
      end
  end.

Record voiceFlags := mkVoiceFlags {
  vc_output : string;
  vc_voice : string;
  vc_format : string;
  vc_args : list string
}.

Definition cmdVoice (fl : voiceFlags) : M unit :=
  match vc_args fl with
  | [] =>
      fmt_Fprintln_Stderr "ERROR: Input file argument required";;
      os_Exit 1
  | inputPath :: _ =>
      let* st := os_Stat inputPath in
      match st with
      | inl FS.ENOENT =>
          emit (EStderr ("ERROR: Input file not found: " +:+ inputPath +:+ newline));;
          os_Exit 1
      | _ =>
          let voiceID := vc_voice fl in
          let* voiceID :=
            (if String.eqb voiceID "" then getVoiceChangeID else ret voiceID) in
          let* err := voiceChange inputPath (vc_output fl) voiceID (vc_format fl) in
          match err with
          | Some err =>
              otel_Error "voice_change_failed" {[ "error" := AStr err ]};;
              emit (EStderr ("ERROR: " +:+ err +:+ newline));;
              os_Exit 1
          | None => fmt_Println (vc_output fl)
          end
      end
  end.

(** ** The rest of [main.go]: defaults, usage and dispatch *)

Definition serviceName : string := "pink-elevenlabs".
Definition version : string := "2.0.0".

Definition defaultStability : float := 0%float.
Definition defaultSimilarityBoost : float := 0.75%float.
Definition defaultStyle : float := 0.5%float.
Definition defaultSpeed : float := 1%float.

(** [os.TempDir] on Unix: [$TMPDIR], or [/tmp] when it is empty. *)
Definition os_TempDir : M string :=
  let* dir := os_Getenv "TMPDIR" in
  if String.eqb dir "" then ret "/tmp" else ret dir.

Definition getDefaultTTSOutput : M string :=
  let* dir := os_TempDir in
  ret (Filepath.Join dir "speech.ogg").

Definition getDefaultVoiceOutput : M string :=
  let* dir := os_TempDir in
  ret (Filepath.Join dir "voice_changed.ogg").

Fixpoint zeros (n : nat) : string :=
  match n with
  | O => ""
  | S k => "0" +:+ zeros k
  end.

(** Division rounded to the nearest integer, a tie to the even one. *)
Definition round_half_even (num den : Z) : Z :=
  let q := (num / den)%Z in
  let r := (num mod den)%Z in
  if (den <? 2 * r)%Z then (q + 1)%Z
  else if (2 * r =? den)%Z then (if Z.odd q then q + 1 else q)%Z
  else q.

(** The decimal digits of [n / 10^prec], with [prec] digits after the point. *)
Definition fixed_digits (prec : nat) (n : Z) : string :=
  let unit := (10 ^ Z.of_nat prec)%Z in
  let frac := pretty (n mod unit)%Z in
  pretty (n / unit)%Z
  +:+ match prec with
      | O => ""
      | _ => "." +:+ zeros (prec - String.length frac) +:+ frac
      end.

(** The verb [%.<prec>f] of [fmt] on a float64: the exact value rounded to
    [prec] decimals. *)
Definition fmt_fixed (prec : nat) (f : float) : string :=
  match Prim2SF f with
  | S754_nan => "NaN"
  | S754_infinity s => if s then "-Inf" else "+Inf"
  | S754_zero s => (if s then "-" else "") +:+ fixed_digits prec 0
  | S754_finite s m e =>
      let scaled :=
        if (0 <=? e)%Z then (Z.pos m * 2 ^ e * 10 ^ Z.of_nat prec)%Z
        else round_half_even (Z.pos m * 10 ^ Z.of_nat prec) (2 ^ (- e)) in
      (if s then "-" else "") +:+ fixed_digits prec scaled
  end.

(** The text of [printUsage], its two paths left open. *)
Definition usage_text (ttsOut voiceOut : string) : string :=
  "pink-elevenlabs v" +:+ version +:+ " - Text-to-speech and voice transformation using ElevenLabs API" +:+ newline +:+
  newline +:+
  "Usage:" +:+ newline +:+
  "  pink-elevenlabs tts " +:+ dquote +:+ "text" +:+ dquote +:+ " [options]     Text-to-speech synthesis" +:+ newline +:+
  "  pink-elevenlabs voice <input> [options]  Voice transformation" +:+ newline +:+
  "  pink-elevenlabs --health                 Check API key validity" +:+ newline +:+
  "  pink-elevenlabs --version                Show version" +:+ newline +:+
  newline +:+
  "TTS options:" +:+ newline +:+
  "  -o, --output <path>         Output file (default: " +:+ ttsOut +:+ ")" +:+ newline +:+
  "  -v, --voice <id>            Voice ID (default: ELEVENLABS_TTS_VOICE_ID env)" +:+ newline +:+
  "  -f, --format <fmt>          Output format: opus, mp3, pcm (default: opus)" +:+ newline +:+
  "  --stability <0.0-1.0>       Voice stability (default: " +:+ fmt_fixed 1 defaultStability +:+ ")" +:+ newline +:+
  "  --similarity-boost <0.0-1.0> Similarity boost (default: " +:+ fmt_fixed 2 defaultSimilarityBoost +:+ ")" +:+ newline +:+
  "  --style <0.0-1.0>           Style exaggeration (default: " +:+ fmt_fixed 1 defaultStyle +:+ ")" +:+ newline +:+
  "  --speed <0.7-1.2>           Speech speed (default: " +:+ fmt_fixed 1 defaultSpeed +:+ ")" +:+ newline +:+
  "  --no-speaker-boost          Disable speaker boost" +:+ newline +:+
  newline +:+
  "Voice options:" +:+ newline +:+
  "  -o, --output <path>         Output file (default: " +:+ voiceOut +:+ ")" +:+ newline +:+
  "  -v, --voice <id>            Target voice ID (default: ELEVENLABS_VOICE_CHANGE_ID env)" +:+ newline +:+
  "  -f, --format <fmt>          Output format: opus, mp3, pcm (default: opus)" +:+ newline.

Definition printUsage : M unit :=
  let* ttsOut := getDefaultTTSOutput in
  let* voiceOut := getDefaultVoiceOutput in
  emit (EStdout (usage_text ttsOut voiceOut)).

Section Main.

(** [fs.Parse(args)] of each command's flag set, from the flags at their
    defaults to the flags as parsed: the [flag] package is taken as given.
    With [flag.ExitOnError] a parse may print and end the process. *)
Variable flag_Parse_tts : ttsFlags -> list string -> M ttsFlags.
Variable flag_Parse_voice : voiceFlags -> list string -> M voiceFlags.

(** [cmdTTS(args)]: the flags are declared with their defaults (the
    default output twice, once for each spelling of the flag), the
    arguments are parsed, and the command runs on the result. *)
Definition cmdTTS_args (args : list string) : M unit :=
  let* _ := getDefaultTTSOutput in
  let* output := getDefaultTTSOutput in
  let* fl :=
    flag_Parse_tts
      (mkTtsFlags output "" "opus" defaultStability defaultSimilarityBoost
         defaultStyle defaultSpeed false [])
      args in
  cmdTTS fl.

Definition cmdVoice_args (args : list string) : M unit :=
  let* _ := getDefaultVoiceOutput in
  let* output := getDefaultVoiceOutput in
  let* fl := flag_Parse_voice (mkVoiceFlags output "" "opus" []) args in
  cmdVoice fl.

(** [main], on [os.Args]. Returning is ending with status 0. *)
Definition main (osArgs : list string) : M unit :=
  match osArgs with
  | _ :: arg1 :: rest =>
      if String.eqb arg1 "--version" || String.eqb arg1 "-V" then
        emit (EStdout ("pink-elevenlabs v" +:+ version +:+ newline))
      else
        (if String.eqb arg1 "--health" then main_health else ret tt);;
        if String.eqb arg1 "--help" || String.eqb arg1 "-h" then printUsage
        else if String.eqb arg1 "tts" then cmdTTS_args rest
        else if String.eqb arg1 "voice" then cmdVoice_args rest
        else
          emit (EStderr ("Unknown command: " +:+ arg1 +:+ newline));;
          printUsage;;
          os_Exit 1
  | _ => printUsage;; os_Exit 1
  end.

End Main.

(** A float64 that JSON cannot carry. *)
Definition non_finite (f : float) : bool :=
  PrimFloat.is_nan f || PrimFloat.is_infinity f.

(** * Notions the properties are stated with *)

(** ** The environment after [loadEnv] *)

(** The env file next to the executable, when [os.Executable] succeeds. *)
Definition exe_env_path (w : World) : option string :=
  match executable w with
  | Some exe =>
      Some (Filepath.Join (Filepath.Dir (default exe (evalSymlinks w exe))) ".env")
  | None => None
  end.

Definition load_file (w : World) (path : string) (env : gmap string string)
  : gmap string string :=
  match dotenv w path with
  | Some vars => env ∪ vars
  | None => env
  end.

(** The environment once [loadEnv] has run. *)
Definition loaded_env (w : World) : gmap string string :=
  load_file w ".env"
    (match exe_env_path w with
     | Some p => load_file w p (environ w)
     | None => environ w
     end).

Definition load_trace (w : World) : list Effect :=
  match exe_env_path w with
  | Some p => [ELoadDotenv p; ELoadDotenv ".env"]
  | None => [ELoadDotenv ".env"]
  end.

(** What [os.Getenv name] returns once [loadEnv] has run. *)
Definition effective (w : World) (name : string) : string :=
  default "" (loaded_env w !! name).

(** The world after [loadEnv] and the further effects [extra]. *)
Definition after_load (w : World) (extra : list Effect) : World :=
  mkWorld (loaded_env w) (executable w) (evalSymlinks w) (dotenv w) (cwd w) (fs w)
          (remote w) (boundary w) (trace w ++ load_trace w ++ extra).

(** The diagnostic of a missing required setting: an error event and a
    line on the standard error, both naming the variable. *)
Definition ConfigurationMissing (name : string) : list Effect :=
  [EOtel (mkEvent LevelError (name +:+ " not found") ∅);
   EStderr ("ERROR: " +:+ name +:+ " not found in environment" +:+ newline)].

(** ** Requests and events *)

(** The request of the liveness probe. *)
Definition health_request (key : string) : Request :=
  mkRequest "GET" "https://api.elevenlabs.io/v1/user" {[ "xi-api-key" := key ]} NoBody 10.

(** What both operations do with a response: the status check, then the
    directory, the file, the copy and the completion event. *)
Definition materialize (complete outputPath : string) (resp : Response)
  : M (option string) :=
  if negb (StatusCode resp =? 200)%Z then
    ret (Some ("API error " +:+ pretty (StatusCode resp) +:+ ": " +:+ io_ReadAll resp))
  else
  let* err := os_MkdirAll (Filepath.Dir outputPath) in
  match err with
  | Some err => ret (Some ("failed to create output directory: " +:+ err))
  | None =>
  let* outFile := os_Create outputPath in
  match outFile with
  | inl err => ret (Some ("failed to create output file: " +:+ err))
  | inr outFile =>
  let* err := io_Copy outFile resp in
  match err with
  | Some err => ret (Some ("failed to write output: " +:+ err))
  | None =>
  otel_Info complete {[ "output" := AStr outputPath ]};;
  ret None
  end end end.

Definition complete_event (name outputPath : string) : Event :=
  mkEvent LevelInfo name {[ "output" := AStr outputPath ]}.

(** The request as the client sends it: both headers set, and the
    client's timeout. *)
Definition sent (contentType apiKey : string) (req : Request) : Request :=
  mkRequest (Method req) (URL req)
    (<["xi-api-key":=apiKey]> (<["Content-Type":=contentType]> (Header req)))
    (Body req) 120.

Definition tts_request_event (text voiceID format : string) : Event :=
  mkEvent LevelInfo "tts_request"
    {[ "voice_id" := AStr voiceID;
       "format" := AStr format;
       "text_len" := AInt (Z.of_nat (String.length text)) ]}.

Definition voice_request_event (inputPath voiceID format : string) : Event :=
  mkEvent LevelInfo "voice_change_request"
    {[ "voice_id" := AStr voiceID;
       "format" := AStr format;
       "input" := AStr inputPath ]}.

Definition tts_url (voiceID apiFormat : string) : string :=
  apiBaseURL +:+ "/text-to-speech/" +:+ voiceID +:+ "?output_format=" +:+ apiFormat.

Definition voice_url (voiceID apiFormat : string) : string :=
  apiBaseURL +:+ "/speech-to-speech/" +:+ voiceID +:+ "?output_format=" +:+ apiFormat.

(** ** Required settings *)

(** The value a file gives a name, if the file can be read and defines it. *)
Definition file_value (w : World) (path name : string) : option string :=
  match dotenv w path with
  | Some vars => vars !! name
  | None => None
  end.

(** The variable each required setting is read from. *)
Inductive Setting := APIKey | TTSVoiceID | VoiceChangeID.

Definition setting_name (s : Setting) : string :=
  match s with
  | APIKey => "ELEVENLABS_API_KEY"
  | TTSVoiceID => "ELEVENLABS_TTS_VOICE_ID"
  | VoiceChangeID => "ELEVENLABS_VOICE_CHANGE_ID"
  end.

(** The accessor of each required setting, as [main.go] writes it out
    three times. *)
Definition resolveRequired (s : Setting) : M string :=
  match s with
  | APIKey => getAPIKey
  | TTSVoiceID => getTTSVoiceID
  | VoiceChangeID => getVoiceChangeID
  end.

(** An installed copy with its own env file, run from a directory that has
    another one. *)
Definition two_env_files : World :=
  mkWorld ∅ (Some "/opt/pink/pink-elevenlabs") (fun _ => None)
    (fun p =>
       if String.eqb p "/opt/pink/.env" then
         Some {[ "ELEVENLABS_API_KEY" := "key-next-to-executable" ]}
       else if String.eqb p ".env" then
         Some {[ "ELEVENLABS_API_KEY" := "key-in-working-directory" ]}
       else None)
    [] (FS.NDir ∅) (fun _ => inl "no network") "boundary" [].

(** ** Commands *)

(** What a command does with the outcome of its operation. *)
Definition finish (failed output : string) (r : Result (option string)) : Result unit :=
  match r with
  | Exit c w => Exit c w
  | Ret (Some err) w =>
      Exit 1 (log (EStderr ("ERROR: " +:+ err +:+ newline))
                (log (EOtel (mkEvent LevelError failed {[ "error" := AStr err ]})) w))
  | Ret None w => Ret tt (log (EStdout (output +:+ newline)) w)
  end.

Definition run_tts (fl : ttsFlags) (text voiceID : string) : M (option string) :=
  textToSpeech text (tts_output fl) voiceID (tts_format fl)
    (tts_stability fl) (tts_similarityBoost fl) (tts_style fl)
    (tts_speed fl) (negb (tts_noSpeakerBoost fl)).

(** [os.IsNotExist] of the error of a [stat]. *)
Definition is_not_exist (st : FS.Errno + FS.Node) : bool :=
  match st with
  | inl FS.ENOENT => true
  | _ => false
  end.

(** How a command may end, counted from the world [w]: it returns after
    one write to the standard output, the destination path and a newline,
    and none to the standard error; or the process exits with status 1
    after no write to the standard output and one to the standard error,
    from [ERROR: ] to a final newline. *)
Definition ends_as_a_command (output : string) (w : World) (r : Result unit) : Prop :=
  match r with
  | Ret _ w' =>
      exists t,
        trace w' = trace w ++ t
        /\ stdout_writes t = [output +:+ newline]
        /\ stderr_writes t = []
  | Exit c w' =>
      c = 1%Z
      /\ exists t msg,
           trace w' = trace w ++ t
           /\ stdout_writes t = []
           /\ stderr_writes t = ["ERROR: " +:+ msg +:+ newline]
  end.

(** What [os.TempDir] returns in a world. *)
Definition temp_dir (w : World) : string :=
  if String.eqb (default "" (environ w !! "TMPDIR")) "" then "/tmp"
  else default "" (environ w !! "TMPDIR").

(** The world after [printUsage]: the temporary directory was looked up
    once for each default path, and the usage text printed. *)
Definition after_usage (w : World) : World :=
  log (EStdout (usage_text (Filepath.Join (temp_dir w) "speech.ogg")
                  (Filepath.Join (temp_dir w) "voice_changed.ogg")))
    (log (EGetenv "TMPDIR") (log (EGetenv "TMPDIR") w)).

(** The first arguments [main] knows. *)
Definition known_commands : list string :=
  ["--version"; "-V"; "--health"; "--help"; "-h"; "tts"; "voice"].

(** The flags of each command as its flag set declares them, before the
    command line is parsed, with the positional arguments [args]. *)
Definition tts_defaults (w : World) (args : list string) : ttsFlags :=
  mkTtsFlags (Filepath.Join (temp_dir w) "speech.ogg") "" "opus"
    defaultStability defaultSimilarityBoost defaultStyle defaultSpeed false args.

Definition voice_defaults (w : World) (args : list string) : voiceFlags :=
  mkVoiceFlags (Filepath.Join (temp_dir w) "voice_changed.ogg") "" "opus" args.

(** The world once a command has declared its flags: the temporary
    directory was looked up for both spellings of the output flag. *)
Definition flags_declared (w : World) : World :=
  log (EGetenv "TMPDIR") (log (EGetenv "TMPDIR") w).

(** ** Destinations *)

Fixpoint has_slash (s : string) : bool :=
  match s with
  | EmptyString => false
  | String c r => Ascii.eqb c "/" || has_slash r
  end.

(** A path element that names an entry: not empty, not [.], not [..]. *)
Definition plain (e : string) : Prop := FS.special e = false.

(** The path [p] is the file [f] in the directories [dirs], one inside
    the other, from the root or from the working directory; every name is
    plain. *)
Definition names (p : string) (dirs : list string) (f : string) : Prop :=
  Filepath.split_slash p = (if Filepath.is_rooted p then [""] else []) ++ dirs ++ [f]
  /\ Forall plain (dirs ++ [f]).

(** Of the directories [dirs] under [from], the first [k] exist and the
    next one, if there is one, is missing. *)
Definition made_up_to (root : FS.Node) (from dirs : list string) (k : nat) : Prop :=
  (k <= length dirs)%nat
  /\ exists ch, FS.lookup root (from ++ take k dirs) = inr (FS.NDir ch)
                /\ forall e, dirs !! k = Some e -> ch !! e = None.

(** ** Observations *)

(** What a run shows: how it ended, the file system it left, and every
    effect in order (environment reads, loads, events, output, requests,
    file operations). *)
Definition observe {A} (r : Result A) : (A + Z) * FS.Node * list Effect :=
  (match r with Ret a _ => inl a | Exit c _ => inr c end, fs (final r), trace (final r)).

(** Two worlds that differ at most in the value of the variable [K], in
    the process environment or in an env file. *)
Record agree_off (K : string) (w1 w2 : World) : Prop := mkAgree {
  ao_environ : forall k, k <> K -> environ w1 !! k = environ w2 !! k;
  ao_dotenv : forall p k, k <> K -> file_value w1 p k = file_value w2 p k;
  ao_executable : executable w1 = executable w2;
  ao_evalSymlinks : forall p, evalSymlinks w1 p = evalSymlinks w2 p;
  ao_cwd : cwd w1 = cwd w2;
  ao_fs : fs w1 = fs w2;
  ao_remote : forall r, remote w1 r = remote w2 r;
  ao_boundary : boundary w1 = boundary w2;
  ao_trace : trace w1 = trace w2
}.

(** * Concrete worlds *)

Definition ogg_bytes : string := "OggS-audio-bytes".

(** A service that accepts every request. *)
Definition accepting (_ : Request) : string + Response :=
  inr (mkResponse 200 ogg_bytes None).

(** The JSON text [{"detail":"bad voice"}]. *)
Definition bad_voice_body : string :=
  "{" +:+ dquote +:+ "detail" +:+ dquote +:+ ":" +:+ dquote +:+ "bad voice"
      +:+ dquote +:+ "}".

(** A service that rejects every request. *)
Definition rejecting (_ : Request) : string + Response :=
  inr (mkResponse 404 bad_voice_body None).

Definition home_tree : FS.Node :=
  FS.NDir {[ "tmp" := FS.NDir ∅;
             "home" := FS.NDir {[ "pink" := FS.NDir {[ "in.ogg" := FS.NFile "RIFF-voice" ]} ]} ]}.

Definition configured_env : gmap string string :=
  {[ "ELEVENLABS_API_KEY" := "sk-live";
     "ELEVENLABS_TTS_VOICE_ID" := "voice-default";
     "ELEVENLABS_VOICE_CHANGE_ID" := "voice-target" ]}.

Definition world_with (env : gmap string string) (service : Request -> string + Response)
  : World :=
  mkWorld env (Some "/opt/pink/pink-elevenlabs") (fun _ => None) (fun _ => None)
    ["home"; "pink"] home_tree service "f3a9" [].

(** Everything configured, and a service that answers 200. *)
Definition studio : World := world_with configured_env accepting.

(** Nothing configured: no variable, no env file. *)
Definition unconfigured : World := world_with ∅ accepting.

(** Everything configured, and a service that answers 404. *)
Definition refused : World := world_with configured_env rejecting.

Definition tts_flags (voice format : string) : ttsFlags :=
  mkTtsFlags "/tmp/out/speech.ogg" voice format 0%float 0.75%float 0.5%float 1%float
    false ["hello"].

Definition voice_flags (voice format : string) : voiceFlags :=
  mkVoiceFlags "out/changed.ogg" voice format ["in.ogg"].

Definition returned {A} (r : Result A) : bool :=
  match r with Ret _ _ => true | Exit _ _ => false end.

Definition exit_code {A} (r : Result A) : option Z :=
  match r with Ret _ _ => None | Exit c _ => Some c end.

(** The requests the two operations send in the concrete worlds. *)
Definition studio_tts_request : Request :=
  sent "application/json" "sk-live"
    (mkRequest "POST"
       "https://api.elevenlabs.io/v1/text-to-speech/voice-default?output_format=opus_48000_96"
       ∅
       (JSONBody (mkTtsRequest "hello" "eleven_v3"
                    (mkVoiceSettings 0%float 0.75%float 0.5%float 1%float true)))
       0).

Definition studio_voice_request : Request :=
  sent "multipart/form-data; boundary=f3a9" "sk-live"
    (mkRequest "POST"
       "https://api.elevenlabs.io/v1/speech-to-speech/voice-target?output_format=mp3_44100_128"
       ∅
       (MultipartBody "f3a9"
          [FormFile "audio" "in.ogg" "RIFF-voice";
           FormField "model_id" "eleven_multilingual_sts_v2"])
       0).

(** The studio with another default voice for synthesis, and with another
    default target voice for transformation. *)
Definition studio_other_tts_voice : World :=
  world_with (<["ELEVENLABS_TTS_VOICE_ID":="another-voice"]> configured_env) accepting.

Definition studio_other_target_voice : World :=
  world_with (delete "ELEVENLABS_VOICE_CHANGE_ID" configured_env) accepting.

(** A service that cannot be reached. *)
Definition unreachable (_ : Request) : string + Response :=
  inl "dial tcp: connection refused".

(** Everything configured, and no network. *)
Definition offline : World := world_with configured_env unreachable.

(** The parse of a command line that has no options: every argument is
    positional and every flag keeps its default. *)
Definition positional_tts (fl : ttsFlags) (args : list string) : M ttsFlags :=
  ret (mkTtsFlags (tts_output fl) (tts_voice fl) (tts_format fl) (tts_stability fl)
         (tts_similarityBoost fl) (tts_style fl) (tts_speed fl) (tts_noSpeakerBoost fl)
         args).

Definition positional_voice (fl : voiceFlags) (args : list string) : M voiceFlags :=
  ret (mkVoiceFlags (vc_output fl) (vc_voice fl) (vc_format fl) args).

(** A parse that refuses the command line: with [flag.ExitOnError] the
    process ends with status 2. *)
Definition refusing_tts (_ : ttsFlags) (_ : list string) : M ttsFlags := os_Exit 2.
Definition refusing_voice (_ : voiceFlags) (_ : list string) : M voiceFlags := os_Exit 2.

(** * Properties *)

(** ** The models of the libraries, on examples *)

Example Dir_tmp : Filepath.Dir "/tmp/speech.ogg" = "/tmp".
Proof. reflexivity. Qed.
Example Dir_plain : Filepath.Dir "speech.ogg" = ".".
Proof. reflexivity. Qed.
Example Dir_dotdot : Filepath.Dir "a/b/../c//d.ogg" = "a/c".
Proof. reflexivity. Qed.
Example Dir_root : Filepath.Dir "/x" = "/".
Proof. reflexivity. Qed.
Example Join_env : Filepath.Join "/usr/local/bin" ".env" = "/usr/local/bin/.env".
Proof. reflexivity. Qed.
Example Base_in : Filepath.Base "/data/in/voice.ogg" = "voice.ogg".
Proof. reflexivity. Qed.
Example Clean_up : Filepath.Clean "../../a/./b/.." = "../../a".
Proof. reflexivity. Qed.

Example mkdirAll_nested :
  match FS.mkdirAll tmp_only [] "/tmp/a/b" with
  | inr r => FS.is_dir r ["tmp"; "a"; "b"] && FS.is_dir r ["tmp"; "a"]
  | inl _ => false
  end = true.
Proof. vm_compute. reflexivity. Qed.

Example mkdirAll_under_file :
  FS.mkdirAll (FS.NDir {[ "tmp" := FS.NFile "x" ]}) [] "/tmp/a/b" = inl (1%nat, FS.ENOTDIR)
  /\ FS.ancestor "/tmp/a/b" 1 = "/tmp"
  /\ FS.ancestor "/tmp/a/b" 3 = "/tmp/a/b"
  /\ FS.ancestor "in.ogg/x" 1 = "in.ogg".
Proof. repeat split; vm_compute; reflexivity. Qed.

Example create_tmp :
  match FS.create tmp_only [] "/tmp/speech.ogg" with
  | inr (t, r) => bool_decide (t = ["tmp"; "speech.ogg"])
  | inl _ => false
  end = true.
Proof. vm_compute. reflexivity. Qed.

Example create_no_parent :
  FS.create tmp_only [] "/var/speech.ogg" = inl FS.ENOENT.
Proof. vm_compute. reflexivity. Qed.

Example url_ok : url_Parse_err "https://api.elevenlabs.io/v1/user" = None.
Proof. reflexivity. Qed.
Example url_bad_escape :
  url_Parse_err "https://api.elevenlabs.io/v1/text-to-speech/%zz?output_format=pcm_44100"
  = Some ("parse " +:+ dquote
          +:+ "https://api.elevenlabs.io/v1/text-to-speech/%zz?output_format=pcm_44100"
          +:+ dquote +:+ ": invalid URL escape " +:+ dquote +:+ "%zz" +:+ dquote).
Proof. vm_compute. reflexivity. Qed.

Example url_short_escape :
  url_Parse_err "https://api.elevenlabs.io/v1/text-to-speech/a%2?output_format=pcm_44100"
  = Some ("parse " +:+ dquote
          +:+ "https://api.elevenlabs.io/v1/text-to-speech/a%2?output_format=pcm_44100"
          +:+ dquote +:+ ": invalid URL escape " +:+ dquote +:+ "%2" +:+ dquote).
Proof. vm_compute. reflexivity. Qed.

Example url_control_byte :
  url_Parse_err ("https://api.elevenlabs.io/v1/text-to-speech/a" +:+ newline +:+ "b")
  = Some ("parse " +:+ dquote
          +:+ "https://api.elevenlabs.io/v1/text-to-speech/a\nb"
          +:+ dquote +:+ ": net/url: invalid control character in URL").
Proof. vm_compute. reflexivity. Qed.

Example Quote_bytes :
  strconv_Quote (String (ascii_of_nat 1) (String (ascii_of_nat 92) (String (ascii_of_nat 255) "")))
  = dquote +:+ "\x01\\\xff" +:+ dquote
  /\ strconv_Quote (String (ascii_of_nat 195) (String (ascii_of_nat 169) ""))
     = dquote +:+ String (ascii_of_nat 195) (String (ascii_of_nat 169) "") +:+ dquote
  /\ strconv_Quote (String (ascii_of_nat 194) (String (ascii_of_nat 160) ""))
     = dquote +:+ "\u00a0" +:+ dquote.
Proof. repeat split; vm_compute; reflexivity. Qed.

(** ** What [loadEnv] does to the environment *)

Lemma loadEnv_spec (w : World) : loadEnv w = Ret tt (after_load w []).
Proof.
  unfold loadEnv, after_load, loaded_env, load_trace, exe_env_path, load_file,
    bind, os_Executable, filepath_EvalSymlinks, godotenv_Load, ret, log, with_environ.
  destruct w as [env exe sym de cw t rem bd tr]; simpl.
  destruct exe as [exe|]; simpl.
  - destruct (sym exe) as [real|]; simpl;
      match goal with |- context [de ?p] => destruct (de p) end; simpl;
      destruct (de ".env"); simpl; rewrite <- ?app_assoc; reflexivity.
  - destruct (de ".env"); simpl; rewrite <- ?app_assoc; reflexivity.
Qed.

Lemma union_absorb (e m : gmap string string) :
  (forall k, is_Some (m !! k) -> is_Some (e !! k)) -> e ∪ m = e.
Proof.
  intros H. apply map_eq. intros k. rewrite lookup_union.
  destruct (e !! k) eqn:Ee, (m !! k) eqn:Em; simpl; try reflexivity.
  destruct (H k) as [x Hx]; [eauto | congruence].
Qed.

Lemma load_file_keeps (w : World) (p : string) (env : gmap string string) (k : string) :
  is_Some (env !! k) -> load_file w p env !! k = env !! k.
Proof.
  intros [v Hv]. unfold load_file. destruct (dotenv w p); [|reflexivity].
  rewrite lookup_union, Hv. destruct (g !! k); reflexivity.
Qed.

Lemma load_file_defines (w : World) (p : string) (env vars : gmap string string) (k : string) :
  dotenv w p = Some vars -> is_Some (vars !! k) -> is_Some (load_file w p env !! k).
Proof.
  intros Hd [v Hv]. unfold load_file. rewrite Hd, lookup_union, Hv.
  destruct (env !! k); simpl; eauto.
Qed.

Lemma load_file_twice (w : World) (p q : string) (env : gmap string string) :
  load_file w p (load_file w q (load_file w p env)) = load_file w q (load_file w p env).
Proof.
  unfold load_file at 1. destruct (dotenv w p) as [vars|] eqn:Hd; [|reflexivity].
  apply union_absorb. intros k Hk.
  destruct (load_file_defines w p env vars k Hd Hk) as [v Hv].
  rewrite load_file_keeps; eauto.
Qed.

Lemma load_file_idem (w : World) (p : string) (env : gmap string string) :
  load_file w p (load_file w p env) = load_file w p env.
Proof.
  unfold load_file at 1. destruct (dotenv w p) as [vars|] eqn:Hd; [|reflexivity].
  apply union_absorb. intros k Hk. eapply load_file_defines; eauto.
Qed.

(** Loading again changes nothing: the environment [loadEnv] leaves is a
    fixed point of it. *)
Lemma loaded_env_after_load (w : World) (extra : list Effect) :
  loaded_env (after_load w extra) = loaded_env w.
Proof.
  unfold loaded_env at 1.
  change (exe_env_path (after_load w extra)) with (exe_env_path w).
  change (environ (after_load w extra)) with (loaded_env w).
  assert (Hf : forall p env, load_file (after_load w extra) p env = load_file w p env)
    by reflexivity.
  destruct (exe_env_path w) as [p|] eqn:Hp; rewrite !Hf; unfold loaded_env; rewrite Hp.
  - rewrite (load_file_twice w p ".env"). apply load_file_idem.
  - apply load_file_idem.
Qed.

Lemma effective_after_load (w : World) (extra : list Effect) (name : string) :
  effective (after_load w extra) name = effective w name.
Proof. unfold effective. now rewrite loaded_env_after_load. Qed.

Lemma after_load_after_load (w : World) (e1 e2 : list Effect) :
  after_load (after_load w e1) e2
  = after_load w (e1 ++ load_trace w ++ e2).
Proof.
  unfold after_load at 1. rewrite loaded_env_after_load.
  unfold after_load, load_trace, exe_env_path; simpl.
  rewrite <- !app_assoc. reflexivity.
Qed.

(** ** The required settings *)

Ltac solve_getter :=
  intros w; unfold bind; rewrite loadEnv_spec;
  unfold os_Getenv, effective, after_load, ConfigurationMissing; simpl;
  match goal with |- context [String.eqb ?k ""] => destruct (String.eqb k "") end;
  unfold bind, otel_Error, fmt_Fprintln_Stderr, emit, os_Exit, ret, log; simpl;
  rewrite <- ?app_assoc; reflexivity.

Lemma getAPIKey_spec : forall w : World,
  getAPIKey w =
  if String.eqb (effective w "ELEVENLABS_API_KEY") "" then
    Exit 1 (after_load w (EGetenv "ELEVENLABS_API_KEY"
                            :: ConfigurationMissing "ELEVENLABS_API_KEY"))
  else Ret (effective w "ELEVENLABS_API_KEY")
           (after_load w [EGetenv "ELEVENLABS_API_KEY"]).
Proof. unfold getAPIKey. solve_getter. Qed.

Lemma getTTSVoiceID_spec : forall w : World,
  getTTSVoiceID w =
  if String.eqb (effective w "ELEVENLABS_TTS_VOICE_ID") "" then
    Exit 1 (after_load w (EGetenv "ELEVENLABS_TTS_VOICE_ID"
                            :: ConfigurationMissing "ELEVENLABS_TTS_VOICE_ID"))
  else Ret (effective w "ELEVENLABS_TTS_VOICE_ID")
           (after_load w [EGetenv "ELEVENLABS_TTS_VOICE_ID"]).
Proof. unfold getTTSVoiceID. solve_getter. Qed.

Lemma getVoiceChangeID_spec : forall w : World,
  getVoiceChangeID w =
  if String.eqb (effective w "ELEVENLABS_VOICE_CHANGE_ID") "" then
    Exit 1 (after_load w (EGetenv "ELEVENLABS_VOICE_CHANGE_ID"
                            :: ConfigurationMissing "ELEVENLABS_VOICE_CHANGE_ID"))
  else Ret (effective w "ELEVENLABS_VOICE_CHANGE_ID")
           (after_load w [EGetenv "ELEVENLABS_VOICE_CHANGE_ID"]).
Proof. unfold getVoiceChangeID. solve_getter. Qed.

Lemma eqb_empty_false (s : string) : s <> "" -> String.eqb s "" = false.
Proof. intros H. now apply String.eqb_neq. Qed.

Lemma eqb_empty_true (s : string) : s = "" -> String.eqb s "" = true.
Proof. intros ->. reflexivity. Qed.

(** ** Projections of a trace *)

Lemma http_calls_app (a b : list Effect) :
  http_calls (a ++ b) = http_calls a ++ http_calls b.
Proof. apply omap_app. Qed.

Lemma otel_events_app (a b : list Effect) :
  otel_events (a ++ b) = otel_events a ++ otel_events b.
Proof. apply omap_app. Qed.

Lemma env_reads_app (a b : list Effect) :
  env_reads (a ++ b) = env_reads a ++ env_reads b.
Proof. apply omap_app. Qed.

Lemma append_assoc (a b c : string) : (a +:+ b) +:+ c = a +:+ (b +:+ c).
Proof.
  induction a as [|x a IH]; [reflexivity|].
  change (String x ((a +:+ b) +:+ c) = String x (a +:+ (b +:+ c))).
  now rewrite IH.
Qed.

Lemma append_nil_r (a : string) : a +:+ "" = a.
Proof.
  induction a as [|x a IH]; [reflexivity|].
  change (String x (a +:+ "") = String x a). now rewrite IH.
Qed.

Lemma stdout_app (a b : list Effect) : stdout (a ++ b) = stdout a +:+ stdout b.
Proof.
  induction a as [|e a IH]; [reflexivity|].
  change ((e :: a) ++ b) with (e :: (a ++ b)).
  unfold stdout in *; cbn [foldr]. rewrite IH.
  destruct e; try reflexivity. symmetry; apply append_assoc.
Qed.

Lemma stderr_app (a b : list Effect) : stderr (a ++ b) = stderr a +:+ stderr b.
Proof.
  induction a as [|e a IH]; [reflexivity|].
  change ((e :: a) ++ b) with (e :: (a ++ b)).
  unfold stderr in *; cbn [foldr]. rewrite IH.
  destruct e; try reflexivity. symmetry; apply append_assoc.
Qed.

Lemma load_trace_http (w : World) : http_calls (load_trace w) = [].
Proof. unfold load_trace. now destruct (exe_env_path w). Qed.

Lemma load_trace_otel (w : World) : otel_events (load_trace w) = [].
Proof. unfold load_trace. now destruct (exe_env_path w). Qed.

Lemma load_trace_reads (w : World) : env_reads (load_trace w) = [].
Proof. unfold load_trace. now destruct (exe_env_path w). Qed.

Lemma load_trace_stdout (w : World) : stdout (load_trace w) = "".
Proof. unfold load_trace. now destruct (exe_env_path w). Qed.

Lemma load_trace_stderr (w : World) : stderr (load_trace w) = "".
Proof. unfold load_trace. now destruct (exe_env_path w). Qed.

(** ** Format table (C1) *)

Lemma outputFormats_other (name : string) :
  name <> "opus" -> name <> "mp3" -> name <> "pcm" -> outputFormats !! name = None.
Proof.
  intros H1 H2 H3. unfold outputFormats.
  rewrite !lookup_insert_ne by congruence.
  apply lookup_singleton_ne. congruence.
Qed.

Lemma outputFormats_Some (name token : string) :
  outputFormats !! name = Some token <->
  (name = "opus" /\ token = "opus_48000_96")
  \/ (name = "mp3" /\ token = "mp3_44100_128")
  \/ (name = "pcm" /\ token = "pcm_44100").
Proof.
  split.
  - intros H.
    destruct (decide (name = "opus")) as [->|H1]; [left; split; [reflexivity|] |].
    { vm_compute in H. congruence. }
    destruct (decide (name = "mp3")) as [->|H2]; [right; left; split; [reflexivity|] |].
    { vm_compute in H. congruence. }
    destruct (decide (name = "pcm")) as [->|H3]; [right; right; split; [reflexivity|] |].
    { vm_compute in H. congruence. }
    rewrite outputFormats_other in H by assumption. discriminate.
  - intros [[-> ->]|[[-> ->]|[-> ->]]]; reflexivity.
Qed.

Lemma textToSpeech_unsupported (w : World) (text outputPath voiceID format : string)
    (stability similarityBoost style speed : float) (speakerBoost : bool) :
  effective w "ELEVENLABS_API_KEY" <> "" ->
  outputFormats !! format = None ->
  textToSpeech text outputPath voiceID format stability similarityBoost style speed
    speakerBoost w
  = Ret (Some ("unsupported format: " +:+ format))
        (after_load w [EGetenv "ELEVENLABS_API_KEY"]).
Proof.
  intros Hk Hf. unfold textToSpeech, bind.
  rewrite getAPIKey_spec, (eqb_empty_false _ Hk), Hf. reflexivity.
Qed.

Lemma voiceChange_unsupported (w : World) (inputPath outputPath voiceID format : string) :
  effective w "ELEVENLABS_API_KEY" <> "" ->
  outputFormats !! format = None ->
  voiceChange inputPath outputPath voiceID format w
  = Ret (Some ("unsupported format: " +:+ format))
        (after_load w [EGetenv "ELEVENLABS_API_KEY"]).
Proof.
  intros Hk Hf. unfold voiceChange, bind.
  rewrite getAPIKey_spec, (eqb_empty_false _ Hk), Hf. reflexivity.
Qed.

(** C1. The format table maps exactly opus, mp3 and pcm to their wire
    tokens (opus_48000_96, mp3_44100_128, pcm_44100); no other name, and no
    case variant, has an entry. With a credential configured, synthesis and
    transformation asked for any other format return the error
    "unsupported format: <name>", which names the offending token, and
    send nothing to the service. *)
Theorem format_table_exact :
  (forall name token : string,
      outputFormats !! name = Some token <->
      (name = "opus" /\ token = "opus_48000_96")
      \/ (name = "mp3" /\ token = "mp3_44100_128")
      \/ (name = "pcm" /\ token = "pcm_44100"))
  /\ (forall (name : string) (w : World),
        name <> "opus" -> name <> "mp3" -> name <> "pcm" ->
        effective w "ELEVENLABS_API_KEY" <> "" ->
        outputFormats !! name = None
        /\ (forall (text outputPath voiceID : string)
                   (stability similarityBoost style speed : float) (speakerBoost : bool),
               exists w',
                 textToSpeech text outputPath voiceID name stability similarityBoost
                   style speed speakerBoost w
                 = Ret (Some ("unsupported format: " +:+ name)) w'
                 /\ http_calls (trace w') = http_calls (trace w))
        /\ (forall inputPath outputPath voiceID : string,
               exists w',
                 voiceChange inputPath outputPath voiceID name w
                 = Ret (Some ("unsupported format: " +:+ name)) w'
                 /\ http_calls (trace w') = http_calls (trace w))).
Proof.
  split; [exact outputFormats_Some|].
  intros name w H1 H2 H3 Hk.
  pose proof (outputFormats_other name H1 H2 H3) as Hf.
  assert (Hn : http_calls (trace (after_load w [EGetenv "ELEVENLABS_API_KEY"]))
               = http_calls (trace w)).
  { simpl. rewrite !http_calls_app, load_trace_http. simpl. now rewrite app_nil_r. }
  split; [exact Hf|]. split; intros; eexists; split; try exact Hn.
  - now apply textToSpeech_unsupported.
  - now apply voiceChange_unsupported.
Qed.

(** ** Missing credential (C2) *)

(** C2. When the credential is absent or empty in the environment the
    operation reads, synthesis and transformation both end the process
    with status 1 after the diagnostic that names ELEVENLABS_API_KEY; the
    effects up to that point are the two env-file loads, the read of the
    variable and the diagnostic, so no request reaches the network. *)
Theorem missing_credential_fails_before_network
    (w : World) (text inputPath outputPath voiceID format : string)
    (stability similarityBoost style speed : float) (speakerBoost : bool) :
  effective w "ELEVENLABS_API_KEY" = "" ->
  exists w',
    textToSpeech text outputPath voiceID format stability similarityBoost style speed
      speakerBoost w = Exit 1 w'
    /\ voiceChange inputPath outputPath voiceID format w = Exit 1 w'
    /\ trace w' = trace w ++ load_trace w
                  ++ EGetenv "ELEVENLABS_API_KEY"
                     :: ConfigurationMissing "ELEVENLABS_API_KEY"
    /\ http_calls (trace w') = http_calls (trace w)
    /\ fs w' = fs w.
Proof.
  intros Hk.
  exists (after_load w (EGetenv "ELEVENLABS_API_KEY"
                          :: ConfigurationMissing "ELEVENLABS_API_KEY")).
  repeat split.
  - unfold textToSpeech, bind. now rewrite getAPIKey_spec, (eqb_empty_true _ Hk).
  - unfold voiceChange, bind. now rewrite getAPIKey_spec, (eqb_empty_true _ Hk).
  - simpl. rewrite !http_calls_app, load_trace_http. simpl. now rewrite app_nil_r.
Qed.

(** ** The liveness probe (C6, C10) *)

Lemma checkHealth_spec (w : World) :
  checkHealth w =
  if String.eqb (effective w "ELEVENLABS_API_KEY") "" then
    Ret false (after_load w [EGetenv "ELEVENLABS_API_KEY"])
  else
    Ret (match remote w (health_request (effective w "ELEVENLABS_API_KEY")) with
         | inl _ => false
         | inr resp => (StatusCode resp =? 200)%Z
         end)
        (after_load w [EGetenv "ELEVENLABS_API_KEY";
                       EHTTP (health_request (effective w "ELEVENLABS_API_KEY"))]).
Proof.
  unfold checkHealth, bind. rewrite loadEnv_spec.
  unfold os_Getenv; simpl.
  change (default "" (loaded_env w !! "ELEVENLABS_API_KEY"))
    with (effective w "ELEVENLABS_API_KEY").
  destruct (String.eqb (effective w "ELEVENLABS_API_KEY") "").
  - unfold ret, after_load, log; simpl. now rewrite <- !app_assoc.
  - change (http_NewRequest "GET" (apiBaseURL +:+ "/user") NoBody)
      with (@inr string Request (mkRequest "GET" "https://api.elevenlabs.io/v1/user" ∅ NoBody 0)).
    unfold bind, client_Do, Header_Set, health_request, after_load, log; simpl.
    rewrite <- !app_assoc; simpl.
    destruct (remote w _); reflexivity.
Qed.

(** C10. Without a credential the probe answers false and the only
    effects are the env-file loads and the read of the variable: nothing is
    sent to the service. *)
Theorem checkHealth_without_credential (w : World) :
  effective w "ELEVENLABS_API_KEY" = "" ->
  exists w',
    checkHealth w = Ret false w'
    /\ trace w' = trace w ++ load_trace w ++ [EGetenv "ELEVENLABS_API_KEY"]
    /\ http_calls (trace w') = http_calls (trace w).
Proof.
  intros Hk. rewrite checkHealth_spec, (eqb_empty_true _ Hk).
  eexists; split; [reflexivity|]. split; [reflexivity|].
  simpl. rewrite !http_calls_app, load_trace_http. simpl. now rewrite app_nil_r.
Qed.

(** C6. The probe always returns a boolean to its caller, never ending
    the process; the boolean is true exactly when one GET request for
    /user was sent and the service answered it with status 200. Any other
    status, and any transport failure, gives false. *)
Theorem checkHealth_true_iff_200 (w : World) :
  exists (b : bool) (w' : World),
    checkHealth w = Ret b w'
    /\ (b = true <->
        exists (req : Request) (resp : Response),
          http_calls (trace w') = http_calls (trace w) ++ [req]
          /\ Method req = "GET"
          /\ URL req = apiBaseURL +:+ "/user"
          /\ remote w req = inr resp
          /\ StatusCode resp = 200%Z)
    /\ (forall req : Request,
          http_calls (trace w') = http_calls (trace w) ++ [req] ->
          match remote w req with
          | inl _ => b = false
          | inr resp => b = (StatusCode resp =? 200)%Z
          end).
Proof.
  rewrite checkHealth_spec.
  destruct (String.eqb (effective w "ELEVENLABS_API_KEY") "") eqn:Hk.
  - exists false; eexists; split; [reflexivity|].
    assert (Hn : forall req,
              http_calls (trace (after_load w [EGetenv "ELEVENLABS_API_KEY"]))
              <> http_calls (trace w) ++ [req]).
    { intros req. simpl. rewrite !http_calls_app, load_trace_http. simpl.
      rewrite app_nil_r. intros E.
      apply (f_equal (@length Request)) in E. rewrite length_app in E. simpl in E. lia. }
    split.
    + split; [discriminate|]. intros (req & resp & E & _). now apply Hn in E.
    + intros req E. now apply Hn in E.
  - set (key := effective w "ELEVENLABS_API_KEY").
    eexists; eexists; split; [reflexivity|].
    assert (Hc : forall req,
              http_calls (trace (after_load w [EGetenv "ELEVENLABS_API_KEY";
                                               EHTTP (health_request key)]))
              = http_calls (trace w) ++ [req] -> req = health_request key).
    { intros req. simpl. rewrite !http_calls_app, load_trace_http. simpl.
      intros E. apply app_inv_head in E. congruence. }
    split.
    + split.
      * intros Hb. exists (health_request key).
        destruct (remote w (health_request key)) as [e|resp] eqn:Hr; [discriminate|].
        exists resp. repeat split; try reflexivity.
        -- simpl. rewrite !http_calls_app, load_trace_http. reflexivity.
        -- now apply Z.eqb_eq.
      * intros (req & resp & E & _ & _ & Hr & Hs).
        apply Hc in E. subst req. rewrite Hr. now apply Z.eqb_eq.
    + intros req E. apply Hc in E. subst req.
      destruct (remote w (health_request key)); reflexivity.
Qed.

(** ** The file system: what the operations preserve and establish *)

Module FSFacts.
Import FS.

Lemma extends_refl (n : Node) : extends n n.
Proof. split; eauto. Qed.

Lemma extends_trans (a b c : Node) : extends a b -> extends b c -> extends a c.
Proof.
  intros [D1 E1] [D2 E2]. split; [eauto|].
  intros q x H. destruct (E1 q x H) as [x' H']. eauto.
Qed.

Lemma put_lookup (p : list string) :
  forall (n n' new : Node), put n p new = inr n' -> lookup n' p = inr new.
Proof.
  induction p as [|e p IH]; intros n n' new H; simpl in *.
  - destruct n; congruence.
  - destruct n as [|ch]; [discriminate|].
    destruct (ch !! e) as [c|] eqn:Hc.
    + destruct (put c p new) as [|c'] eqn:Hp; [discriminate|].
      injection H as <-. simpl. rewrite lookup_insert_eq. eauto.
    + destruct p; [|discriminate]. injection H as <-. simpl.
      now rewrite lookup_insert_eq.
Qed.

Lemma put_extends (p : list string) :
  forall (n n' new : Node), put n p new = inr n' -> extends n n'.
Proof.
  induction p as [|e p IH]; intros n n' new H; simpl in H.
  - destruct n as [c|ch]; [|discriminate]. split.
    + intros [|a q] Hq; unfold is_dir in Hq; simpl in Hq; discriminate.
    + intros [|a q] x Hq; simpl in Hq; [|discriminate]. simpl. eauto.
  - destruct n as [|ch]; [discriminate|].
    destruct (ch !! e) as [c|] eqn:Hc.
    + destruct (put c p new) as [|c'] eqn:Hp; [discriminate|].
      injection H as <-. destruct (IH c c' new Hp) as [D E]. split.
      * intros [|a q] Hq; [reflexivity|].
        unfold is_dir in *; simpl in *.
        destruct (decide (e = a)) as [->|Hne].
        -- rewrite lookup_insert_eq. rewrite Hc in Hq. apply D, Hq.
        -- now rewrite lookup_insert_ne.
      * intros [|a q] x Hq; simpl in *; [eauto|].
        destruct (decide (e = a)) as [->|Hne].
        -- rewrite lookup_insert_eq. rewrite Hc in Hq. eauto.
        -- rewrite lookup_insert_ne by assumption. eauto.
    + destruct p; [|discriminate]. injection H as <-. split.
      * intros [|a q] Hq; [reflexivity|].
        unfold is_dir in *; simpl in *.
        destruct (decide (e = a)) as [->|Hne].
        -- now rewrite Hc in Hq.
        -- now rewrite lookup_insert_ne.
      * intros [|a q] x Hq; simpl in *; [eauto|].
        destruct (decide (e = a)) as [->|Hne].
        -- now rewrite Hc in Hq.
        -- rewrite lookup_insert_ne by assumption. eauto.
Qed.

Lemma walk_extends (n n' : Node) (comps : list string) :
  extends n n' ->
  forall cur p, walk n cur comps = inr p -> walk n' cur comps = inr p.
Proof.
  intros [D E]. induction comps as [|e rest IH]; intros cur p H; simpl in *; [exact H|].
  destruct (is_dir n cur) eqn:Hd; simpl in H; [|discriminate].
  rewrite (D _ Hd); simpl.
  destruct (String.eqb e "" || String.eqb e "."); [eauto|].
  destruct (String.eqb e ".."); [eauto|].
  destruct (lookup n (cur ++ [e])) as [|x] eqn:Hl; [discriminate|].
  destruct (E _ _ Hl) as [x' ->]. eauto.
Qed.

Lemma walk_app (n : Node) (a b : list string) :
  forall cur,
    walk n cur (a ++ b)
    = match walk n cur a with
      | inl e => inl e
      | inr c => walk n c b
      end.
Proof.
  induction a as [|e a IH]; intros cur; simpl; [reflexivity|].
  destruct (negb (is_dir n cur)); [reflexivity|].
  destruct (String.eqb e "" || String.eqb e "."); [apply IH|].
  destruct (String.eqb e ".."); [apply IH|].
  destruct (lookup n (cur ++ [e])); [reflexivity | apply IH].
Qed.

(** Resolution ends in a directory only when it started in one. *)
Lemma walk_from_dir (n : Node) (comps cur p : list string) :
  walk n cur comps = inr p -> is_dir n p = true -> is_dir n cur = true.
Proof.
  destruct comps as [|e rest]; simpl.
  - now intros [= ->].
  - destruct (is_dir n cur); [reflexivity | discriminate].
Qed.

(** Empty components (doubled or trailing separators) do not matter when
    the path resolves to a directory. *)
Lemma walk_unfiltered (n : Node) (comps : list string) :
  forall cur p,
    walk n cur (filter (fun e => e <> "") comps) = inr p ->
    is_dir n p = true ->
    walk n cur comps = inr p.
Proof.
  induction comps as [|e rest IH]; intros cur p H Hp; [exact H|].
  rewrite filter_cons in H. destruct (decide (e <> "")) as [Hne|He].
  - simpl in *. destruct (negb (is_dir n cur)); [discriminate|].
    destruct (String.eqb e "" || String.eqb e "."); [eauto|].
    destruct (String.eqb e ".."); [eauto|].
    destruct (lookup n (cur ++ [e])); [discriminate | eauto].
  - assert (e = "") as -> by (destruct (decide (e = "")); [assumption | contradiction]).
    simpl. rewrite (walk_from_dir _ _ _ _ H Hp). simpl. eauto.
Qed.

Lemma special_false (f : string) :
  special f = false ->
  String.eqb f "" || String.eqb f "." = false /\ String.eqb f ".." = false.
Proof.
  unfold special. destruct (String.eqb f ""), (String.eqb f "."), (String.eqb f "..");
    simpl; intros; split; congruence.
Qed.

(** Resolving [comps] reaches [dir ++ [f]] once that entry exists. *)
Lemma walk_to_entry (n : Node) (from comps dir : list string) (x : Node) :
  comps <> [] ->
  walk n from (removelast comps) = inr dir ->
  special (List.last comps "") = false ->
  is_dir n dir = true ->
  lookup n (dir ++ [List.last comps ""]) = inr x ->
  walk n from comps = inr (dir ++ [List.last comps ""]).
Proof.
  intros Hne Hw Hs Hd Hl.
  rewrite (app_removelast_last "" Hne) at 1.
  rewrite walk_app, Hw. simpl. rewrite Hd. simpl.
  destruct (special_false _ Hs) as [-> ->]. now rewrite Hl.
Qed.

Lemma mkdir_at_spec (n n' : Node) (from comps : list string) :
  comps <> [] ->
  mkdir_at n from comps = inr n' ->
  extends n n' /\ stat_at n' from comps = inr (NDir ∅).
Proof.
  intros Hne H. unfold mkdir_at in H.
  destruct (walk n from (removelast comps)) as [|dir] eqn:Hw; [discriminate|].
  destruct (special (List.last comps "")) eqn:Hs; [discriminate|].
  destruct (lookup n (dir ++ [List.last comps ""])); [|discriminate].
  destruct (is_dir n dir) eqn:Hd; [|discriminate].
  pose proof (put_extends _ _ _ _ H) as Hx. split; [exact Hx|].
  unfold stat_at.
  rewrite (walk_to_entry n' from comps dir (NDir ∅)); auto.
  - now apply put_lookup in H.
  - eapply walk_extends; eauto.
  - now apply Hx.
  - now apply put_lookup in H.
Qed.

Lemma rev_nonempty {A} (x : A) (l : list A) : rev (x :: l) <> [].
Proof. simpl. destruct (rev l); discriminate. Qed.

Lemma mkdirAll_rec_spec (from : list string) (rcomps : list string) :
  forall n n',
    mkdirAll_rec n from rcomps = inr n' ->
    extends n n' /\ exists ch, stat_at n' from (rev rcomps) = inr (NDir ch).
Proof.
  induction rcomps as [|e parent IH]; intros n n' H.
  - simpl in H. destruct (stat_at n from []) as [|[|ch]] eqn:Hs; try discriminate.
    injection H as <-. split; [apply extends_refl | eauto].
  - cbn [mkdirAll_rec] in H.
    destruct (stat_at n from (rev (e :: parent))) as [e0|[c|ch]] eqn:Hs; try discriminate.
    2:{ injection H as <-. split; [apply extends_refl | eauto]. }
    set (made := match parent with
                 | [] => inr n
                 | _ => mkdirAll_rec n from parent
                 end) in H.
    assert (Hm : forall r, made = inr r -> extends n r).
    { intros r Hr. subst made. destruct parent.
      - injection Hr as <-. apply extends_refl.
      - now apply IH in Hr. }
    destruct made as [|n1]; [discriminate|]. specialize (Hm n1 eq_refl).
    destruct (mkdir_at n1 from (rev (e :: parent))) as [e1|n2] eqn:Hk.
    + destruct (stat_at n1 from (rev (e :: parent))) as [|[|ch]] eqn:Hs1; try discriminate.
      injection H as <-. split; eauto.
    + injection H as <-.
      destruct (mkdir_at_spec _ _ _ _ (rev_nonempty e parent) Hk) as [Hx Hst].
      split; [eapply extends_trans; eauto | eauto].
Qed.

Lemma stat_at_dir_extends (n n' : Node) (from comps : list string) (ch : gmap string Node) :
  extends n n' ->
  stat_at n from comps = inr (NDir ch) ->
  exists ch', stat_at n' from comps = inr (NDir ch').
Proof.
  intros Hx H. unfold stat_at in *.
  destruct (walk n from comps) as [|p] eqn:Hw; [discriminate|].
  rewrite (walk_extends _ _ _ Hx _ _ Hw).
  destruct Hx as [D _]. specialize (D p). unfold is_dir in D. rewrite H in D.
  specialize (D eq_refl). destruct (lookup n' p) as [|[|ch']]; try discriminate. eauto.
Qed.

(** [os.MkdirAll] leaves its argument a directory and removes nothing. *)
Lemma mkdirAll_spec (n n' : Node) (cwd : list string) (p : string) :
  mkdirAll n cwd p = inr n' ->
  extends n n' /\ exists ch, stat n' cwd p = inr (NDir ch).
Proof.
  unfold mkdirAll, stat. destruct (String.eqb p ""); [discriminate|].
  intros H. apply mkdirAll_rec_spec in H as [Hx [ch Hs]]. split; [exact Hx|].
  rewrite rev_involutive in Hs. exists ch. unfold stat_at in *.
  destruct (walk n' (start cwd p) (filter _ _)) as [|q] eqn:Hw; [discriminate|].
  rewrite (walk_unfiltered _ _ _ _ Hw); [exact Hs|].
  unfold is_dir. now rewrite Hs.
Qed.

Lemma split_slash_nonempty (s : string) : Filepath.split_slash s <> [].
Proof.
  induction s as [|c s IH]; simpl; [discriminate|].
  destruct (Ascii.eqb c "/"); [discriminate|].
  destruct (Filepath.split_slash s); discriminate.
Qed.

(** After [create] and a write through the handle, the path reads back as
    the bytes written. *)
Lemma create_then_write (n n1 n2 : Node) (cwd place : list string) (p data : string) :
  create n cwd p = inr (place, n1) ->
  put n1 place (NFile data) = inr n2 ->
  extends n n2 /\ stat n2 cwd p = inr (NFile data).
Proof.
  unfold create, stat. destruct (String.eqb p ""); [discriminate|].
  unfold create_target.
  destruct (walk n (start cwd p) (removelast (Filepath.split_slash p))) as [|dir] eqn:Hw;
    [discriminate|].
  destruct (special (List.last (Filepath.split_slash p) "")) eqn:Hs; [discriminate|].
  destruct (is_dir n (dir ++ [List.last (Filepath.split_slash p) ""])); [discriminate|].
  destruct (is_dir n dir) eqn:Hd; [|discriminate].
  destruct (put n _ (NFile "")) as [|r] eqn:Hp1; [discriminate|].
  intros [= <- <-] Hp2.
  assert (Hx : extends n n2).
  { eapply extends_trans; eapply put_extends; eauto. }
  split; [exact Hx|]. unfold stat_at.
  rewrite (walk_to_entry n2 _ _ dir (NFile data)); auto using split_slash_nonempty.
  - now apply put_lookup in Hp2.
  - eapply walk_extends; eauto.
  - now apply Hx.
  - now apply put_lookup in Hp2.
Qed.

Lemma stat_dir_extends (n n' : Node) (cwd : list string) (p : string) (ch : gmap string Node) :
  extends n n' ->
  stat n cwd p = inr (NDir ch) ->
  exists ch', stat n' cwd p = inr (NDir ch').
Proof.
  unfold stat. destruct (String.eqb p ""); [discriminate|]. apply stat_at_dir_extends.
Qed.

End FSFacts.

(** ** Paths of plain names *)

Module PathFacts.
Import Filepath.

Lemma append_cons (c : ascii) (s t : string) : String c s +:+ t = String c (s +:+ t).
Proof. reflexivity. Qed.

Lemma split_slash_free (s : string) :
  Forall (fun e => has_slash e = false) (split_slash s).
Proof.
  induction s as [|c s IH]; simpl.
  - constructor; [reflexivity | constructor].
  - destruct (Ascii.eqb c "/") eqn:E.
    + constructor; [reflexivity | exact IH].
    + destruct (split_slash s) as [|h t].
      * constructor; [simpl; now rewrite E | constructor].
      * inversion IH; subst. constructor; [simpl; now rewrite E | assumption].
Qed.

Lemma split_one (e : string) : has_slash e = false -> split_slash e = [e].
Proof.
  induction e as [|c e IH]; simpl; [reflexivity|].
  destruct (Ascii.eqb c "/"); simpl; [discriminate|].
  intros H. now rewrite (IH H).
Qed.

Lemma split_cons (e s : string) :
  has_slash e = false -> split_slash (e +:+ "/" +:+ s) = e :: split_slash s.
Proof.
  induction e as [|c e IH]; [reflexivity|].
  rewrite append_cons. simpl.
  destruct (Ascii.eqb c "/"); simpl; [discriminate|].
  intros H. now rewrite (IH H).
Qed.

Lemma split_join (es : list string) :
  es <> [] ->
  Forall (fun e => has_slash e = false) es ->
  split_slash (join_slash es) = es.
Proof.
  induction es as [|e r IH]; [congruence|]. intros _ H.
  inversion H as [|? ? He Hr]; subst.
  destruct r as [|e2 r].
  - simpl. now apply split_one.
  - change (join_slash (e :: e2 :: r)) with (e +:+ "/" +:+ join_slash (e2 :: r)).
    rewrite split_cons by assumption. f_equal. apply IH; [discriminate | assumption].
Qed.

Lemma plain_inv (e : string) :
  plain e -> String.eqb e "" = false /\ String.eqb e "." = false /\ String.eqb e ".." = false.
Proof.
  unfold plain, FS.special.
  destruct (String.eqb e ""), (String.eqb e "."), (String.eqb e ".."); simpl;
    intros; repeat split; congruence.
Qed.

Lemma clean_plain (rooted : bool) (es : list string) :
  Forall plain es ->
  forall stk, fold_left (clean_push rooted) es stk = rev es ++ stk.
Proof.
  induction 1 as [|e es He _ IH]; intros stk; [reflexivity|].
  simpl. unfold clean_push at 2.
  destruct (plain_inv e He) as (-> & -> & ->).
  rewrite IH, <- app_assoc. reflexivity.
Qed.

Lemma filter_nonempty (es : list string) :
  Forall plain es -> filter (fun e => e <> "") es = es.
Proof.
  induction 1 as [|e es He _ IH]; [reflexivity|].
  rewrite filter_cons, IH. destruct (decide (e <> "")) as [|Hn]; [reflexivity|].
  destruct (plain_inv e He) as (H & _). apply String.eqb_neq in H.
  destruct (decide (e = "")); [contradiction | now destruct Hn].
Qed.

Lemma join_first (d : string) (r : list string) :
  plain d -> has_slash d = false ->
  is_rooted (join_slash (d :: r)) = false /\ join_slash (d :: r) <> "".
Proof.
  intros Hp Hs. destruct (plain_inv d Hp) as (Hne & _).
  destruct d as [|c d]; [discriminate|]. simpl in Hs.
  destruct (Ascii.eqb c "/") eqn:E; [discriminate|].
  destruct r; simpl; rewrite ?append_cons; simpl; rewrite ?E; split; congruence.
Qed.

Lemma render_rooted (rooted : bool) (ds : list string) :
  Forall plain ds -> Forall (fun e => has_slash e = false) ds ->
  is_rooted (render rooted ds) = rooted /\ String.eqb (render rooted ds) "" = false.
Proof.
  intros Hp Hf. unfold render. destruct rooted; [split; reflexivity|].
  destruct ds as [|d r]; [split; reflexivity|].
  inversion Hp; inversion Hf; subst.
  destruct (join_first d r) as [Ha Hb]; auto. split; [exact Ha|].
  now apply String.eqb_neq.
Qed.

(** The components [os.MkdirAll] works on. *)
Lemma render_components (rooted : bool) (ds : list string) :
  Forall plain ds -> Forall (fun e => has_slash e = false) ds ->
  filter (fun e => e <> "") (split_slash (render rooted ds))
  = match ds with
    | [] => if rooted then [] else ["."]
    | _ => ds
    end.
Proof.
  intros Hp Hf. unfold render. destruct rooted.
  - change (split_slash ("/" +:+ join_slash ds)) with ("" :: split_slash (join_slash ds)).
    rewrite filter_cons. destruct (decide ("" <> "")) as [H|_]; [now destruct H|].
    destruct ds as [|d r]; [reflexivity|].
    rewrite split_join by (assumption || discriminate). now apply filter_nonempty.
  - destruct ds as [|d r]; [reflexivity|].
    rewrite split_join by (assumption || discriminate). now apply filter_nonempty.
Qed.

Lemma Dir_named (p : string) (dirs : list string) (f : string) :
  split_slash p = (if is_rooted p then [""] else []) ++ dirs ++ [f] ->
  Forall plain dirs ->
  Dir p = render (is_rooted p) dirs.
Proof.
  intros Hsplit Hp.
  unfold Dir, clean_elems. rewrite Hsplit, !app_assoc, removelast_last.
  rewrite fold_left_app.
  assert (H0 : fold_left (clean_push (is_rooted p)) (if is_rooted p then [""] else []) []
               = []) by (destruct (is_rooted p); reflexivity).
  rewrite H0, (clean_plain _ _ Hp), app_nil_r, rev_involutive. reflexivity.
Qed.

Lemma dirs_free (p : string) (pre dirs : list string) (f : string) :
  split_slash p = pre ++ dirs ++ [f] ->
  Forall (fun e => has_slash e = false) dirs.
Proof.
  intros Hsplit. pose proof (split_slash_free p) as H. rewrite Hsplit in H.
  apply Forall_app in H as [_ H]. now apply Forall_app in H as [H _].
Qed.

Lemma path_nonempty (p : string) (pre dirs : list string) (f : string) :
  split_slash p = pre ++ dirs ++ [f] -> plain f -> String.eqb p "" = false.
Proof.
  intros Hsplit Hf. apply String.eqb_neq. intros ->. simpl in Hsplit.
  destruct (plain_inv f Hf) as (Hne & _).
  assert (H : In f [""]) by (rewrite Hsplit, !in_app_iff; right; right; now left).
  destruct H as [<-|[]]. discriminate.
Qed.

End PathFacts.

(** ** Making the missing directories *)

Module MkdirFacts.
Import FS.

Lemma lookup_app (a : list string) :
  forall (n : Node) (b : list string),
    lookup n (a ++ b)
    = match lookup n a with
      | inr y => lookup y b
      | inl e => inl e
      end.
Proof.
  induction a as [|e a IH]; intros n b; [reflexivity|].
  simpl. destruct n as [|ch]; [reflexivity|].
  destruct (ch !! e); [apply IH | reflexivity].
Qed.

Lemma lookup_snoc (p : list string) (n : Node) (e : string) :
  lookup n (p ++ [e])
  = match lookup n p with
    | inr (NDir c) => match c !! e with Some x => inr x | None => inl ENOENT end
    | inr (NFile _) => inl ENOTDIR
    | inl err => inl err
    end.
Proof.
  rewrite lookup_app. destruct (lookup n p) as [|[|c]]; reflexivity.
Qed.

Lemma lookup_dir_prefix (n : Node) (a b : list string) (c : gmap string Node) :
  lookup n (a ++ b) = inr (NDir c) -> is_dir n a = true.
Proof.
  rewrite lookup_app. unfold is_dir. destruct (lookup n a) as [|[x|ch]]; intros H.
  - discriminate.
  - destruct b; discriminate.
  - reflexivity.
Qed.

Lemma lookup_entry_prefix (n x : Node) (a : list string) (e : string) (b : list string) :
  lookup n (a ++ e :: b) = inr x -> is_dir n a = true /\ exists y, lookup n (a ++ [e]) = inr y.
Proof.
  rewrite lookup_app, lookup_snoc. unfold is_dir.
  destruct (lookup n a) as [|[|ch]]; try discriminate. simpl.
  destruct (ch !! e); [eauto | discriminate].
Qed.

(** Plain names that exist resolve to themselves. *)
Lemma walk_plain (comps : list string) :
  Forall plain comps ->
  forall (n : Node) (cur : list string) (c : gmap string Node),
    lookup n (cur ++ comps) = inr (NDir c) ->
    walk n cur comps = inr (cur ++ comps).
Proof.
  induction 1 as [|e rest He _ IH]; intros n cur c H.
  - now rewrite app_nil_r.
  - destruct (lookup_entry_prefix _ _ _ _ _ H) as [Hd [y Hy]].
    simpl. rewrite Hd. simpl.
    destruct (PathFacts.plain_inv e He) as (-> & -> & ->). simpl. rewrite Hy.
    rewrite (IH n (cur ++ [e]) c); rewrite <- app_assoc; [reflexivity | exact H].
Qed.

Lemma stat_at_plain (n : Node) (from comps : list string) (c : gmap string Node) :
  Forall plain comps ->
  lookup n (from ++ comps) = inr (NDir c) ->
  stat_at n from comps = inr (NDir c).
Proof.
  intros Hp H. unfold stat_at. now rewrite (walk_plain comps Hp n from c H).
Qed.

(** Past a missing entry nothing resolves. *)
Lemma stat_at_absent (n : Node) (from comps : list string) (k j : nat)
    (ch : gmap string Node) :
  Forall plain comps ->
  lookup n (from ++ take k comps) = inr (NDir ch) ->
  (forall e, comps !! k = Some e -> ch !! e = None) ->
  (k < j <= length comps)%nat ->
  stat_at n from (take j comps) = inl ENOENT.
Proof.
  intros Hp Hk Ha [Hkj Hj].
  destruct (lookup_lt_is_Some_2 comps k) as [e He]; [lia|].
  assert (Hsplit : take j comps = take k comps ++ e :: drop (S k) (take j comps)).
  { rewrite <- (take_drop k (take j comps)) at 1.
    rewrite take_take, Nat.min_l by lia. f_equal.
    apply drop_S. rewrite lookup_take_lt by lia. exact He. }
  unfold stat_at. rewrite Hsplit, FSFacts.walk_app.
  rewrite (walk_plain (take k comps)) with (c := ch);
    [|now apply Forall_take | exact Hk].
  simpl. assert (Hd : is_dir n (from ++ take k comps) = true)
    by (unfold is_dir; now rewrite Hk).
  rewrite Hd. simpl.
  assert (He' : plain e) by (eapply Forall_lookup_1; eauto).
  destruct (PathFacts.plain_inv e He') as (-> & -> & ->). simpl.
  now rewrite lookup_snoc, Hk, (Ha e He).
Qed.

(** An entry that is missing, or a regular file, can be written. *)
Lemma put_new (dir : list string) :
  forall (n : Node) (c : gmap string Node) (e : string) (new : Node),
    lookup n dir = inr (NDir c) ->
    (c !! e = None \/ exists x, c !! e = Some (NFile x)) ->
    exists n', put n (dir ++ [e]) new = inr n'.
Proof.
  induction dir as [|a d IH]; intros n c e new Hl Hc; simpl in *.
  - injection Hl as ->. destruct Hc as [-> | [x ->]]; simpl; eauto.
  - destruct n as [|ch]; [discriminate|].
    destruct (ch !! a) as [y|]; [|discriminate].
    destruct (IH y c e new Hl Hc) as [y' ->]. eauto.
Qed.

Lemma mkdirAll_rec_dir (n : Node) (from rc : list string) (ch : gmap string Node) :
  stat_at n from (rev rc) = inr (NDir ch) -> mkdirAll_rec n from rc = inr n.
Proof. intros H. destruct rc; cbn [mkdirAll_rec]; now rewrite H. Qed.

(** [mkdirAll_rec] makes every missing level: with the first [k] names
    there and the next one missing, the first [k + d] are there afterwards,
    the new ones empty. *)
Lemma mkdirAll_rec_grow (dirs : list string) (n : Node) (from : list string) (k : nat)
    (ch : gmap string Node) :
  Forall plain dirs ->
  lookup n (from ++ take k dirs) = inr (NDir ch) ->
  (forall e, dirs !! k = Some e -> ch !! e = None) ->
  forall d,
    (k + d <= length dirs)%nat ->
    exists n',
      mkdirAll_rec n from (rev (take (k + d) dirs)) = inr n'
      /\ extends n n'
      /\ (d = 0%nat -> n' = n)
      /\ (0 < d -> lookup n' (from ++ take (k + d) dirs) = inr (NDir ∅))%nat.
Proof.
  intros Hp Hk Ha. induction d as [|d IH]; intros Hle.
  - rewrite Nat.add_0_r. exists n. split.
    + apply mkdirAll_rec_dir with ch. rewrite rev_involutive. now apply stat_at_plain;
        [apply Forall_take|].
    + split; [apply FSFacts.extends_refl|]. split; [reflexivity | lia].
  - destruct IH as (nj & Hrec & Hx & H0 & Hpos); [lia|].
    set (j := (k + d)%nat) in *.
    destruct (lookup_lt_is_Some_2 dirs j) as [e He]; [lia|].
    assert (Hpe : plain e) by (eapply Forall_lookup_1; eauto).
    replace (k + S d)%nat with (S j) by lia.
    rewrite (take_S_r dirs j e He), rev_app_distr. simpl rev.
    change ([e] ++ rev (take j dirs)) with (e :: rev (take j dirs)).
    cbn [mkdirAll_rec].
    assert (Hrev : rev (e :: rev (take j dirs)) = take j dirs ++ [e])
      by (simpl; now rewrite rev_involutive).
    rewrite Hrev.
    assert (Hst : stat_at n from (take j dirs ++ [e]) = inl ENOENT).
    { rewrite <- (take_S_r dirs j e He).
      apply stat_at_absent with k ch; auto. lia. }
    rewrite Hst.
    assert (Hmade : match rev (take j dirs) with
                    | [] => inr n
                    | _ :: _ => mkdirAll_rec n from (rev (take j dirs))
                    end = (inr nj : nat * Errno + Node)).
    { destruct (rev (take j dirs)) eqn:Er; [|exact Hrec].
      f_equal. symmetry. apply H0.
      apply (f_equal (@length string)) in Er. rewrite length_rev, length_take in Er.
      simpl in Er. lia. }
    rewrite Hmade.
    (* the directory at level j, in nj *)
    assert (Hdir : exists cj, lookup nj (from ++ take j dirs) = inr (NDir cj)
                              /\ cj !! e = None).
    { destruct d as [|d'].
      - rewrite (H0 eq_refl). subst j. rewrite Nat.add_0_r in *. eauto.
      - exists ∅. split; [apply Hpos; lia | apply lookup_empty]. }
    destruct Hdir as (cj & Hlj & Hce).
    unfold mkdir_at. rewrite removelast_last, last_last.
    rewrite (walk_plain (take j dirs)) with (c := cj);
      [|now apply Forall_take | exact Hlj].
    rewrite Hpe. rewrite lookup_snoc, Hlj, Hce.
    assert (Hd : is_dir nj (from ++ take j dirs) = true) by (unfold is_dir; now rewrite Hlj).
    rewrite Hd.
    destruct (put_new (from ++ take j dirs) nj cj e (NDir ∅) Hlj (or_introl Hce))
      as [n' Hput].
    rewrite Hput. exists n'. split; [reflexivity|].
    split; [eapply FSFacts.extends_trans; [exact Hx | eapply FSFacts.put_extends; eauto]|].
    split; [discriminate|]. intros _.
    rewrite app_assoc. eapply FSFacts.put_lookup; eauto.
Qed.


Lemma start_Dir (cwd : list string) (p : string) (dirs : list string) (f : string) :
  names p dirs f -> start cwd (Filepath.Dir p) = start cwd p.
Proof.
  intros [Hs Hp]. apply Forall_app in Hp as [Hp _]. unfold start.
  rewrite (PathFacts.Dir_named p dirs f Hs Hp).
  destruct (PathFacts.render_rooted (Filepath.is_rooted p) dirs Hp
              (PathFacts.dirs_free _ _ _ _ Hs)) as [-> _].
  reflexivity.
Qed.

(** [os.MkdirAll] on the directory part of [dirs]/[f] succeeds whatever
    the number of missing levels. *)
Lemma mkdirAll_total (root : Node) (cwd : list string) (p : string)
    (dirs : list string) (f : string) (k : nat) :
  names p dirs f ->
  made_up_to root (start cwd p) dirs k ->
  exists root' c,
    mkdirAll root cwd (Filepath.Dir p) = inr root'
    /\ extends root root'
    /\ lookup root' (start cwd p ++ dirs) = inr (NDir c)
    /\ (root' = root \/ c = ∅).
Proof.
  intros Hn (Hk & ch & Hl & Ha).
  pose proof (start_Dir cwd p dirs f Hn) as Hst.
  destruct Hn as [Hs Hp]. apply Forall_app in Hp as [Hp _].
  pose proof (PathFacts.dirs_free _ _ _ _ Hs) as Hf.
  unfold mkdirAll. rewrite Hst.
  rewrite (PathFacts.Dir_named p dirs f Hs Hp).
  destruct (PathFacts.render_rooted (Filepath.is_rooted p) dirs Hp Hf) as [_ ->].
  rewrite (PathFacts.render_components _ _ Hp Hf).
  destruct dirs as [|d r] eqn:Ed.
  - assert (k = 0%nat) as -> by (simpl in Hk; lia).
    simpl in Hl. rewrite app_nil_r in *.
    exists root, ch. split.
    + apply mkdirAll_rec_dir with ch. unfold stat_at.
      destruct (Filepath.is_rooted p); simpl; [now rewrite Hl|].
      unfold is_dir. now rewrite Hl.
    + split; [apply FSFacts.extends_refl|]. split; [exact Hl | now left].
  - rewrite <- Ed in *.
    destruct (mkdirAll_rec_grow dirs root (start cwd p) k ch Hp Hl Ha (length dirs - k))
      as (root' & Hrec & Hx & H0 & Hpos); [lia|].
    replace (k + (length dirs - k))%nat with (length dirs) in * by lia.
    rewrite firstn_all in *.
    destruct (decide (k = length dirs)) as [->|Hne].
    + exists root, ch. rewrite firstn_all in Hl.
      rewrite (H0 ltac:(lia)) in Hrec.
      split; [exact Hrec|]. split; [apply FSFacts.extends_refl|].
      split; [exact Hl | now left].
    + exists root', ∅. split; [exact Hrec|]. split; [exact Hx|].
      split; [apply Hpos; lia | now right].
Qed.

(** Creating and writing [dirs]/[f] succeeds once [dirs] is a directory
    and [f] is not one. *)
Lemma create_write_total (root : Node) (cwd : list string) (p : string)
    (dirs : list string) (f : string) (c : gmap string Node) (data : string) :
  names p dirs f ->
  lookup root (start cwd p ++ dirs) = inr (NDir c) ->
  is_dir root (start cwd p ++ dirs ++ [f]) = false ->
  exists place t2 t3,
    create root cwd p = inr (place, t2)
    /\ put t2 place (NFile data) = inr t3
    /\ extends root t3.
Proof.
  intros [Hs Hp] Hl Hnd.
  apply Forall_app in Hp as [Hp Hpf]. inversion Hpf as [|? ? Hf _]; subst.
  assert (Hd : is_dir root (start cwd p ++ dirs) = true) by (unfold is_dir; now rewrite Hl).
  assert (Hw : walk root (start cwd p)
                 (removelast (Filepath.split_slash p)) = inr (start cwd p ++ dirs)).
  { rewrite Hs, !app_assoc, removelast_last, FSFacts.walk_app.
    assert (H0 : walk root (start cwd p) (if Filepath.is_rooted p then [""] else [])
                 = inr (start cwd p)).
    { destruct (Filepath.is_rooted p); [|reflexivity].
      simpl. now rewrite (lookup_dir_prefix _ _ _ _ Hl). }
    rewrite H0. now apply walk_plain with c. }
  assert (Hlast : List.last (Filepath.split_slash p) "" = f)
    by (rewrite Hs, !app_assoc; apply last_last).
  assert (Hc : c !! f = None \/ exists x, c !! f = Some (NFile x)).
  { rewrite app_assoc in Hnd. unfold is_dir in Hnd. rewrite lookup_snoc, Hl in Hnd.
    destruct (c !! f) as [[x|ch]|]; eauto. discriminate. }
  destruct (put_new _ _ _ _ (NFile "") Hl Hc) as [t2 Hp2].
  assert (Hl2 : exists c2, lookup t2 (start cwd p ++ dirs) = inr (NDir c2)
                           /\ c2 !! f = Some (NFile "")).
  { pose proof (FSFacts.put_lookup _ _ _ _ Hp2) as Hf2.
    rewrite lookup_snoc in Hf2.
    destruct (lookup t2 (start cwd p ++ dirs)) as [|[|c2]]; try discriminate.
    exists c2. split; [reflexivity|]. destruct (c2 !! f); congruence. }
  destruct Hl2 as (c2 & Hl2 & Hc2).
  destruct (put_new _ _ _ _ (NFile data) Hl2 (or_intror (ex_intro _ "" Hc2))) as [t3 Hp3].
  exists ((start cwd p ++ dirs) ++ [f]), t2, t3.
  split; [|split; [exact Hp3|]].
  2:{ eapply FSFacts.extends_trans; eapply FSFacts.put_extends; eauto. }
  unfold create. rewrite (PathFacts.path_nonempty _ _ _ _ Hs Hf).
  unfold create_target. rewrite Hw, Hlast, Hf.
  rewrite <- app_assoc, Hnd, Hd, app_assoc, Hp2. reflexivity.
Qed.

End MkdirFacts.

(** ** The two operations in normal form *)

Lemma textToSpeech_spec (w : World) (text outputPath voiceID format : string)
    (stability similarityBoost style speed : float) (speakerBoost : bool) :
  textToSpeech text outputPath voiceID format stability similarityBoost style speed
    speakerBoost w =
  let key := effective w "ELEVENLABS_API_KEY" in
  let w1 := after_load w [EGetenv "ELEVENLABS_API_KEY"] in
  if String.eqb key "" then
    Exit 1 (after_load w (EGetenv "ELEVENLABS_API_KEY"
                            :: ConfigurationMissing "ELEVENLABS_API_KEY"))
  else
  match outputFormats !! format with
  | None => Ret (Some ("unsupported format: " +:+ format)) w1
  | Some apiFormat =>
  match json_Marshal (mkTtsRequest text defaultTTSModel
          (mkVoiceSettings stability similarityBoost style speed speakerBoost)) with
  | inl err => Ret (Some ("failed to marshal request: " +:+ err)) w1
  | inr jsonBody =>
  match http_NewRequest "POST" (tts_url voiceID apiFormat) jsonBody with
  | inl err => Ret (Some ("failed to create request: " +:+ err)) w1
  | inr req =>
  let rq := sent "application/json" key req in
  let w2 := after_load w [EGetenv "ELEVENLABS_API_KEY";
                          EOtel (tts_request_event text voiceID format);
                          EHTTP rq] in
  match remote w rq with
  | inl err => Ret (Some ("request failed: " +:+ err)) w2
  | inr resp => materialize "tts_complete" outputPath resp w2
  end end end end.
Proof.
  unfold textToSpeech, bind. rewrite getAPIKey_spec. cbv zeta.
  destruct (String.eqb (effective w "ELEVENLABS_API_KEY") ""); [reflexivity|].
  destruct (outputFormats !! format) as [apiFormat|]; [|reflexivity].
  destruct (json_Marshal _) as [|jsonBody]; [reflexivity|].
  fold (tts_url voiceID apiFormat).
  destruct (http_NewRequest _ _ _) as [|req]; [reflexivity|].
  unfold otel_Info, emit, client_Do, Header_Set, sent, tts_request_event, after_load, log;
    simpl. rewrite <- !app_assoc; simpl.
  destruct (remote w _); reflexivity.
Qed.

Lemma voiceChange_spec (w : World) (inputPath outputPath voiceID format : string) :
  voiceChange inputPath outputPath voiceID format w =
  let key := effective w "ELEVENLABS_API_KEY" in
  let w1 := after_load w [EGetenv "ELEVENLABS_API_KEY"] in
  let w2 := after_load w [EGetenv "ELEVENLABS_API_KEY"; EOpen inputPath] in
  if String.eqb key "" then
    Exit 1 (after_load w (EGetenv "ELEVENLABS_API_KEY"
                            :: ConfigurationMissing "ELEVENLABS_API_KEY"))
  else
  match outputFormats !! format with
  | None => Ret (Some ("unsupported format: " +:+ format)) w1
  | Some apiFormat =>
  match open_file (fs w) (cwd w) inputPath with
  | inl err => Ret (Some ("failed to open input file: " +:+ err)) w2
  | inr inputFile =>
  match read_file (fs w) inputFile with
  | inl err => Ret (Some ("failed to copy audio data: " +:+ err)) w2
  | inr audio =>
  match http_NewRequest "POST" (voice_url voiceID apiFormat)
          (MultipartBody (boundary w)
             [FormFile "audio" (Filepath.Base inputPath) audio;
              FormField "model_id" defaultVoiceModel]) with
  | inl err => Ret (Some ("failed to create request: " +:+ err)) w2
  | inr req =>
  let rq := sent ("multipart/form-data; boundary=" +:+ boundary w) key req in
  let w3 := after_load w [EGetenv "ELEVENLABS_API_KEY"; EOpen inputPath;
                          EOtel (voice_request_event inputPath voiceID format);
                          EHTTP rq] in
  match remote w rq with
  | inl err => Ret (Some ("request failed: " +:+ err)) w3
  | inr resp => materialize "voice_change_complete" outputPath resp w3
  end end end end end.
Proof.
  unfold voiceChange, bind. rewrite getAPIKey_spec. cbv zeta.
  destruct (String.eqb (effective w "ELEVENLABS_API_KEY") ""); [reflexivity|].
  destruct (outputFormats !! format) as [apiFormat|]; [|reflexivity].
  unfold os_Open, read_all; simpl.
  destruct (open_file (fs w) (cwd w) inputPath) as [|inputFile].
  { unfold ret, after_load, log; simpl. now rewrite <- !app_assoc. }
  simpl. destruct (read_file (fs w) inputFile) as [|audio].
  { unfold ret, after_load, log; simpl. now rewrite <- !app_assoc. }
  simpl. fold (voice_url voiceID apiFormat).
  destruct (http_NewRequest _ _ _) as [|req].
  { unfold ret, after_load, log; simpl. now rewrite <- !app_assoc. }
  unfold otel_Info, emit, client_Do, Header_Set, sent, voice_request_event, after_load, log;
    simpl. rewrite <- !app_assoc; simpl.
  destruct (remote w _); reflexivity.
Qed.

(** ** What happens to a response *)

Lemma materialize_non200 (complete outputPath : string) (resp : Response) (w : World) :
  StatusCode resp <> 200%Z ->
  materialize complete outputPath resp w
  = Ret (Some ("API error " +:+ pretty (StatusCode resp) +:+ ": " +:+ RespBody resp)) w.
Proof.
  intros H. unfold materialize. apply Z.eqb_neq in H. now rewrite H.
Qed.

Lemma materialize_success (complete outputPath : string) (resp : Response) (w w' : World) :
  materialize complete outputPath resp w = Ret None w' ->
  StatusCode resp = 200%Z
  /\ ReadErr resp = None
  /\ trace w' = trace w ++ [EMkdirAll (Filepath.Dir outputPath);
                            ECreate outputPath;
                            EWrite outputPath (RespBody resp);
                            EOtel (complete_event complete outputPath)]
  /\ FS.stat (fs w') (cwd w') outputPath = inr (FS.NFile (RespBody resp))
  /\ (exists ch, FS.stat (fs w') (cwd w') (Filepath.Dir outputPath) = inr (FS.NDir ch))
  /\ FS.extends (fs w) (fs w')
  /\ cwd w' = cwd w /\ remote w' = remote w /\ environ w' = environ w.
Proof.
  unfold materialize.
  destruct (StatusCode resp =? 200)%Z eqn:Hs; simpl; [|discriminate].
  apply Z.eqb_eq in Hs.
  unfold bind, os_MkdirAll.
  destruct (FS.mkdirAll (fs w) (cwd w) (Filepath.Dir outputPath)) as [[? ?]|t1] eqn:Hm;
    [discriminate|].
  unfold os_Create; simpl.
  destruct (FS.create t1 (cwd w) outputPath) as [|[place t2]] eqn:Hc; [discriminate|].
  unfold io_Copy; simpl.
  destruct (FS.put t2 place (FS.NFile (RespBody resp))) as [|t3] eqn:Hp; [discriminate|].
  destruct (ReadErr resp) eqn:Hr; [discriminate|].
  unfold otel_Info, emit, ret; simpl. intros [= <-]; simpl.
  apply FSFacts.mkdirAll_spec in Hm as [Hx1 [ch Hd]].
  destruct (FSFacts.create_then_write _ _ _ _ _ _ _ Hc Hp) as [Hx2 Hf].
  assert (Hx : FS.extends (fs w) t3) by (eapply FSFacts.extends_trans; eauto).
  assert (Hd' : exists ch', FS.stat t3 (cwd w) (Filepath.Dir outputPath) = inr (FS.NDir ch'))
    by exact (FSFacts.stat_dir_extends _ _ _ _ _ Hx2 Hd).
  split; [exact Hs|]. split; [reflexivity|].
  split; [now rewrite <- !app_assoc|].
  split; [exact Hf|]. split; [exact Hd'|]. split; [exact Hx|].
  repeat split.
Qed.

Ltac trace_eq :=
  unfold log, with_fs, with_environ; simpl; rewrite <- ?app_assoc; reflexivity.

(** Whatever the response, handling it returns to the caller; it touches
    only the file system and the telemetry sink. *)
Lemma materialize_effects (complete outputPath : string) (resp : Response) (w : World) :
  exists (r : option string) (w' : World) (t : list Effect),
    materialize complete outputPath resp w = Ret r w'
    /\ trace w' = trace w ++ t
    /\ http_calls t = [] /\ env_reads t = []
    /\ stdout t = "" /\ stderr t = ""
    /\ (r <> None -> otel_events t = []).
Proof.
  unfold materialize.
  destruct (negb (StatusCode resp =? 200)%Z).
  { exists (Some ("API error " +:+ pretty (StatusCode resp) +:+ ": " +:+ io_ReadAll resp)),
      w, []. rewrite app_nil_r. repeat split. }
  unfold bind, os_MkdirAll.
  destruct (FS.mkdirAll (fs w) (cwd w) (Filepath.Dir outputPath)) as [[? ?]|t1].
  { do 2 eexists. exists [EMkdirAll (Filepath.Dir outputPath)].
    split; [reflexivity|]. split; [trace_eq|]. repeat split. }
  unfold os_Create; simpl.
  destruct (FS.create t1 (cwd w) outputPath) as [|[place t2]].
  { do 2 eexists. exists [EMkdirAll (Filepath.Dir outputPath); ECreate outputPath].
    split; [reflexivity|]. split; [trace_eq|]. repeat split. }
  unfold io_Copy; simpl.
  destruct (FS.put t2 place (FS.NFile (RespBody resp))) as [|t3].
  { do 2 eexists. exists [EMkdirAll (Filepath.Dir outputPath); ECreate outputPath;
                          EWrite outputPath (RespBody resp)].
    split; [reflexivity|]. split; [trace_eq|]. repeat split. }
  destruct (ReadErr resp).
  { do 2 eexists. exists [EMkdirAll (Filepath.Dir outputPath); ECreate outputPath;
                          EWrite outputPath (RespBody resp)].
    split; [reflexivity|]. split; [trace_eq|]. repeat split. }
  do 2 eexists. exists [EMkdirAll (Filepath.Dir outputPath); ECreate outputPath;
                        EWrite outputPath (RespBody resp);
                        EOtel (complete_event complete outputPath)].
  split; [reflexivity|]. split; [trace_eq|]. do 4 (split; [reflexivity|]).
  intros H; now contradiction H.
Qed.

(** The outcome depends on the world only through the file system, the
    working directory and the trace so far. *)
Lemma materialize_same (complete outputPath : string) (resp : Response) (w1 w2 : World) :
  fs w1 = fs w2 -> cwd w1 = cwd w2 -> trace w1 = trace w2 ->
  match materialize complete outputPath resp w1,
        materialize complete outputPath resp w2 with
  | Ret r1 v1, Ret r2 v2 => r1 = r2 /\ fs v1 = fs v2 /\ trace v1 = trace v2
  | _, _ => False
  end.
Proof.
  intros Hf Hc Ht. unfold materialize.
  destruct (negb (StatusCode resp =? 200)%Z); [simpl; auto|].
  unfold bind, os_MkdirAll. rewrite <- Hf, <- Hc.
  destruct (FS.mkdirAll (fs w1) (cwd w1) (Filepath.Dir outputPath)) as [[? ?]|t1];
    simpl; [rewrite Ht; auto|].
  unfold os_Create; simpl. rewrite <- Hc.
  destruct (FS.create t1 (cwd w1) outputPath) as [|[place t2]]; simpl; [rewrite Ht; auto|].
  unfold io_Copy; simpl.
  destruct (FS.put t2 place (FS.NFile (RespBody resp))) as [|t3]; simpl; [rewrite Ht; auto|].
  destruct (ReadErr resp); simpl; rewrite Ht; auto.
Qed.

Lemma http_calls_after_load (w : World) (extra : list Effect) :
  http_calls (trace (after_load w extra)) = http_calls (trace w) ++ http_calls extra.
Proof. simpl. now rewrite !http_calls_app, load_trace_http. Qed.

Lemma no_new_call {A} (l : list A) (x : A) : l ++ [] = l ++ [x] -> False.
Proof. intros E. apply app_inv_head in E. discriminate. Qed.

Lemma same_call {A} (l : list A) (x y : A) : l ++ [x] = l ++ [y] -> x = y.
Proof. intros E. apply app_inv_head in E. congruence. Qed.

Lemma materialize_http (complete outputPath : string) (resp : Response) (w : World) :
  http_calls (trace (final (materialize complete outputPath resp w)))
  = http_calls (trace w).
Proof.
  destruct (materialize_effects complete outputPath resp w)
    as (r & w' & t & -> & Ht & Hh & _).
  simpl. now rewrite Ht, http_calls_app, Hh, app_nil_r.
Qed.

(** ** A successful synthesis (C4) *)

Lemma materialize_total (complete outputPath : string) (resp : Response) (w : World)
    (dirs : list string) (f : string) (k : nat) :
  StatusCode resp = 200%Z ->
  ReadErr resp = None ->
  names outputPath dirs f ->
  made_up_to (fs w) (FS.start (cwd w) outputPath) dirs k ->
  FS.is_dir (fs w) (FS.start (cwd w) outputPath ++ dirs ++ [f]) = false ->
  exists w',
    materialize complete outputPath resp w = Ret None w'
    /\ forall j, FS.is_dir (fs w') (FS.start (cwd w) outputPath ++ take j dirs) = true.
Proof.
  intros Hs Hr Hn Hm Hnd.
  destruct (MkdirFacts.mkdirAll_total _ _ _ _ _ _ Hn Hm) as (t1 & c & Hmk & Hx & Hl & Hc).
  assert (Hnd1 : FS.is_dir t1 (FS.start (cwd w) outputPath ++ dirs ++ [f]) = false).
  { destruct Hc as [-> | ->]; [exact Hnd|].
    unfold FS.is_dir. now rewrite app_assoc, MkdirFacts.lookup_snoc, Hl. }
  destruct (MkdirFacts.create_write_total t1 (cwd w) outputPath dirs f c (RespBody resp)
              Hn Hl Hnd1) as (place & t2 & t3 & Hcr & Hput & Hx3).
  unfold materialize. rewrite Hs. simpl.
  unfold bind, os_MkdirAll. rewrite Hmk.
  unfold os_Create; simpl. rewrite Hcr.
  unfold io_Copy; simpl. rewrite Hput, Hr.
  unfold otel_Info, emit, ret; simpl. eexists. split; [reflexivity|].
  simpl. intros j.
  apply Hx3. rewrite <- (take_drop j dirs), app_assoc in Hl.
  exact (MkdirFacts.lookup_dir_prefix _ _ _ _ Hl).
Qed.

Ltac no_call :=
  cbn [final]; rewrite http_calls_after_load; intros E; now apply no_new_call in E.

(** C4. When synthesis succeeds, exactly one request was sent, the
    service answered it with status 200 and the body came through to its
    end; the destination path then reads back as the bytes of that body,
    the directory part of the destination path is a directory, and
    [MkdirAll] on it came before the file was created and written.
    Conversely, when the request of a synthesis is answered with status
    200 and a body that comes through, and the destination is a file [f]
    in directories [dirs] of which any number of the last ones are
    missing, the call does succeed: afterwards every one of [dirs] is a
    directory, the destination holds the body, and no entry that was
    there is gone. *)
Theorem synthesis_writes_body (w : World) (text outputPath voiceID format : string)
    (stability similarityBoost style speed : float) (speakerBoost : bool) :
  (forall w',
      textToSpeech text outputPath voiceID format stability similarityBoost style speed
        speakerBoost w = Ret None w' ->
      exists (req : Request) (resp : Response) (before : list Effect),
        http_calls (trace w') = http_calls (trace w) ++ [req]
        /\ remote w req = inr resp
        /\ StatusCode resp = 200%Z
        /\ ReadErr resp = None
        /\ FS.stat (fs w') (cwd w') outputPath = inr (FS.NFile (RespBody resp))
        /\ (exists ch, FS.stat (fs w') (cwd w') (Filepath.Dir outputPath) = inr (FS.NDir ch))
        /\ trace w' = before ++ [EMkdirAll (Filepath.Dir outputPath);
                                 ECreate outputPath;
                                 EWrite outputPath (RespBody resp);
                                 EOtel (complete_event "tts_complete" outputPath)])
  /\ (forall (req : Request) (resp : Response) (dirs : list string) (f : string) (k : nat),
         http_calls (trace (final (textToSpeech text outputPath voiceID format stability
                                     similarityBoost style speed speakerBoost w)))
         = http_calls (trace w) ++ [req] ->
         remote w req = inr resp ->
         StatusCode resp = 200%Z ->
         ReadErr resp = None ->
         names outputPath dirs f ->
         made_up_to (fs w) (FS.start (cwd w) outputPath) dirs k ->
         FS.is_dir (fs w) (FS.start (cwd w) outputPath ++ dirs ++ [f]) = false ->
         exists w',
           textToSpeech text outputPath voiceID format stability similarityBoost style
             speed speakerBoost w = Ret None w'
           /\ FS.stat (fs w') (cwd w') outputPath = inr (FS.NFile (RespBody resp))
           /\ (forall j, FS.is_dir (fs w') (FS.start (cwd w) outputPath ++ take j dirs)
                         = true)
           /\ FS.extends (fs w) (fs w')).
Proof.
  split.
  - intros w'. rewrite textToSpeech_spec. cbv zeta.
    destruct (String.eqb (effective w "ELEVENLABS_API_KEY") ""); [discriminate|].
    destruct (outputFormats !! format) as [apiFormat|]; [|discriminate].
    destruct (json_Marshal _) as [|jsonBody]; [discriminate|].
    destruct (http_NewRequest _ _ _) as [|req]; [discriminate|].
    set (rq := sent _ _ req).
    destruct (remote w rq) as [|resp] eqn:Hr; [discriminate|].
    intros H. apply materialize_success in H
      as (Hs & Hre & Ht & Hf & Hd & _ & _ & _ & _).
    exists rq, resp. eexists. repeat split; eauto.
    rewrite Ht, http_calls_app, http_calls_after_load. simpl. now rewrite app_nil_r.
  - intros req resp dirs f k E Hrem Hs Hre Hn Hm Hnd. revert E.
    rewrite textToSpeech_spec. cbv zeta.
    destruct (String.eqb (effective w "ELEVENLABS_API_KEY") ""); [no_call|].
    destruct (outputFormats !! format) as [apiFormat|]; [|no_call].
    destruct (json_Marshal _) as [|jsonBody]; [no_call|].
    destruct (http_NewRequest _ _ _) as [|rq0]; [no_call|].
    set (rq := sent _ _ rq0).
    intros E. assert (rq = req) as Hq.
    { destruct (remote w rq) as [|resp0].
      - cbn [final] in E. rewrite http_calls_after_load in E. now apply same_call in E.
      - rewrite materialize_http, http_calls_after_load in E. now apply same_call in E. }
    rewrite Hq, Hrem.
    match goal with |- context [materialize ?c ?o ?r ?v] =>
      destruct (materialize_total c o r v dirs f k Hs Hre Hn Hm Hnd) as (w' & Hw & Hd)
    end.
    exists w'. split; [exact Hw|].
    apply materialize_success in Hw as (_ & _ & _ & Hf & _ & Hx & _).
    split; [exact Hf|]. split; [exact Hd | exact Hx].
Qed.

(** The same for a successful transformation. *)
Lemma transformation_writes_body (w w' : World)
    (inputPath outputPath voiceID format : string) :
  voiceChange inputPath outputPath voiceID format w = Ret None w' ->
  exists (req : Request) (resp : Response) (before : list Effect),
    http_calls (trace w') = http_calls (trace w) ++ [req]
    /\ remote w req = inr resp
    /\ StatusCode resp = 200%Z
    /\ ReadErr resp = None
    /\ FS.stat (fs w') (cwd w') outputPath = inr (FS.NFile (RespBody resp))
    /\ (exists ch, FS.stat (fs w') (cwd w') (Filepath.Dir outputPath) = inr (FS.NDir ch))
    /\ trace w' = before ++ [EMkdirAll (Filepath.Dir outputPath);
                             ECreate outputPath;
                             EWrite outputPath (RespBody resp);
                             EOtel (complete_event "voice_change_complete" outputPath)].
Proof.
  rewrite voiceChange_spec. cbv zeta.
  destruct (String.eqb (effective w "ELEVENLABS_API_KEY") ""); [discriminate|].
  destruct (outputFormats !! format) as [apiFormat|]; [|discriminate].
  destruct (open_file _ _ _) as [|inputFile]; [discriminate|].
  destruct (read_file _ _) as [|audio]; [discriminate|].
  destruct (http_NewRequest _ _ _) as [|req]; [discriminate|].
  set (rq := sent _ _ req).
  destruct (remote w rq) as [|resp] eqn:Hr; [discriminate|].
  intros H. apply materialize_success in H
    as (Hs & Hre & Ht & Hf & Hd & _ & _ & _ & _).
  exists rq, resp. eexists. repeat split; eauto.
  rewrite Ht, http_calls_app, http_calls_after_load. simpl. now rewrite app_nil_r.
Qed.

(** ** A response other than 200 (C5) *)

(** C5. Whenever an operation got a response whose status is not 200, it
    returns the error "API error <status>: <body>", with the status in
    decimal and the body bytes as received, and the file system is left
    as it was: nothing is created or written at the destination. *)
Theorem non200_is_api_error (w : World)
    (text inputPath outputPath voiceID format : string)
    (stability similarityBoost style speed : float) (speakerBoost : bool)
    (req : Request) (resp : Response) :
  remote w req = inr resp ->
  StatusCode resp <> 200%Z ->
  (http_calls (trace (final (textToSpeech text outputPath voiceID format stability
                               similarityBoost style speed speakerBoost w)))
   = http_calls (trace w) ++ [req] ->
   exists w',
     textToSpeech text outputPath voiceID format stability similarityBoost style speed
       speakerBoost w
     = Ret (Some ("API error " +:+ pretty (StatusCode resp) +:+ ": " +:+ RespBody resp)) w'
     /\ fs w' = fs w
     /\ trace w' = trace w ++ load_trace w
                   ++ [EGetenv "ELEVENLABS_API_KEY";
                       EOtel (tts_request_event text voiceID format);
                       EHTTP req])
  /\ (http_calls (trace (final (voiceChange inputPath outputPath voiceID format w)))
      = http_calls (trace w) ++ [req] ->
      exists w',
        voiceChange inputPath outputPath voiceID format w
        = Ret (Some ("API error " +:+ pretty (StatusCode resp) +:+ ": " +:+ RespBody resp)) w'
        /\ fs w' = fs w
        /\ trace w' = trace w ++ load_trace w
                      ++ [EGetenv "ELEVENLABS_API_KEY";
                          EOpen inputPath;
                          EOtel (voice_request_event inputPath voiceID format);
                          EHTTP req]).
Proof.
  intros Hr Hs. split.
  - rewrite textToSpeech_spec. cbv zeta.
    destruct (String.eqb (effective w "ELEVENLABS_API_KEY") "");
      [cbn [final]; rewrite http_calls_after_load; intros E; now apply no_new_call in E|].
    destruct (outputFormats !! format) as [apiFormat|];
      [|cbn [final]; rewrite http_calls_after_load; intros E; now apply no_new_call in E].
    destruct (json_Marshal _) as [|jsonBody];
      [cbn [final]; rewrite http_calls_after_load; intros E; now apply no_new_call in E|].
    destruct (http_NewRequest _ _ _) as [|rq0];
      [cbn [final]; rewrite http_calls_after_load; intros E; now apply no_new_call in E|].
    set (rq := sent _ _ rq0).
    assert (Hq : forall r : Result (option string),
               http_calls (trace (final r))
               = http_calls (trace (after_load w [EGetenv "ELEVENLABS_API_KEY";
                                      EOtel (tts_request_event text voiceID format);
                                      EHTTP rq])) ->
               http_calls (trace (final r)) = http_calls (trace w) ++ [req] -> rq = req).
    { intros r -> . rewrite http_calls_after_load. apply same_call. }
    destruct (remote w rq) as [|resp'] eqn:Hr'.
    + intros E.
      match type of E with
      | http_calls (trace (final ?r)) = _ => apply (Hq r eq_refl) in E
      end. congruence.
    + intros E. apply (Hq _ (materialize_http _ _ _ _)) in E. subst rq. rewrite E in *.
      assert (resp' = resp) as -> by congruence.
      rewrite materialize_non200 by assumption.
      eexists; split; [reflexivity|]. split; reflexivity.
  - rewrite voiceChange_spec. cbv zeta.
    destruct (String.eqb (effective w "ELEVENLABS_API_KEY") "");
      [cbn [final]; rewrite http_calls_after_load; intros E; now apply no_new_call in E|].
    destruct (outputFormats !! format) as [apiFormat|];
      [|cbn [final]; rewrite http_calls_after_load; intros E; now apply no_new_call in E].
    destruct (open_file _ _ _) as [|inputFile];
      [cbn [final]; rewrite http_calls_after_load; intros E; now apply no_new_call in E|].
    destruct (read_file _ _) as [|audio];
      [cbn [final]; rewrite http_calls_after_load; intros E; now apply no_new_call in E|].
    destruct (http_NewRequest _ _ _) as [|rq0];
      [cbn [final]; rewrite http_calls_after_load; intros E; now apply no_new_call in E|].
    set (rq := sent _ _ rq0).
    assert (Hq : forall r : Result (option string),
               http_calls (trace (final r))
               = http_calls (trace (after_load w [EGetenv "ELEVENLABS_API_KEY";
                                      EOpen inputPath;
                                      EOtel (voice_request_event inputPath voiceID format);
                                      EHTTP rq])) ->
               http_calls (trace (final r)) = http_calls (trace w) ++ [req] -> rq = req).
    { intros r -> . rewrite http_calls_after_load. apply same_call. }
    destruct (remote w rq) as [|resp'] eqn:Hr'.
    + intros E.
      match type of E with
      | http_calls (trace (final ?r)) = _ => apply (Hq r eq_refl) in E
      end. congruence.
    + intros E. apply (Hq _ (materialize_http _ _ _ _)) in E. subst rq. rewrite E in *.
      assert (resp' = resp) as -> by congruence.
      rewrite materialize_non200 by assumption.
      eexists; split; [reflexivity|]. split; reflexivity.
Qed.

(** ** Which definition of a name wins (C3) *)

Lemma lookup_load_file (w : World) (p : string) (env : gmap string string) (k : string) :
  load_file w p env !! k
  = match env !! k with
    | Some v => Some v
    | None => file_value w p k
    end.
Proof.
  unfold load_file, file_value. destruct (dotenv w p) as [vars|].
  - rewrite lookup_union. destruct (env !! k), (vars !! k); reflexivity.
  - now destruct (env !! k).
Qed.

(** The sources of a name, in the order they are consulted: the process
    environment, the file next to the executable, the file in the working
    directory. The first that defines the name gives its value. *)
Lemma loaded_env_lookup (w : World) (k : string) :
  loaded_env w !! k
  = match environ w !! k with
    | Some v => Some v
    | None =>
        match exe_env_path w with
        | Some p =>
            match file_value w p k with
            | Some v => Some v
            | None => file_value w ".env" k
            end
        | None => file_value w ".env" k
        end
    end.
Proof.
  unfold loaded_env. rewrite lookup_load_file.
  destruct (exe_env_path w) as [p|].
  - rewrite lookup_load_file. now destruct (environ w !! k).
  - now destruct (environ w !! k).
Qed.

Lemma resolveRequired_spec (s : Setting) (w : World) :
  resolveRequired s w =
  if String.eqb (effective w (setting_name s)) "" then
    Exit 1 (after_load w (EGetenv (setting_name s)
                            :: ConfigurationMissing (setting_name s)))
  else Ret (effective w (setting_name s)) (after_load w [EGetenv (setting_name s)]).
Proof.
  destruct s; simpl;
    [apply getAPIKey_spec | apply getTTSVoiceID_spec | apply getVoiceChangeID_spec].
Qed.

(** C3 (amended). [loadEnv] loads the file next to the executable first
    and the file in the working directory second. When both files define
    a name that the process environment does not, the load that happens
    first and defines the name, the one next to the executable, gives the
    value every required-setting accessor then reads; the later load does
    not override it. *)
Theorem first_load_defining_a_name_wins
    (w : World) (p : string) (s : Setting) (v_exe v_cwd : string) :
  exe_env_path w = Some p ->
  file_value w p (setting_name s) = Some v_exe ->
  file_value w ".env" (setting_name s) = Some v_cwd ->
  environ w !! setting_name s = None ->
  (exists w', loadEnv w = Ret tt w'
              /\ trace w' = trace w ++ [ELoadDotenv p; ELoadDotenv ".env"]
              /\ environ w' !! setting_name s = Some v_exe)
  /\ (v_exe <> "" ->
      resolveRequired s w
      = Ret v_exe (after_load w [EGetenv (setting_name s)])).
Proof.
  intros Hp He Hc Hn.
  assert (Hl : loaded_env w !! setting_name s = Some v_exe).
  { now rewrite loaded_env_lookup, Hn, Hp, He. }
  split.
  - exists (after_load w []). split; [apply loadEnv_spec|]. split; [|exact Hl].
    simpl. unfold load_trace. now rewrite Hp, app_nil_r.
  - intros Hv. rewrite resolveRequired_spec. unfold effective. rewrite Hl. simpl.
    now rewrite (eqb_empty_false _ Hv).
Qed.

(** C3, as stated, fails: both files define the credential, the process
    environment does not, the working-directory file is loaded last, and
    yet the accessor returns the value of the file next to the
    executable. *)
Lemma last_load_does_not_win :
  environ two_env_files !! "ELEVENLABS_API_KEY" = None
  /\ exe_env_path two_env_files = Some "/opt/pink/.env"
  /\ file_value two_env_files "/opt/pink/.env" "ELEVENLABS_API_KEY"
     = Some "key-next-to-executable"
  /\ file_value two_env_files ".env" "ELEVENLABS_API_KEY"
     = Some "key-in-working-directory"
  /\ trace (final (getAPIKey two_env_files))
     = [ELoadDotenv "/opt/pink/.env"; ELoadDotenv ".env"; EGetenv "ELEVENLABS_API_KEY"]
  /\ (exists w', getAPIKey two_env_files = Ret "key-next-to-executable" w')
  /\ "key-next-to-executable" <> "key-in-working-directory".
Proof.
  repeat split; try (vm_compute; reflexivity).
  - eexists. vm_compute. reflexivity.
  - discriminate.
Qed.

Lemma first_load_defining_a_name_wins_witness :
  resolveRequired APIKey two_env_files
  = Ret "key-next-to-executable"
        (after_load two_env_files [EGetenv "ELEVENLABS_API_KEY"]).
Proof.
  apply (first_load_defining_a_name_wins two_env_files "/opt/pink/.env" APIKey
           "key-next-to-executable" "key-in-working-directory");
    try (vm_compute; reflexivity).
  discriminate.
Defined.

(** ** The two commands in normal form *)

Lemma cmdTTS_spec (fl : ttsFlags) (w : World) :
  cmdTTS fl w =
  match tts_args fl with
  | [] => Exit 1 (log (EStderr ("ERROR: Text argument required" +:+ newline)) w)
  | text :: _ =>
      if String.eqb (tts_voice fl) "" then
        if String.eqb (effective w "ELEVENLABS_TTS_VOICE_ID") "" then
          Exit 1 (after_load w (EGetenv "ELEVENLABS_TTS_VOICE_ID"
                                  :: ConfigurationMissing "ELEVENLABS_TTS_VOICE_ID"))
        else
          finish "tts_failed" (tts_output fl)
            (run_tts fl text (effective w "ELEVENLABS_TTS_VOICE_ID")
               (after_load w [EGetenv "ELEVENLABS_TTS_VOICE_ID"]))
      else finish "tts_failed" (tts_output fl) (run_tts fl text (tts_voice fl) w)
  end.
Proof.
  unfold cmdTTS, run_tts. destruct (tts_args fl) as [|text rest]; [reflexivity|].
  unfold bind at 1.
  destruct (String.eqb (tts_voice fl) "").
  - rewrite getTTSVoiceID_spec.
    destruct (String.eqb (effective w "ELEVENLABS_TTS_VOICE_ID") ""); [reflexivity|].
    unfold bind. destruct (textToSpeech _ _ _ _ _ _ _ _ _ _) as [[err|] w'|c w'];
      reflexivity.
  - unfold ret, bind. destruct (textToSpeech _ _ _ _ _ _ _ _ _ _) as [[err|] w'|c w'];
      reflexivity.
Qed.

Lemma cmdVoice_spec (fl : voiceFlags) (w : World) :
  cmdVoice fl w =
  match vc_args fl with
  | [] => Exit 1 (log (EStderr ("ERROR: Input file argument required" +:+ newline)) w)
  | inputPath :: _ =>
      let w0 := log (EStat inputPath) w in
      if is_not_exist (FS.stat (fs w) (cwd w) inputPath) then
        Exit 1 (log (EStderr ("ERROR: Input file not found: " +:+ inputPath +:+ newline)) w0)
      else if String.eqb (vc_voice fl) "" then
        if String.eqb (effective w "ELEVENLABS_VOICE_CHANGE_ID") "" then
          Exit 1 (after_load w0 (EGetenv "ELEVENLABS_VOICE_CHANGE_ID"
                                   :: ConfigurationMissing "ELEVENLABS_VOICE_CHANGE_ID"))
        else
          finish "voice_change_failed" (vc_output fl)
            (voiceChange inputPath (vc_output fl)
               (effective w "ELEVENLABS_VOICE_CHANGE_ID") (vc_format fl)
               (after_load w0 [EGetenv "ELEVENLABS_VOICE_CHANGE_ID"]))
      else
        finish "voice_change_failed" (vc_output fl)
          (voiceChange inputPath (vc_output fl) (vc_voice fl) (vc_format fl) w0)
  end.
Proof.
  unfold cmdVoice. destruct (vc_args fl) as [|inputPath rest]; [reflexivity|].
  unfold bind at 1, os_Stat. cbv zeta.
  assert (Hgo :
             (let* voiceID := (if String.eqb (vc_voice fl) "" then getVoiceChangeID
                               else ret (vc_voice fl)) in
              let* err := voiceChange inputPath (vc_output fl) voiceID (vc_format fl) in
              match err with
              | Some err =>
                  otel_Error "voice_change_failed" {[ "error" := AStr err ]};;
                  emit (EStderr ("ERROR: " +:+ err +:+ newline));;
                  os_Exit 1
              | None => fmt_Println (vc_output fl)
              end) (log (EStat inputPath) w)
             = if String.eqb (vc_voice fl) "" then
                 if String.eqb (effective w "ELEVENLABS_VOICE_CHANGE_ID") "" then
                   Exit 1 (after_load (log (EStat inputPath) w)
                             (EGetenv "ELEVENLABS_VOICE_CHANGE_ID"
                                :: ConfigurationMissing "ELEVENLABS_VOICE_CHANGE_ID"))
                 else
                   finish "voice_change_failed" (vc_output fl)
                     (voiceChange inputPath (vc_output fl)
                        (effective w "ELEVENLABS_VOICE_CHANGE_ID") (vc_format fl)
                        (after_load (log (EStat inputPath) w)
                           [EGetenv "ELEVENLABS_VOICE_CHANGE_ID"]))
               else
                 finish "voice_change_failed" (vc_output fl)
                   (voiceChange inputPath (vc_output fl) (vc_voice fl) (vc_format fl)
                      (log (EStat inputPath) w))).
  { unfold bind at 1. destruct (String.eqb (vc_voice fl) "").
    - rewrite getVoiceChangeID_spec.
      change (effective (log (EStat inputPath) w) "ELEVENLABS_VOICE_CHANGE_ID")
        with (effective w "ELEVENLABS_VOICE_CHANGE_ID").
      destruct (String.eqb (effective w "ELEVENLABS_VOICE_CHANGE_ID") ""); [reflexivity|].
      unfold bind. destruct (voiceChange _ _ _ _ _) as [[err|] w'|c w']; reflexivity.
    - unfold ret, bind. destruct (voiceChange _ _ _ _ _) as [[err|] w'|c w']; reflexivity. }
  destruct (FS.stat (fs w) (cwd w) inputPath) as [[]|nd]; simpl;
    try reflexivity; apply Hgo.
Qed.

(** ** The effects of a whole operation *)

Lemma trace_after_load (w : World) (extra : list Effect) :
  trace (after_load w extra) = trace w ++ load_trace w ++ extra.
Proof. reflexivity. Qed.

(** Synthesis first loads the env files and reads the credential; nothing
    after that reads the environment or prints. *)
Lemma textToSpeech_trace (w : World) (text outputPath voiceID format : string)
    (stability similarityBoost style speed : float) (speakerBoost : bool) :
  exists t,
    trace (final (textToSpeech text outputPath voiceID format stability similarityBoost
                    style speed speakerBoost w))
    = trace w ++ load_trace w ++ EGetenv "ELEVENLABS_API_KEY" :: t
    /\ env_reads t = [] /\ stdout t = "".
Proof.
  rewrite textToSpeech_spec. cbv zeta.
  destruct (String.eqb (effective w "ELEVENLABS_API_KEY") "");
    [eexists; split; [reflexivity | split; reflexivity]|].
  destruct (outputFormats !! format) as [apiFormat|];
    [|exists []; split; [reflexivity | split; reflexivity]].
  destruct (json_Marshal _) as [|jsonBody];
    [exists []; split; [reflexivity | split; reflexivity]|].
  destruct (http_NewRequest _ _ _) as [|req];
    [exists []; split; [reflexivity | split; reflexivity]|].
  destruct (remote w _) as [|resp];
    [eexists; split; [reflexivity | split; reflexivity]|].
  match goal with |- context [materialize ?c ?o ?r ?v] =>
    destruct (materialize_effects c o r v) as (r' & w' & t & -> & Ht & _ & Hr & Ho & _)
  end.
  cbn [final]. rewrite Ht, trace_after_load.
  eexists. split; [rewrite <- !app_assoc; simpl; reflexivity|].
  split.
  - change (env_reads ([EOtel (tts_request_event text voiceID format);
                        EHTTP (sent "application/json" (effective w "ELEVENLABS_API_KEY") req)]
                       ++ t) = []).
    now rewrite env_reads_app, Hr.
  - change (stdout ([EOtel (tts_request_event text voiceID format);
                     EHTTP (sent "application/json" (effective w "ELEVENLABS_API_KEY") req)]
                    ++ t) = "").
    now rewrite stdout_app, Ho.
Qed.

Lemma voiceChange_trace (w : World) (inputPath outputPath voiceID format : string) :
  exists t,
    trace (final (voiceChange inputPath outputPath voiceID format w))
    = trace w ++ load_trace w ++ EGetenv "ELEVENLABS_API_KEY" :: t
    /\ env_reads t = [] /\ stdout t = "".
Proof.
  rewrite voiceChange_spec. cbv zeta.
  destruct (String.eqb (effective w "ELEVENLABS_API_KEY") "");
    [eexists; split; [reflexivity | split; reflexivity]|].
  destruct (outputFormats !! format) as [apiFormat|];
    [|exists []; split; [reflexivity | split; reflexivity]].
  destruct (open_file _ _ _) as [|inputFile];
    [eexists; split; [reflexivity | split; reflexivity]|].
  destruct (read_file _ _) as [|audio];
    [eexists; split; [reflexivity | split; reflexivity]|].
  destruct (http_NewRequest _ _ _) as [|req];
    [eexists; split; [reflexivity | split; reflexivity]|].
  destruct (remote w _) as [|resp];
    [eexists; split; [reflexivity | split; reflexivity]|].
  match goal with |- context [materialize ?c ?o ?r ?v] =>
    destruct (materialize_effects c o r v) as (r' & w' & t & -> & Ht & _ & Hr & Ho & _)
  end.
  cbn [final]. rewrite Ht, trace_after_load.
  eexists. split; [rewrite <- !app_assoc; simpl; reflexivity|].
  split.
  - change (env_reads ([EOpen inputPath;
                        EOtel (voice_request_event inputPath voiceID format);
                        EHTTP (sent ("multipart/form-data; boundary=" +:+ boundary w)
                                 (effective w "ELEVENLABS_API_KEY") req)]
                       ++ t) = []).
    now rewrite env_reads_app, Hr.
  - change (stdout ([EOpen inputPath;
                     EOtel (voice_request_event inputPath voiceID format);
                     EHTTP (sent ("multipart/form-data; boundary=" +:+ boundary w)
                              (effective w "ELEVENLABS_API_KEY") req)]
                    ++ t) = "").
    now rewrite stdout_app, Ho.
Qed.

(** The effects of a successful synthesis, in order. *)
Lemma textToSpeech_success (w w' : World) (text outputPath voiceID format : string)
    (stability similarityBoost style speed : float) (speakerBoost : bool) :
  textToSpeech text outputPath voiceID format stability similarityBoost style speed
    speakerBoost w = Ret None w' ->
  exists (token : string) (rq : Request) (resp : Response),
    outputFormats !! format = Some token
    /\ URL rq = tts_url voiceID token
    /\ trace w' = trace w ++ load_trace w
                  ++ [EGetenv "ELEVENLABS_API_KEY";
                      EOtel (tts_request_event text voiceID format);
                      EHTTP rq;
                      EMkdirAll (Filepath.Dir outputPath);
                      ECreate outputPath;
                      EWrite outputPath (RespBody resp);
                      EOtel (complete_event "tts_complete" outputPath)].
Proof.
  rewrite textToSpeech_spec. cbv zeta.
  destruct (String.eqb (effective w "ELEVENLABS_API_KEY") ""); [discriminate|].
  destruct (outputFormats !! format) as [apiFormat|]; [|discriminate].
  destruct (json_Marshal _) as [|jsonBody]; [discriminate|].
  destruct (http_NewRequest _ _ _) as [|req] eqn:Hn; [discriminate|].
  set (rq := sent _ _ req).
  destruct (remote w rq) as [|resp]; [discriminate|].
  intros H. apply materialize_success in H as (_ & _ & Ht & _).
  exists apiFormat, rq, resp. split; [reflexivity|]. split.
  - unfold http_NewRequest in Hn. destruct (url_Parse_err _); [discriminate|].
    now injection Hn as <-.
  - rewrite Ht, trace_after_load. now rewrite <- !app_assoc.
Qed.

Lemma voiceChange_success (w w' : World) (inputPath outputPath voiceID format : string) :
  voiceChange inputPath outputPath voiceID format w = Ret None w' ->
  exists (token : string) (rq : Request) (resp : Response),
    outputFormats !! format = Some token
    /\ URL rq = voice_url voiceID token
    /\ trace w' = trace w ++ load_trace w
                  ++ [EGetenv "ELEVENLABS_API_KEY";
                      EOpen inputPath;
                      EOtel (voice_request_event inputPath voiceID format);
                      EHTTP rq;
                      EMkdirAll (Filepath.Dir outputPath);
                      ECreate outputPath;
                      EWrite outputPath (RespBody resp);
                      EOtel (complete_event "voice_change_complete" outputPath)].
Proof.
  rewrite voiceChange_spec. cbv zeta.
  destruct (String.eqb (effective w "ELEVENLABS_API_KEY") ""); [discriminate|].
  destruct (outputFormats !! format) as [apiFormat|]; [|discriminate].
  destruct (open_file _ _ _) as [|inputFile]; [discriminate|].
  destruct (read_file _ _) as [|audio]; [discriminate|].
  destruct (http_NewRequest _ _ _) as [|req] eqn:Hn; [discriminate|].
  set (rq := sent _ _ req).
  destruct (remote w rq) as [|resp]; [discriminate|].
  intros H. apply materialize_success in H as (_ & _ & Ht & _).
  exists apiFormat, rq, resp. split; [reflexivity|]. split.
  - unfold http_NewRequest in Hn. destruct (url_Parse_err _); [discriminate|].
    now injection Hn as <-.
  - rewrite Ht, trace_after_load. now rewrite <- !app_assoc.
Qed.

(** ** The events of a successful command (C9) *)

Lemma finish_returns (failed output : string) (r : Result (option string)) (w' : World) :
  finish failed output r = Ret tt w' ->
  exists w1, r = Ret None w1 /\ w' = log (EStdout (output +:+ newline)) w1.
Proof.
  destruct r as [[err|] w1|c w1]; simpl; try discriminate.
  intros [= <-]. eauto.
Qed.

Lemma load_trace_after_load (w : World) (extra : list Effect) :
  load_trace (after_load w extra) = load_trace w.
Proof. reflexivity. Qed.

Ltac project_trace :=
  repeat (rewrite ?otel_events_app, ?stdout_app, ?env_reads_app, ?http_calls_app,
            ?load_trace_otel, ?load_trace_stdout, ?load_trace_reads, ?load_trace_http;
          simpl).

Ltac flatten_trace :=
  unfold log; simpl;
  repeat (rewrite <- app_assoc || rewrite <- app_comm_cons); simpl.

(** C9 (amended). When a command succeeds, the completion event
    (tts_complete, voice_change_complete) carries one attribute, the
    destination path. The voice id and the format are attributes of the
    request event, next to the length of the text for synthesis and the
    input path for transformation; that voice id is the one the request
    asks for in its URL, the caller's override or else the configured
    default. The request event comes right before the request is sent,
    the completion event after the file was written; these are the only
    two events of the run, and the last thing the command does is print
    the destination path and a newline, the only output. *)
Theorem completion_event_carries_the_output_path
    (fl : ttsFlags) (vf : voiceFlags) (w w' : World) :
  (cmdTTS fl w = Ret tt w' ->
   exists (text : string) (rest : list string) (token : string)
          (req : Request) (resp : Response) (before : list Effect),
     tts_args fl = text :: rest
     /\ outputFormats !! tts_format fl = Some token
     /\ URL req
        = "https://api.elevenlabs.io/v1" +:+ "/text-to-speech/"
          +:+ (if String.eqb (tts_voice fl) ""
               then effective w "ELEVENLABS_TTS_VOICE_ID" else tts_voice fl)
          +:+ "?output_format=" +:+ token
     /\ trace w'
        = trace w ++ before
          ++ [EOtel (mkEvent LevelInfo "tts_request"
                       {[ "voice_id" := AStr (if String.eqb (tts_voice fl) ""
                                              then effective w "ELEVENLABS_TTS_VOICE_ID"
                                              else tts_voice fl);
                          "format" := AStr (tts_format fl);
                          "text_len" := AInt (Z.of_nat (String.length text)) ]});
              EHTTP req;
              EMkdirAll (Filepath.Dir (tts_output fl));
              ECreate (tts_output fl);
              EWrite (tts_output fl) (RespBody resp);
              EOtel (mkEvent LevelInfo "tts_complete"
                       {[ "output" := AStr (tts_output fl) ]});
              EStdout (tts_output fl +:+ newline)]
     /\ otel_events before = [] /\ http_calls before = [] /\ stdout before = "")
  /\ (cmdVoice vf w = Ret tt w' ->
      exists (inputPath : string) (rest : list string) (token : string)
             (req : Request) (resp : Response) (before : list Effect),
        vc_args vf = inputPath :: rest
        /\ outputFormats !! vc_format vf = Some token
        /\ URL req
           = "https://api.elevenlabs.io/v1" +:+ "/speech-to-speech/"
             +:+ (if String.eqb (vc_voice vf) ""
                  then effective w "ELEVENLABS_VOICE_CHANGE_ID" else vc_voice vf)
             +:+ "?output_format=" +:+ token
        /\ trace w'
           = trace w ++ before
             ++ [EOtel (mkEvent LevelInfo "voice_change_request"
                          {[ "voice_id" := AStr (if String.eqb (vc_voice vf) ""
                                                 then effective w "ELEVENLABS_VOICE_CHANGE_ID"
                                                 else vc_voice vf);
                             "format" := AStr (vc_format vf);
                             "input" := AStr inputPath ]});
                 EHTTP req;
                 EMkdirAll (Filepath.Dir (vc_output vf));
                 ECreate (vc_output vf);
                 EWrite (vc_output vf) (RespBody resp);
                 EOtel (mkEvent LevelInfo "voice_change_complete"
                          {[ "output" := AStr (vc_output vf) ]});
                 EStdout (vc_output vf +:+ newline)]
        /\ otel_events before = [] /\ http_calls before = [] /\ stdout before = "").
Proof.
  split.
  - rewrite cmdTTS_spec. destruct (tts_args fl) as [|text rest]; [discriminate|].
    destruct (String.eqb (tts_voice fl) "").
    + destruct (String.eqb (effective w "ELEVENLABS_TTS_VOICE_ID") ""); [discriminate|].
      intros H. apply finish_returns in H as (w1 & H & ->).
      apply textToSpeech_success in H as (token & rq & resp & Hf & Hu & Ht).
      exists text, rest, token, rq, resp,
        (load_trace w ++ [EGetenv "ELEVENLABS_TTS_VOICE_ID"]
         ++ load_trace w ++ [EGetenv "ELEVENLABS_API_KEY"]).
      split; [reflexivity|]. split; [exact Hf|]. split; [exact Hu|]. split.
      * unfold log; simpl. rewrite Ht, trace_after_load, load_trace_after_load.
        flatten_trace. reflexivity.
      * repeat split; project_trace; reflexivity.
    + intros H. apply finish_returns in H as (w1 & H & ->).
      apply textToSpeech_success in H as (token & rq & resp & Hf & Hu & Ht).
      exists text, rest, token, rq, resp, (load_trace w ++ [EGetenv "ELEVENLABS_API_KEY"]).
      split; [reflexivity|]. split; [exact Hf|]. split; [exact Hu|]. split.
      * unfold log; simpl. rewrite Ht. flatten_trace. reflexivity.
      * repeat split; project_trace; reflexivity.
  - rewrite cmdVoice_spec. destruct (vc_args vf) as [|inputPath rest]; [discriminate|].
    cbv zeta. destruct (is_not_exist _); [discriminate|].
    destruct (String.eqb (vc_voice vf) "").
    + destruct (String.eqb (effective w "ELEVENLABS_VOICE_CHANGE_ID") ""); [discriminate|].
      intros H. apply finish_returns in H as (w1 & H & ->).
      apply voiceChange_success in H as (token & rq & resp & Hf & Hu & Ht).
      exists inputPath, rest, token, rq, resp,
        ([EStat inputPath] ++ load_trace w ++ [EGetenv "ELEVENLABS_VOICE_CHANGE_ID"]
         ++ load_trace w ++ [EGetenv "ELEVENLABS_API_KEY"; EOpen inputPath]).
      split; [reflexivity|]. split; [exact Hf|]. split; [exact Hu|]. split.
      * unfold log at 1; simpl. rewrite Ht, trace_after_load, load_trace_after_load.
        flatten_trace. reflexivity.
      * repeat split; project_trace; reflexivity.
    + intros H. apply finish_returns in H as (w1 & H & ->).
      apply voiceChange_success in H as (token & rq & resp & Hf & Hu & Ht).
      exists inputPath, rest, token, rq, resp,
        ([EStat inputPath] ++ load_trace w ++ [EGetenv "ELEVENLABS_API_KEY"; EOpen inputPath]).
      split; [reflexivity|]. split; [exact Hf|]. split; [exact Hu|]. split.
      * unfold log at 1; simpl. rewrite Ht. flatten_trace. reflexivity.
      * repeat split; project_trace; reflexivity.
Qed.

(** ** The order in which settings are resolved (C7) *)

Lemma finish_reads (failed output : string) (r : Result (option string)) :
  env_reads (trace (final (finish failed output r))) = env_reads (trace (final r)).
Proof.
  destruct r as [[err|] w1|c w1]; simpl; rewrite ?env_reads_app; simpl;
    now rewrite ?app_nil_r.
Qed.

Lemma textToSpeech_reads (w : World) (text outputPath voiceID format : string)
    (stability similarityBoost style speed : float) (speakerBoost : bool) :
  env_reads (trace (final (textToSpeech text outputPath voiceID format stability
                             similarityBoost style speed speakerBoost w)))
  = env_reads (trace w) ++ ["ELEVENLABS_API_KEY"].
Proof.
  destruct (textToSpeech_trace w text outputPath voiceID format stability similarityBoost
              style speed speakerBoost) as (t & -> & Hr & _).
  project_trace. now rewrite Hr.
Qed.

Lemma voiceChange_reads (w : World) (inputPath outputPath voiceID format : string) :
  env_reads (trace (final (voiceChange inputPath outputPath voiceID format w)))
  = env_reads (trace w) ++ ["ELEVENLABS_API_KEY"].
Proof.
  destruct (voiceChange_trace w inputPath outputPath voiceID format) as (t & -> & Hr & _).
  project_trace. now rewrite Hr.
Qed.

(** C7 (amended). With no voice override, each command resolves the
    role-specific default voice identifier first and the credential
    second: the variables read are the voice variable, then
    ELEVENLABS_API_KEY. When the voice identifier is absent the process
    ends with the diagnostic that names the voice variable, whether or not
    the credential is configured, and the credential is not read at all. *)
Theorem voice_id_is_resolved_before_the_credential
    (fl : ttsFlags) (vf : voiceFlags) (w : World)
    (text inputPath : string) (rest rest' : list string) :
  tts_args fl = text :: rest -> tts_voice fl = "" ->
  vc_args vf = inputPath :: rest' -> vc_voice vf = "" ->
  is_not_exist (FS.stat (fs w) (cwd w) inputPath) = false ->
  (effective w "ELEVENLABS_TTS_VOICE_ID" = "" ->
   exists w',
     cmdTTS fl w = Exit 1 w'
     /\ trace w' = trace w ++ load_trace w
                   ++ EGetenv "ELEVENLABS_TTS_VOICE_ID"
                      :: ConfigurationMissing "ELEVENLABS_TTS_VOICE_ID"
     /\ env_reads (trace w') = env_reads (trace w) ++ ["ELEVENLABS_TTS_VOICE_ID"])
  /\ (effective w "ELEVENLABS_TTS_VOICE_ID" <> "" ->
      env_reads (trace (final (cmdTTS fl w)))
      = env_reads (trace w) ++ ["ELEVENLABS_TTS_VOICE_ID"; "ELEVENLABS_API_KEY"])
  /\ (effective w "ELEVENLABS_VOICE_CHANGE_ID" = "" ->
      exists w',
        cmdVoice vf w = Exit 1 w'
        /\ trace w' = trace w ++ EStat inputPath :: load_trace w
                      ++ EGetenv "ELEVENLABS_VOICE_CHANGE_ID"
                         :: ConfigurationMissing "ELEVENLABS_VOICE_CHANGE_ID"
        /\ env_reads (trace w') = env_reads (trace w) ++ ["ELEVENLABS_VOICE_CHANGE_ID"])
  /\ (effective w "ELEVENLABS_VOICE_CHANGE_ID" <> "" ->
      env_reads (trace (final (cmdVoice vf w)))
      = env_reads (trace w) ++ ["ELEVENLABS_VOICE_CHANGE_ID"; "ELEVENLABS_API_KEY"]).
Proof.
  intros Ha Hv Ha' Hv' Hst.
  rewrite cmdTTS_spec, cmdVoice_spec, Ha, Hv, Ha', Hv'. cbv zeta. rewrite Hst. simpl.
  split; [|split; [|split]].
  - intros H. rewrite (eqb_empty_true _ H). eexists. split; [reflexivity|].
    split; [reflexivity|]. rewrite trace_after_load. project_trace. reflexivity.
  - intros H. rewrite (eqb_empty_false _ H). unfold run_tts.
    rewrite finish_reads, textToSpeech_reads, trace_after_load. project_trace.
    now rewrite <- app_assoc.
  - intros H. rewrite (eqb_empty_true _ H). eexists. split; [reflexivity|].
    split.
    + rewrite trace_after_load. unfold log; simpl. now rewrite <- app_assoc.
    + rewrite trace_after_load. unfold log; simpl. project_trace.
      now rewrite app_nil_r.
  - intros H. rewrite (eqb_empty_false _ H).
    rewrite finish_reads, voiceChange_reads, trace_after_load. unfold log; simpl.
    project_trace. rewrite app_nil_r. now rewrite <- app_assoc.
Qed.

(** ** A voice override and the configured default (C8) *)

Section Override.

Variable K : string.
Variables w1 w2 : World.
Hypothesis HK : K <> "ELEVENLABS_API_KEY".
Hypothesis Hag : agree_off K w1 w2.

Lemma agree_exe_env_path : exe_env_path w1 = exe_env_path w2.
Proof.
  unfold exe_env_path. rewrite (ao_executable _ _ _ Hag).
  destruct (executable w2) as [exe|]; [|reflexivity].
  now rewrite (ao_evalSymlinks _ _ _ Hag).
Qed.

Lemma agree_load_trace : load_trace w1 = load_trace w2.
Proof. unfold load_trace. now rewrite agree_exe_env_path. Qed.

Lemma agree_effective (k : string) : k <> K -> effective w1 k = effective w2 k.
Proof.
  intros Hk. unfold effective. rewrite !loaded_env_lookup, agree_exe_env_path.
  rewrite (ao_environ _ _ _ Hag k Hk).
  destruct (exe_env_path w2) as [p|];
    now rewrite ?(ao_dotenv _ _ _ Hag _ k Hk).
Qed.

Lemma agree_after_load (e : list Effect) (A : Type) (x : A + Z) :
  (x, fs (after_load w1 e), trace (after_load w1 e))
  = (x, fs (after_load w2 e), trace (after_load w2 e)).
Proof.
  simpl. now rewrite (ao_fs _ _ _ Hag), (ao_trace _ _ _ Hag), agree_load_trace.
Qed.

Lemma agree_materialize (complete outputPath : string) (resp : Response) (e : list Effect) :
  observe (materialize complete outputPath resp (after_load w1 e))
  = observe (materialize complete outputPath resp (after_load w2 e)).
Proof.
  assert (Hf : fs (after_load w1 e) = fs (after_load w2 e))
    by apply (ao_fs _ _ _ Hag).
  assert (Hc : cwd (after_load w1 e) = cwd (after_load w2 e))
    by apply (ao_cwd _ _ _ Hag).
  assert (Ht : trace (after_load w1 e) = trace (after_load w2 e))
    by (simpl; now rewrite (ao_trace _ _ _ Hag), agree_load_trace).
  pose proof (materialize_same complete outputPath resp _ _ Hf Hc Ht) as H.
  destruct (materialize _ _ _ (after_load w1 e)) as [r1 v1|c1 v1],
           (materialize _ _ _ (after_load w2 e)) as [r2 v2|c2 v2];
    try contradiction.
  destruct H as (-> & Hf' & Ht'). unfold observe; simpl. now rewrite Hf', Ht'.
Qed.

Lemma agree_textToSpeech (text outputPath voiceID format : string)
    (stability similarityBoost style speed : float) (speakerBoost : bool) :
  observe (textToSpeech text outputPath voiceID format stability similarityBoost style
             speed speakerBoost w1)
  = observe (textToSpeech text outputPath voiceID format stability similarityBoost style
               speed speakerBoost w2).
Proof.
  rewrite !textToSpeech_spec. cbv zeta.
  rewrite (agree_effective "ELEVENLABS_API_KEY") by congruence.
  destruct (String.eqb (effective w2 "ELEVENLABS_API_KEY") "");
    [apply agree_after_load|].
  destruct (outputFormats !! format) as [apiFormat|]; [|apply agree_after_load].
  destruct (json_Marshal _) as [|jsonBody]; [apply agree_after_load|].
  destruct (http_NewRequest _ _ _) as [|req]; [apply agree_after_load|].
  rewrite (ao_remote _ _ _ Hag).
  destruct (remote w2 _) as [|resp]; [apply agree_after_load | apply agree_materialize].
Qed.

Lemma agree_voiceChange (inputPath outputPath voiceID format : string) :
  observe (voiceChange inputPath outputPath voiceID format w1)
  = observe (voiceChange inputPath outputPath voiceID format w2).
Proof.
  rewrite !voiceChange_spec. cbv zeta.
  rewrite (agree_effective "ELEVENLABS_API_KEY") by congruence.
  rewrite (ao_fs _ _ _ Hag), (ao_cwd _ _ _ Hag), (ao_boundary _ _ _ Hag).
  destruct (String.eqb (effective w2 "ELEVENLABS_API_KEY") "");
    [apply agree_after_load|].
  destruct (outputFormats !! format) as [apiFormat|]; [|apply agree_after_load].
  destruct (open_file _ _ _) as [|inputFile]; [apply agree_after_load|].
  destruct (read_file _ _) as [|audio]; [apply agree_after_load|].
  destruct (http_NewRequest _ _ _) as [|req]; [apply agree_after_load|].
  rewrite (ao_remote _ _ _ Hag).
  destruct (remote w2 _) as [|resp]; [apply agree_after_load | apply agree_materialize].
Qed.

End Override.

Lemma finish_observe (failed output : string) (r1 r2 : Result (option string)) :
  observe r1 = observe r2 ->
  observe (finish failed output r1) = observe (finish failed output r2).
Proof.
  unfold observe.
  destruct r1 as [[e1|] v1|c1 v1], r2 as [[e2|] v2|c2 v2]; simpl;
    intros H; inversion H; subst; congruence.
Qed.

Lemma agree_off_log (K : string) (w1 w2 : World) (e : Effect) :
  agree_off K w1 w2 -> agree_off K (log e w1) (log e w2).
Proof.
  intros [H1 H2 H3 H4 H5 H6 H7 H8 H9].
  constructor; simpl; auto. now rewrite H9.
Qed.

Lemma observe_log_exit (K : string) (w1 w2 : World) (e : Effect) (c : Z) (A : Type) :
  agree_off K w1 w2 ->
  observe (@Exit A c (log e w1)) = observe (@Exit A c (log e w2)).
Proof.
  intros H. unfold observe; simpl.
  now rewrite (ao_fs _ _ _ H), (ao_trace _ _ _ H).
Qed.

(** C8. With a non-empty voice override, a command never reads the
    configured default voice variable (ELEVENLABS_TTS_VOICE_ID for
    synthesis, ELEVENLABS_VOICE_CHANGE_ID for transformation): the only
    variable it reads is the credential, and two runs in worlds that differ
    at most in the value of that default, in the process environment or in
    an env file, end the same way, leave the same file system and have the
    same effects in the same order. *)
Theorem voice_override_ignores_the_configured_default
    (fl : ttsFlags) (vf : voiceFlags) (w1 w2 : World) :
  (tts_voice fl <> "" ->
   agree_off "ELEVENLABS_TTS_VOICE_ID" w1 w2 ->
   observe (cmdTTS fl w1) = observe (cmdTTS fl w2)
   /\ exists reads,
        env_reads (trace (final (cmdTTS fl w1))) = env_reads (trace w1) ++ reads
        /\ "ELEVENLABS_TTS_VOICE_ID" ∉ reads)
  /\ (vc_voice vf <> "" ->
      agree_off "ELEVENLABS_VOICE_CHANGE_ID" w1 w2 ->
      observe (cmdVoice vf w1) = observe (cmdVoice vf w2)
      /\ exists reads,
           env_reads (trace (final (cmdVoice vf w1))) = env_reads (trace w1) ++ reads
           /\ "ELEVENLABS_VOICE_CHANGE_ID" ∉ reads).
Proof.
  split.
  - intros Hv Hag. rewrite !cmdTTS_spec.
    destruct (tts_args fl) as [|text rest].
    + split; [eapply observe_log_exit; eauto|].
      exists []. split; [simpl; project_trace; reflexivity | apply not_elem_of_nil].
    + rewrite (eqb_empty_false _ Hv). split.
      * apply finish_observe. unfold run_tts.
        apply (agree_textToSpeech "ELEVENLABS_TTS_VOICE_ID"); [discriminate | exact Hag].
      * exists ["ELEVENLABS_API_KEY"]. split.
        -- unfold run_tts. now rewrite finish_reads, textToSpeech_reads.
        -- intros Hin. apply list_elem_of_singleton in Hin. discriminate.
  - intros Hv Hag. rewrite !cmdVoice_spec.
    destruct (vc_args vf) as [|inputPath rest].
    + split; [eapply observe_log_exit; eauto|].
      exists []. split; [simpl; project_trace; reflexivity | apply not_elem_of_nil].
    + cbv zeta. rewrite (ao_fs _ _ _ Hag), (ao_cwd _ _ _ Hag).
      destruct (is_not_exist _).
      * split; [eapply observe_log_exit; apply agree_off_log; eauto|].
        exists []. split; [simpl; project_trace; now rewrite !app_nil_r
                          | apply not_elem_of_nil].
      * rewrite (eqb_empty_false _ Hv). split.
        -- apply finish_observe.
           apply (agree_voiceChange "ELEVENLABS_VOICE_CHANGE_ID");
             [discriminate | now apply agree_off_log].
        -- exists ["ELEVENLABS_API_KEY"]. split.
           ++ rewrite finish_reads, voiceChange_reads. simpl. project_trace.
              now rewrite app_nil_r.
           ++ intros Hin. apply list_elem_of_singleton in Hin. discriminate.
Qed.

Example studio_tts_runs :
  returned (cmdTTS (tts_flags "" "opus") studio) = true
  /\ FS.stat (fs (final (cmdTTS (tts_flags "" "opus") studio))) ["home"; "pink"]
       "/tmp/out/speech.ogg" = inr (FS.NFile ogg_bytes)
  /\ stdout (trace (final (cmdTTS (tts_flags "" "opus") studio)))
     = "/tmp/out/speech.ogg" +:+ newline.
Proof. repeat split; vm_compute; reflexivity. Qed.

Example studio_voice_runs :
  returned (cmdVoice (voice_flags "" "mp3") studio) = true
  /\ FS.stat (fs (final (cmdVoice (voice_flags "" "mp3") studio))) ["home"; "pink"]
       "out/changed.ogg" = inr (FS.NFile ogg_bytes)
  /\ FS.is_dir (fs (final (cmdVoice (voice_flags "" "mp3") studio))) ["home"; "pink"; "out"]
     = true.
Proof. repeat split; vm_compute; reflexivity. Qed.

Example refused_tts_fails :
  exit_code (cmdTTS (tts_flags "" "opus") refused) = Some 1%Z
  /\ stderr (trace (final (cmdTTS (tts_flags "" "opus") refused)))
     = "ERROR: API error 404: " +:+ bad_voice_body +:+ newline
  /\ fs (final (cmdTTS (tts_flags "" "opus") refused)) = home_tree.
Proof. repeat split; vm_compute; reflexivity. Qed.

Example missing_input_fails :
  stderr (trace (final (cmdVoice (mkVoiceFlags "out.ogg" "" "opus" ["nowhere.ogg"]) studio)))
  = "ERROR: Input file not found: nowhere.ogg" +:+ newline
  /\ http_calls (trace (final (cmdVoice (mkVoiceFlags "out.ogg" "" "opus" ["nowhere.ogg"])
                                 studio))) = [].
Proof. repeat split; vm_compute; reflexivity. Qed.

(** A regular file in the way of the destination: [os.MkdirAll] names the
    ancestor it stopped at. *)
Example file_in_the_way :
  exists w',
    voiceChange "in.ogg" "in.ogg/x/out.ogg" "voice-target" "mp3" studio
    = Ret (Some "failed to create output directory: mkdir in.ogg: not a directory") w'
    /\ fs w' = fs studio.
Proof. eexists. split; vm_compute; reflexivity. Qed.

(** A voice id that is no URL path: nothing is sent. *)
Example malformed_voice_id :
  exists w',
    textToSpeech "hello" "/tmp/out/speech.ogg" "%zz" "pcm" 0%float 0.75%float 0.5%float
      1%float true studio
    = Ret (Some ("failed to create request: parse " +:+ dquote
                 +:+ "https://api.elevenlabs.io/v1/text-to-speech/%zz?output_format=pcm_44100"
                 +:+ dquote +:+ ": invalid URL escape " +:+ dquote +:+ "%zz" +:+ dquote)) w'
    /\ http_calls (trace w') = [].
Proof. eexists. split; vm_compute; reflexivity. Qed.

(** ** The theorems at concrete inputs *)

(** C1 at the case variant OPUS, with a credential configured. *)
Lemma format_table_exact_witness :
  outputFormats !! "OPUS" = None
  /\ (exists w',
        textToSpeech "hello" "/tmp/out/speech.ogg" "voice-default" "OPUS"
          0%float 0.75%float 0.5%float 1%float true studio
        = Ret (Some "unsupported format: OPUS") w'
        /\ http_calls (trace w') = http_calls (trace studio))
  /\ (exists w',
        voiceChange "in.ogg" "out/changed.ogg" "voice-target" "OPUS" studio
        = Ret (Some "unsupported format: OPUS") w'
        /\ http_calls (trace w') = http_calls (trace studio)).
Proof.
  destruct (proj2 format_table_exact "OPUS" studio) as (Hn & Ht & Hv);
    try discriminate.
  split; [exact Hn|]. split.
  - exact (Ht "hello" "/tmp/out/speech.ogg" "voice-default"
             0%float 0.75%float 0.5%float 1%float true).
  - exact (Hv "in.ogg" "out/changed.ogg" "voice-target").
Defined.

(** C2 where nothing is configured. *)
Lemma missing_credential_fails_before_network_witness :
  exists w',
    textToSpeech "hello" "/tmp/out/speech.ogg" "v1" "opus"
      0%float 0.75%float 0.5%float 1%float true unconfigured = Exit 1 w'
    /\ voiceChange "in.ogg" "/tmp/out/speech.ogg" "v1" "opus" unconfigured = Exit 1 w'
    /\ trace w' = trace unconfigured ++ load_trace unconfigured
                  ++ EGetenv "ELEVENLABS_API_KEY"
                     :: ConfigurationMissing "ELEVENLABS_API_KEY"
    /\ http_calls (trace w') = http_calls (trace unconfigured)
    /\ fs w' = fs unconfigured.
Proof.
  apply (missing_credential_fails_before_network unconfigured "hello" "in.ogg"
           "/tmp/out/speech.ogg" "v1" "opus").
  reflexivity.
Defined.

(** C10 where nothing is configured. *)
Lemma checkHealth_without_credential_witness :
  exists w',
    checkHealth unconfigured = Ret false w'
    /\ trace w' = trace unconfigured ++ load_trace unconfigured
                  ++ [EGetenv "ELEVENLABS_API_KEY"]
    /\ http_calls (trace w') = http_calls (trace unconfigured).
Proof. apply (checkHealth_without_credential unconfigured). reflexivity. Defined.

Example checkHealth_studio : checkHealth studio = Ret true (final (checkHealth studio)).
Proof. vm_compute. reflexivity. Qed.

Example checkHealth_refused : checkHealth refused = Ret false (final (checkHealth refused)).
Proof. vm_compute. reflexivity. Qed.

Example checkHealth_offline :
  checkHealth (world_with configured_env (fun _ => inl "dial tcp: i/o timeout"))
  = Ret false (final (checkHealth
                        (world_with configured_env (fun _ => inl "dial tcp: i/o timeout")))).
Proof. vm_compute. reflexivity. Qed.

(** C4 in the studio, for a destination two directories below [/tmp],
    neither of which exists. *)
Lemma synthesis_writes_body_witness :
  (exists (req : Request) (resp : Response) (before : list Effect),
     http_calls (trace (final (textToSpeech "hello" "/tmp/a/b/speech.ogg" "voice-default"
                                 "opus" 0%float 0.75%float 0.5%float 1%float true studio)))
     = http_calls (trace studio) ++ [req]
     /\ remote studio req = inr resp
     /\ StatusCode resp = 200%Z
     /\ ReadErr resp = None
     /\ FS.stat (fs (final (textToSpeech "hello" "/tmp/a/b/speech.ogg" "voice-default"
                              "opus" 0%float 0.75%float 0.5%float 1%float true studio)))
          (cwd (final (textToSpeech "hello" "/tmp/a/b/speech.ogg" "voice-default"
                         "opus" 0%float 0.75%float 0.5%float 1%float true studio)))
          "/tmp/a/b/speech.ogg"
        = inr (FS.NFile (RespBody resp))
     /\ (exists ch,
           FS.stat (fs (final (textToSpeech "hello" "/tmp/a/b/speech.ogg" "voice-default"
                                 "opus" 0%float 0.75%float 0.5%float 1%float true studio)))
             (cwd (final (textToSpeech "hello" "/tmp/a/b/speech.ogg" "voice-default"
                            "opus" 0%float 0.75%float 0.5%float 1%float true studio)))
             (Filepath.Dir "/tmp/a/b/speech.ogg")
           = inr (FS.NDir ch))
     /\ trace (final (textToSpeech "hello" "/tmp/a/b/speech.ogg" "voice-default"
                        "opus" 0%float 0.75%float 0.5%float 1%float true studio))
        = before ++ [EMkdirAll (Filepath.Dir "/tmp/a/b/speech.ogg");
                     ECreate "/tmp/a/b/speech.ogg";
                     EWrite "/tmp/a/b/speech.ogg" (RespBody resp);
                     EOtel (complete_event "tts_complete" "/tmp/a/b/speech.ogg")])
  /\ (exists w',
        textToSpeech "hello" "/tmp/a/b/speech.ogg" "voice-default" "opus"
          0%float 0.75%float 0.5%float 1%float true studio = Ret None w'
        /\ FS.stat (fs w') (cwd w') "/tmp/a/b/speech.ogg" = inr (FS.NFile ogg_bytes)
        /\ (forall j, FS.is_dir (fs w') (FS.start (cwd studio) "/tmp/a/b/speech.ogg"
                                         ++ take j ["tmp"; "a"; "b"]) = true)
        /\ FS.extends (fs studio) (fs w')).
Proof.
  split.
  - apply (proj1 (synthesis_writes_body studio "hello" "/tmp/a/b/speech.ogg"
                    "voice-default" "opus" 0%float 0.75%float 0.5%float 1%float true)).
    vm_compute. reflexivity.
  - apply (proj2 (synthesis_writes_body studio "hello" "/tmp/a/b/speech.ogg"
                    "voice-default" "opus" 0%float 0.75%float 0.5%float 1%float true)
             studio_tts_request (mkResponse 200 ogg_bytes None)
             ["tmp"; "a"; "b"] "speech.ogg" 1%nat).
    + vm_compute. reflexivity.
    + reflexivity.
    + reflexivity.
    + reflexivity.
    + split; [reflexivity | repeat constructor].
    + split; [simpl; lia|]. exists ∅. split; [vm_compute; reflexivity|].
      intros e [= <-]. apply lookup_empty.
    + vm_compute. reflexivity.
Defined.

(** C5 against the service that answers 404 with [{"detail":"bad voice"}]. *)
Lemma non200_is_api_error_witness :
  (exists w',
     textToSpeech "hello" "/tmp/out/speech.ogg" "voice-default" "opus"
       0%float 0.75%float 0.5%float 1%float true refused
     = Ret (Some ("API error " +:+ pretty 404%Z +:+ ": " +:+ bad_voice_body)) w'
     /\ fs w' = fs refused
     /\ trace w' = trace refused ++ load_trace refused
                   ++ [EGetenv "ELEVENLABS_API_KEY";
                       EOtel (tts_request_event "hello" "voice-default" "opus");
                       EHTTP studio_tts_request])
  /\ (exists w',
        voiceChange "in.ogg" "/tmp/out/speech.ogg" "voice-target" "mp3" refused
        = Ret (Some ("API error " +:+ pretty 404%Z +:+ ": " +:+ bad_voice_body)) w'
        /\ fs w' = fs refused
        /\ trace w' = trace refused ++ load_trace refused
                      ++ [EGetenv "ELEVENLABS_API_KEY";
                          EOpen "in.ogg";
                          EOtel (voice_request_event "in.ogg" "voice-target" "mp3");
                          EHTTP studio_voice_request]).
Proof.
  split.
  - apply (proj1 (non200_is_api_error refused "hello" "in.ogg" "/tmp/out/speech.ogg"
                    "voice-default" "opus" 0%float 0.75%float 0.5%float 1%float true
                    studio_tts_request (mkResponse 404 bad_voice_body None)
                    eq_refl ltac:(discriminate))).
    vm_compute. reflexivity.
  - apply (proj2 (non200_is_api_error refused "hello" "in.ogg" "/tmp/out/speech.ogg"
                    "voice-target" "mp3" 0%float 0.75%float 0.5%float 1%float true
                    studio_voice_request (mkResponse 404 bad_voice_body None)
                    eq_refl ltac:(discriminate))).
    vm_compute. reflexivity.
Defined.

(** C7, as stated, fails: with neither the credential nor the default
    voice configured and no override, the failure reported is the one of
    the voice variable, and the credential is never read. *)
Lemma credential_is_not_resolved_first :
  effective unconfigured "ELEVENLABS_API_KEY" = ""
  /\ effective unconfigured "ELEVENLABS_TTS_VOICE_ID" = ""
  /\ tts_voice (tts_flags "" "opus") = ""
  /\ exit_code (cmdTTS (tts_flags "" "opus") unconfigured) = Some 1%Z
  /\ stderr (trace (final (cmdTTS (tts_flags "" "opus") unconfigured)))
     = "ERROR: ELEVENLABS_TTS_VOICE_ID not found in environment" +:+ newline
  /\ otel_events (trace (final (cmdTTS (tts_flags "" "opus") unconfigured)))
     = [mkEvent LevelError "ELEVENLABS_TTS_VOICE_ID not found" ∅]
  /\ env_reads (trace (final (cmdTTS (tts_flags "" "opus") unconfigured)))
     = ["ELEVENLABS_TTS_VOICE_ID"].
Proof. repeat split; vm_compute; reflexivity. Qed.

(** C7 (amended) where nothing is configured, and in the studio. *)
Lemma voice_id_is_resolved_before_the_credential_witness :
  (exists w',
     cmdTTS (tts_flags "" "opus") unconfigured = Exit 1 w'
     /\ trace w' = trace unconfigured ++ load_trace unconfigured
                   ++ EGetenv "ELEVENLABS_TTS_VOICE_ID"
                      :: ConfigurationMissing "ELEVENLABS_TTS_VOICE_ID"
     /\ env_reads (trace w') = env_reads (trace unconfigured) ++ ["ELEVENLABS_TTS_VOICE_ID"])
  /\ env_reads (trace (final (cmdTTS (tts_flags "" "opus") studio)))
     = env_reads (trace studio) ++ ["ELEVENLABS_TTS_VOICE_ID"; "ELEVENLABS_API_KEY"]
  /\ (exists w',
        cmdVoice (voice_flags "" "mp3") unconfigured = Exit 1 w'
        /\ trace w' = trace unconfigured ++ EStat "in.ogg" :: load_trace unconfigured
                      ++ EGetenv "ELEVENLABS_VOICE_CHANGE_ID"
                         :: ConfigurationMissing "ELEVENLABS_VOICE_CHANGE_ID"
        /\ env_reads (trace w')
           = env_reads (trace unconfigured) ++ ["ELEVENLABS_VOICE_CHANGE_ID"])
  /\ env_reads (trace (final (cmdVoice (voice_flags "" "mp3") studio)))
     = env_reads (trace studio) ++ ["ELEVENLABS_VOICE_CHANGE_ID"; "ELEVENLABS_API_KEY"].
Proof.
  destruct (voice_id_is_resolved_before_the_credential
              (tts_flags "" "opus") (voice_flags "" "mp3") unconfigured
              "hello" "in.ogg" [] [] eq_refl eq_refl eq_refl eq_refl eq_refl)
    as (Ha & _ & Hb & _).
  destruct (voice_id_is_resolved_before_the_credential
              (tts_flags "" "opus") (voice_flags "" "mp3") studio
              "hello" "in.ogg" [] [] eq_refl eq_refl eq_refl eq_refl eq_refl)
    as (_ & Hc & _ & Hd).
  split; [exact (Ha eq_refl)|]. split; [apply Hc; discriminate|].
  split; [exact (Hb eq_refl) | apply Hd; discriminate].
Defined.

Lemma studio_agree_tts :
  agree_off "ELEVENLABS_TTS_VOICE_ID" studio studio_other_tts_voice.
Proof.
  constructor; try reflexivity.
  intros k Hk. simpl. now rewrite lookup_insert_ne.
Defined.

Lemma studio_agree_target :
  agree_off "ELEVENLABS_VOICE_CHANGE_ID" studio studio_other_target_voice.
Proof.
  constructor; try reflexivity.
  intros k Hk. simpl. now rewrite lookup_delete_ne.
Defined.

(** C8 with the override [voice-override], against a changed and against
    a removed default. *)
Lemma voice_override_ignores_the_configured_default_witness :
  (observe (cmdTTS (tts_flags "voice-override" "opus") studio)
   = observe (cmdTTS (tts_flags "voice-override" "opus") studio_other_tts_voice)
   /\ exists reads,
        env_reads (trace (final (cmdTTS (tts_flags "voice-override" "opus") studio)))
        = env_reads (trace studio) ++ reads
        /\ "ELEVENLABS_TTS_VOICE_ID" ∉ reads)
  /\ (observe (cmdVoice (voice_flags "voice-override" "mp3") studio)
      = observe (cmdVoice (voice_flags "voice-override" "mp3") studio_other_target_voice)
      /\ exists reads,
           env_reads (trace (final (cmdVoice (voice_flags "voice-override" "mp3") studio)))
           = env_reads (trace studio) ++ reads
           /\ "ELEVENLABS_VOICE_CHANGE_ID" ∉ reads).
Proof.
  split.
  - apply (proj1 (voice_override_ignores_the_configured_default
                    (tts_flags "voice-override" "opus") (voice_flags "voice-override" "mp3")
                    studio studio_other_tts_voice));
      [discriminate | exact studio_agree_tts].
  - apply (proj2 (voice_override_ignores_the_configured_default
                    (tts_flags "voice-override" "opus") (voice_flags "voice-override" "mp3")
                    studio studio_other_target_voice));
      [discriminate | exact studio_agree_target].
Defined.

(** Without the override the default does matter. *)
Example default_voice_matters_without_override :
  http_calls (trace (final (cmdTTS (tts_flags "" "opus") studio)))
  <> http_calls (trace (final (cmdTTS (tts_flags "" "opus") studio_other_tts_voice))).
Proof. vm_compute. discriminate. Qed.

(** C9, as stated, fails: in a successful synthesis the completion event
    has the destination path as its only attribute; it carries neither the
    voice id, nor the format, nor a size. *)
Lemma completion_event_lacks_voice_and_format :
  returned (cmdTTS (tts_flags "" "opus") studio) = true
  /\ otel_events (trace (final (cmdTTS (tts_flags "" "opus") studio)))
     = [mkEvent LevelInfo "tts_request"
          {[ "voice_id" := AStr "voice-default";
             "format" := AStr "opus";
             "text_len" := AInt 5 ]};
        mkEvent LevelInfo "tts_complete" {[ "output" := AStr "/tmp/out/speech.ogg" ]}]
  /\ ({[ "output" := AStr "/tmp/out/speech.ogg" ]} : gmap string AttrVal) !! "voice_id" = None
  /\ ({[ "output" := AStr "/tmp/out/speech.ogg" ]} : gmap string AttrVal) !! "format" = None
  /\ ({[ "output" := AStr "/tmp/out/speech.ogg" ]} : gmap string AttrVal) !! "text_len" = None
  /\ size ({[ "output" := AStr "/tmp/out/speech.ogg" ]} : gmap string AttrVal) = 1%nat.
Proof. repeat split; vm_compute; reflexivity. Qed.

(** C9 (amended) in the studio: a synthesis with the configured voice, a
    transformation with an override. *)
Lemma completion_event_carries_the_output_path_witness :
  (exists (text : string) (rest : list string) (token : string)
          (req : Request) (resp : Response) (before : list Effect),
     tts_args (tts_flags "" "opus") = text :: rest
     /\ outputFormats !! "opus" = Some token
     /\ URL req
        = "https://api.elevenlabs.io/v1" +:+ "/text-to-speech/" +:+ "voice-default"
          +:+ "?output_format=" +:+ token
     /\ trace (final (cmdTTS (tts_flags "" "opus") studio))
        = trace studio ++ before
          ++ [EOtel (mkEvent LevelInfo "tts_request"
                       {[ "voice_id" := AStr "voice-default";
                          "format" := AStr "opus";
                          "text_len" := AInt (Z.of_nat (String.length text)) ]});
              EHTTP req;
              EMkdirAll (Filepath.Dir "/tmp/out/speech.ogg");
              ECreate "/tmp/out/speech.ogg";
              EWrite "/tmp/out/speech.ogg" (RespBody resp);
              EOtel (mkEvent LevelInfo "tts_complete"
                       {[ "output" := AStr "/tmp/out/speech.ogg" ]});
              EStdout ("/tmp/out/speech.ogg" +:+ newline)]
     /\ otel_events before = [] /\ http_calls before = [] /\ stdout before = "")
  /\ (exists (inputPath : string) (rest : list string) (token : string)
             (req : Request) (resp : Response) (before : list Effect),
        vc_args (voice_flags "voice-override" "mp3") = inputPath :: rest
        /\ outputFormats !! "mp3" = Some token
        /\ URL req
           = "https://api.elevenlabs.io/v1" +:+ "/speech-to-speech/" +:+ "voice-override"
             +:+ "?output_format=" +:+ token
        /\ trace (final (cmdVoice (voice_flags "voice-override" "mp3") studio))
           = trace studio ++ before
             ++ [EOtel (mkEvent LevelInfo "voice_change_request"
                          {[ "voice_id" := AStr "voice-override";
                             "format" := AStr "mp3";
                             "input" := AStr inputPath ]});
                 EHTTP req;
                 EMkdirAll (Filepath.Dir "out/changed.ogg");
                 ECreate "out/changed.ogg";
                 EWrite "out/changed.ogg" (RespBody resp);
                 EOtel (mkEvent LevelInfo "voice_change_complete"
                          {[ "output" := AStr "out/changed.ogg" ]});
                 EStdout ("out/changed.ogg" +:+ newline)]
        /\ otel_events before = [] /\ http_calls before = [] /\ stdout before = "").
Proof.
  split.
  - apply (proj1 (completion_event_carries_the_output_path
                    (tts_flags "" "opus") (voice_flags "voice-override" "mp3") studio
                    (final (cmdTTS (tts_flags "" "opus") studio)))).
    vm_compute. reflexivity.
  - apply (proj2 (completion_event_carries_the_output_path
                    (tts_flags "" "opus") (voice_flags "voice-override" "mp3") studio
                    (final (cmdVoice (voice_flags "voice-override" "mp3") studio)))).
    vm_compute. reflexivity.
Defined.

(** C6 in the studio: the service answers 200 and the probe says true. *)
Lemma checkHealth_true_iff_200_witness :
  exists w', checkHealth studio = Ret true w'.
Proof.
  destruct (checkHealth_true_iff_200 studio) as (b & w' & E & Hiff & _).
  assert (Hw : w' = final (checkHealth studio)) by (rewrite E; reflexivity).
  exists w'. rewrite E. f_equal. apply Hiff.
  exists (health_request "sk-live"), (mkResponse 200 ogg_bytes None).
  subst w'. repeat split; vm_compute; reflexivity.
Defined.


(** * Further properties of [main.go] *)

Example fmt_fixed_defaults :
  fmt_fixed 1 defaultStability = "0.0"
  /\ fmt_fixed 2 defaultSimilarityBoost = "0.75"
  /\ fmt_fixed 1 defaultStyle = "0.5"
  /\ fmt_fixed 1 defaultSpeed = "1.0".
Proof. repeat split; vm_compute; reflexivity. Qed.

Example fmt_fixed_rounds :
  fmt_fixed 1 0.25%float = "0.2"
  /\ fmt_fixed 1 0.75%float = "0.8"
  /\ fmt_fixed 2 0.125%float = "0.12"
  /\ fmt_fixed 0 2.5%float = "2"
  /\ fmt_fixed 2 (-0.375)%float = "-0.38"
  /\ fmt_fixed 3 12.5%float = "12.500".
Proof. repeat split; vm_compute; reflexivity. Qed.

(** ** Where a setting comes from *)

(** X1. After [loadEnv], a name has the value of the first source that
    defines it, in this order: the process environment (a variable that is
    set, even to the empty string, is never replaced), the env file next
    to the executable, the env file in the working directory. A name no
    source defines stays unset. *)
Theorem loadEnv_precedence (w : World) (name : string) :
  exists w',
    loadEnv w = Ret tt w'
    /\ environ w' !! name
       = match environ w !! name with
         | Some v => Some v
         | None =>
             match exe_env_path w with
             | Some p =>
                 match file_value w p name with
                 | Some v => Some v
                 | None => file_value w ".env" name
                 end
             | None => file_value w ".env" name
             end
         end
    /\ fs w' = fs w
    /\ http_calls (trace w') = http_calls (trace w).
Proof.
  exists (after_load w []). split; [apply loadEnv_spec|].
  split; [apply loaded_env_lookup|]. split; [reflexivity|].
  rewrite http_calls_after_load. apply app_nil_r.
Qed.

(** X2. Resolving a required setting a second time gives the same value:
    the environment [loadEnv] leaves is not changed by loading again. *)
Theorem resolving_again_gives_the_same_value
    (s : Setting) (w w1 : World) (v : string) :
  resolveRequired s w = Ret v w1 ->
  exists w2,
    resolveRequired s w1 = Ret v w2
    /\ environ w2 = environ w1.
Proof.
  rewrite !resolveRequired_spec.
  destruct (String.eqb (effective w (setting_name s)) "") eqn:He; [discriminate|].
  intros [= <- <-]. rewrite effective_after_load, He.
  eexists. split; [reflexivity|]. simpl. apply loaded_env_after_load.
Qed.

(** ** The requests *)

Lemma http_NewRequest_inv (method url : string) (body : Payload) (rq : Request) :
  http_NewRequest method url body = inr rq ->
  rq = mkRequest method url ∅ body 0.
Proof.
  unfold http_NewRequest. destruct (url_Parse_err url); [discriminate|].
  now intros [= <-].
Qed.

Lemma float_unsupported_None (f : float) :
  float_unsupported f = None -> non_finite f = false.
Proof.
  unfold float_unsupported, non_finite.
  destruct (PrimFloat.is_nan f); [discriminate|].
  destruct (PrimFloat.is_infinity f); [discriminate | reflexivity].
Qed.

Lemma float_unsupported_Some (f : float) :
  non_finite f = true -> exists s, float_unsupported f = Some s.
Proof.
  unfold float_unsupported, non_finite.
  destruct (PrimFloat.is_nan f); [eauto|].
  destruct (PrimFloat.is_infinity f); [eauto | discriminate].
Qed.

Lemma json_Marshal_inv (r : ttsRequest) (body : Payload) :
  json_Marshal r = inr body ->
  body = JSONBody r
  /\ non_finite (Stability (VoiceSettings r)) = false
  /\ non_finite (SimilarityBoost (VoiceSettings r)) = false
  /\ non_finite (Style (VoiceSettings r)) = false
  /\ non_finite (Speed (VoiceSettings r)) = false.
Proof.
  unfold json_Marshal. cbn [omap list_omap].
  destruct (float_unsupported (Stability _)) eqn:E1; [discriminate|].
  destruct (float_unsupported (SimilarityBoost _)) eqn:E2; [discriminate|].
  destruct (float_unsupported (Style _)) eqn:E3; [discriminate|].
  destruct (float_unsupported (Speed _)) eqn:E4; [discriminate|].
  intros [= <-]. split; [reflexivity|].
  repeat split; now apply float_unsupported_None.
Qed.

(** The one request a synthesis can send. *)
Lemma textToSpeech_sends (w : World) (text outputPath voiceID format : string)
    (stability similarityBoost style speed : float) (speakerBoost : bool)
    (req : Request) :
  http_calls (trace (final (textToSpeech text outputPath voiceID format stability
                              similarityBoost style speed speakerBoost w)))
  = http_calls (trace w) ++ [req] ->
  exists token,
    outputFormats !! format = Some token
    /\ effective w "ELEVENLABS_API_KEY" <> ""
    /\ req = sent "application/json" (effective w "ELEVENLABS_API_KEY")
               (mkRequest "POST" (tts_url voiceID token) ∅
                  (JSONBody (mkTtsRequest text defaultTTSModel
                               (mkVoiceSettings stability similarityBoost style speed
                                  speakerBoost)))
                  0)
    /\ non_finite stability = false /\ non_finite similarityBoost = false
    /\ non_finite style = false /\ non_finite speed = false.
Proof.
  rewrite textToSpeech_spec. cbv zeta.
  destruct (String.eqb (effective w "ELEVENLABS_API_KEY") "") eqn:Hk; [no_call|].
  destruct (outputFormats !! format) as [apiFormat|]; [|no_call].
  destruct (json_Marshal _) as [|jsonBody] eqn:Hj; [no_call|].
  destruct (http_NewRequest _ _ _) as [|rq0] eqn:Hn; [no_call|].
  apply http_NewRequest_inv in Hn. apply json_Marshal_inv in Hj as (-> & F1 & F2 & F3 & F4).
  subst rq0. intros E.
  assert (Hq : sent "application/json" (effective w "ELEVENLABS_API_KEY")
                 (mkRequest "POST" (tts_url voiceID apiFormat) ∅
                    (JSONBody (mkTtsRequest text defaultTTSModel
                                 (mkVoiceSettings stability similarityBoost style speed
                                    speakerBoost))) 0) = req).
  { destruct (remote w _) as [|resp].
    - cbn [final] in E. rewrite http_calls_after_load in E. now apply same_call in E.
    - rewrite materialize_http, http_calls_after_load in E. now apply same_call in E. }
  exists apiFormat. repeat split; auto.
  intros H0. rewrite H0 in Hk. discriminate.
Qed.

(** X3. Every request a synthesis sends is a POST to
    [<base>/text-to-speech/<voice>?output_format=<token>], the token being
    the format's entry in the table; it carries the credential in the
    [xi-api-key] header, the JSON content type, the client's 120 second
    timeout, and as body the text, the model [eleven_v3] and the caller's
    voice settings, unchanged. All four settings are then finite numbers. *)
Theorem synthesis_request_shape (w : World) (text outputPath voiceID format : string)
    (stability similarityBoost style speed : float) (speakerBoost : bool)
    (req : Request) :
  http_calls (trace (final (textToSpeech text outputPath voiceID format stability
                              similarityBoost style speed speakerBoost w)))
  = http_calls (trace w) ++ [req] ->
  exists token,
    outputFormats !! format = Some token
    /\ Method req = "POST"
    /\ URL req = "https://api.elevenlabs.io/v1" +:+ "/text-to-speech/" +:+ voiceID
                 +:+ "?output_format=" +:+ token
    /\ Header req !! "xi-api-key" = Some (effective w "ELEVENLABS_API_KEY")
    /\ effective w "ELEVENLABS_API_KEY" <> ""
    /\ Header req !! "Content-Type" = Some "application/json"
    /\ Timeout req = 120%Z
    /\ Body req = JSONBody (mkTtsRequest text "eleven_v3"
                              (mkVoiceSettings stability similarityBoost style speed
                                 speakerBoost))
    /\ non_finite stability = false /\ non_finite similarityBoost = false
    /\ non_finite style = false /\ non_finite speed = false.
Proof.
  intros E. apply textToSpeech_sends in E as (token & Hf & Hk & -> & F).
  exists token. unfold sent; simpl.
  split; [exact Hf|]. split; [reflexivity|]. split; [reflexivity|].
  split; [apply lookup_insert_eq|]. split; [exact Hk|].
  split; [rewrite lookup_insert_ne by discriminate; apply lookup_insert_eq|].
  split; [reflexivity|]. split; [reflexivity | exact F].
Qed.

Lemma open_read_stat (t : FS.Node) (cwd : list string) (path : string)
    (f : File) (audio : string) :
  open_file t cwd path = inr f ->
  read_file t f = inr audio ->
  FS.stat t cwd path = inr (FS.NFile audio).
Proof.
  unfold open_file, read_file, FS.stat, FS.stat_at.
  destruct (String.eqb path ""); [discriminate|].
  destruct (FS.walk t (FS.start cwd path) (Filepath.split_slash path)) as [|place];
    [discriminate|].
  intros [= <-]; simpl.
  destruct (FS.lookup t place) as [|[data|ch]]; try discriminate.
  now intros [= ->].
Qed.

(** The one request a transformation can send. *)
Lemma voiceChange_sends (w : World) (inputPath outputPath voiceID format : string)
    (req : Request) :
  http_calls (trace (final (voiceChange inputPath outputPath voiceID format w)))
  = http_calls (trace w) ++ [req] ->
  exists token audio,
    outputFormats !! format = Some token
    /\ effective w "ELEVENLABS_API_KEY" <> ""
    /\ FS.stat (fs w) (cwd w) inputPath = inr (FS.NFile audio)
    /\ req = sent ("multipart/form-data; boundary=" +:+ boundary w)
               (effective w "ELEVENLABS_API_KEY")
               (mkRequest "POST" (voice_url voiceID token) ∅
                  (MultipartBody (boundary w)
                     [FormFile "audio" (Filepath.Base inputPath) audio;
                      FormField "model_id" defaultVoiceModel])
                  0).
Proof.
  rewrite voiceChange_spec. cbv zeta.
  destruct (String.eqb (effective w "ELEVENLABS_API_KEY") "") eqn:Hk; [no_call|].
  destruct (outputFormats !! format) as [apiFormat|]; [|no_call].
  destruct (open_file _ _ _) as [|inputFile] eqn:Ho; [no_call|].
  destruct (read_file _ _) as [|audio] eqn:Hrd; [no_call|].
  destruct (http_NewRequest _ _ _) as [|rq0] eqn:Hn; [no_call|].
  apply http_NewRequest_inv in Hn. subst rq0. intros E.
  exists apiFormat, audio.
  split; [reflexivity|].
  split; [intros H0; rewrite H0 in Hk; discriminate|].
  split; [eapply open_read_stat; eauto|].
  destruct (remote w _) as [|resp].
  - cbn [final] in E. rewrite http_calls_after_load in E. apply same_call in E.
    now symmetry.
  - rewrite materialize_http, http_calls_after_load in E. apply same_call in E.
    now symmetry.
Qed.

(** X4. Every request a transformation sends is a POST to
    [<base>/speech-to-speech/<voice>?output_format=<token>] with the
    credential in the [xi-api-key] header and the multipart content type
    of its boundary; the form has the part [audio], named by the base name
    of the input path and holding the whole content of the input file, and
    the field [model_id] with the model [eleven_multilingual_sts_v2]. *)
Theorem transformation_request_shape (w : World)
    (inputPath outputPath voiceID format : string) (req : Request) :
  http_calls (trace (final (voiceChange inputPath outputPath voiceID format w)))
  = http_calls (trace w) ++ [req] ->
  exists token audio,
    outputFormats !! format = Some token
    /\ FS.stat (fs w) (cwd w) inputPath = inr (FS.NFile audio)
    /\ Method req = "POST"
    /\ URL req = "https://api.elevenlabs.io/v1" +:+ "/speech-to-speech/" +:+ voiceID
                 +:+ "?output_format=" +:+ token
    /\ Header req !! "xi-api-key" = Some (effective w "ELEVENLABS_API_KEY")
    /\ effective w "ELEVENLABS_API_KEY" <> ""
    /\ Header req !! "Content-Type"
       = Some ("multipart/form-data; boundary=" +:+ boundary w)
    /\ Timeout req = 120%Z
    /\ Body req = MultipartBody (boundary w)
                    [FormFile "audio" (Filepath.Base inputPath) audio;
                     FormField "model_id" "eleven_multilingual_sts_v2"].
Proof.
  intros E. apply voiceChange_sends in E as (token & audio & Hf & Hk & Hst & ->).
  exists token, audio. unfold sent; simpl.
  split; [exact Hf|]. split; [exact Hst|]. split; [reflexivity|]. split; [reflexivity|].
  split; [apply lookup_insert_eq|]. split; [exact Hk|].
  split; [rewrite lookup_insert_ne by discriminate; apply lookup_insert_eq|].
  split; reflexivity.
Qed.

(** X5. A voice setting that is NaN or infinite stops a synthesis before
    anything is sent: with a credential and a supported format, the call
    returns a "failed to marshal request" error and the file system and
    the network are untouched. *)
Theorem non_finite_setting_is_rejected (w : World)
    (text outputPath voiceID format token : string)
    (stability similarityBoost style speed : float) (speakerBoost : bool) :
  effective w "ELEVENLABS_API_KEY" <> "" ->
  outputFormats !! format = Some token ->
  non_finite stability || non_finite similarityBoost
  || non_finite style || non_finite speed = true ->
  exists (value : string) (w' : World),
    textToSpeech text outputPath voiceID format stability similarityBoost style speed
      speakerBoost w
    = Ret (Some ("failed to marshal request: json: unsupported value: " +:+ value)) w'
    /\ http_calls (trace w') = http_calls (trace w)
    /\ fs w' = fs w.
Proof.
  intros Hk Hf Hn. rewrite textToSpeech_spec. cbv zeta.
  rewrite (eqb_empty_false _ Hk), Hf.
  assert (Hj : exists value,
             json_Marshal (mkTtsRequest text defaultTTSModel
                             (mkVoiceSettings stability similarityBoost style speed
                                speakerBoost))
             = inl ("json: unsupported value: " +:+ value)).
  { unfold json_Marshal. cbn [omap list_omap VoiceSettings Stability SimilarityBoost
                                Style Speed].
    destruct (float_unsupported stability) as [s1|] eqn:E1; [eauto|].
    destruct (float_unsupported similarityBoost) as [s2|] eqn:E2; [eauto|].
    destruct (float_unsupported style) as [s3|] eqn:E3; [eauto|].
    destruct (float_unsupported speed) as [s4|] eqn:E4; [eauto|].
    apply float_unsupported_None in E1, E2, E3, E4.
    rewrite E1, E2, E3, E4 in Hn. discriminate. }
  destruct Hj as [value ->].
  exists value. eexists. split; [reflexivity|]. split; [|reflexivity].
  rewrite http_calls_after_load. apply app_nil_r.
Qed.

(** ** What the operations never do *)

Lemma textToSpeech_calls (w : World) (text outputPath voiceID format : string)
    (stability similarityBoost style speed : float) (speakerBoost : bool) :
  exists l,
    http_calls (trace (final (textToSpeech text outputPath voiceID format stability
                                similarityBoost style speed speakerBoost w)))
    = http_calls (trace w) ++ l
    /\ (length l <= 1)%nat.
Proof.
  rewrite textToSpeech_spec. cbv zeta.
  destruct (String.eqb (effective w "ELEVENLABS_API_KEY") "");
    [exists []; cbn [final]; rewrite http_calls_after_load; split; [reflexivity | simpl; lia]|].
  destruct (outputFormats !! format) as [apiFormat|];
    [|exists []; cbn [final]; rewrite http_calls_after_load; split; [reflexivity | simpl; lia]].
  destruct (json_Marshal _) as [|jsonBody];
    [exists []; cbn [final]; rewrite http_calls_after_load; split; [reflexivity | simpl; lia]|].
  destruct (http_NewRequest _ _ _) as [|rq0];
    [exists []; cbn [final]; rewrite http_calls_after_load; split; [reflexivity | simpl; lia]|].
  eexists [_]. split; [|simpl; lia].
  destruct (remote w _) as [|resp].
  - cbn [final]. now rewrite http_calls_after_load.
  - now rewrite materialize_http, http_calls_after_load.
Qed.

Lemma voiceChange_calls (w : World) (inputPath outputPath voiceID format : string) :
  exists l,
    http_calls (trace (final (voiceChange inputPath outputPath voiceID format w)))
    = http_calls (trace w) ++ l
    /\ (length l <= 1)%nat.
Proof.
  rewrite voiceChange_spec. cbv zeta.
  destruct (String.eqb (effective w "ELEVENLABS_API_KEY") "");
    [exists []; cbn [final]; rewrite http_calls_after_load; split; [reflexivity | simpl; lia]|].
  destruct (outputFormats !! format) as [apiFormat|];
    [|exists []; cbn [final]; rewrite http_calls_after_load; split; [reflexivity | simpl; lia]].
  destruct (open_file _ _ _) as [|inputFile];
    [exists []; cbn [final]; rewrite http_calls_after_load; split; [reflexivity | simpl; lia]|].
  destruct (read_file _ _) as [|audio];
    [exists []; cbn [final]; rewrite http_calls_after_load; split; [reflexivity | simpl; lia]|].
  destruct (http_NewRequest _ _ _) as [|rq0];
    [exists []; cbn [final]; rewrite http_calls_after_load; split; [reflexivity | simpl; lia]|].
  eexists [_]. split; [|simpl; lia].
  destruct (remote w _) as [|resp].
  - cbn [final]. now rewrite http_calls_after_load.
  - now rewrite materialize_http, http_calls_after_load.
Qed.

Lemma finish_http (failed output : string) (r : Result (option string)) :
  http_calls (trace (final (finish failed output r))) = http_calls (trace (final r)).
Proof.
  destruct r as [[err|] w1|c w1]; simpl; rewrite ?http_calls_app; simpl;
    now rewrite ?app_nil_r.
Qed.

(** X6. No retry: a run of a command, of an operation or of the liveness
    probe sends at most one request, whatever the service answers. *)
Theorem at_most_one_request (w : World) :
  (forall fl : ttsFlags,
      exists l, http_calls (trace (final (cmdTTS fl w))) = http_calls (trace w) ++ l
                /\ (length l <= 1)%nat)
  /\ (forall fl : voiceFlags,
         exists l, http_calls (trace (final (cmdVoice fl w))) = http_calls (trace w) ++ l
                   /\ (length l <= 1)%nat)
  /\ (exists l, http_calls (trace (final (checkHealth w))) = http_calls (trace w) ++ l
                /\ (length l <= 1)%nat)
  /\ (forall (text outputPath voiceID format : string)
             (stability similarityBoost style speed : float) (speakerBoost : bool),
         exists l,
           http_calls (trace (final (textToSpeech text outputPath voiceID format stability
                                       similarityBoost style speed speakerBoost w)))
           = http_calls (trace w) ++ l
           /\ (length l <= 1)%nat)
  /\ (forall inputPath outputPath voiceID format : string,
         exists l,
           http_calls (trace (final (voiceChange inputPath outputPath voiceID format w)))
           = http_calls (trace w) ++ l
           /\ (length l <= 1)%nat).
Proof.
  split; [|split; [|split; [|split]]].
  - intros fl. rewrite cmdTTS_spec. destruct (tts_args fl) as [|text rest].
    { exists []. split; [simpl; project_trace; reflexivity | simpl; lia]. }
    destruct (String.eqb (tts_voice fl) "").
    + destruct (String.eqb (effective w "ELEVENLABS_TTS_VOICE_ID") "").
      { exists []. cbn [final]. rewrite http_calls_after_load.
        split; [reflexivity | simpl; lia]. }
      rewrite finish_http. unfold run_tts.
      destruct (textToSpeech_calls (after_load w [EGetenv "ELEVENLABS_TTS_VOICE_ID"]) text
                  (tts_output fl) (effective w "ELEVENLABS_TTS_VOICE_ID") (tts_format fl)
                  (tts_stability fl) (tts_similarityBoost fl) (tts_style fl)
                  (tts_speed fl) (negb (tts_noSpeakerBoost fl))) as (l & -> & Hl).
      exists l. rewrite http_calls_after_load. simpl. now rewrite app_nil_r.
    + rewrite finish_http. apply textToSpeech_calls.
  - intros fl. rewrite cmdVoice_spec. destruct (vc_args fl) as [|inputPath rest].
    { exists []. split; [simpl; project_trace; reflexivity | simpl; lia]. }
    cbv zeta. destruct (is_not_exist _).
    { exists []. split; [simpl; project_trace; now rewrite !app_nil_r | simpl; lia]. }
    assert (H0 : http_calls (trace (log (EStat inputPath) w)) = http_calls (trace w)).
    { simpl. project_trace. apply app_nil_r. }
    destruct (String.eqb (vc_voice fl) "").
    + destruct (String.eqb (effective w "ELEVENLABS_VOICE_CHANGE_ID") "").
      { exists []. cbn [final]. rewrite http_calls_after_load, H0.
        split; [reflexivity | simpl; lia]. }
      rewrite finish_http.
      destruct (voiceChange_calls
                  (after_load (log (EStat inputPath) w) [EGetenv "ELEVENLABS_VOICE_CHANGE_ID"])
                  inputPath (vc_output fl) (effective w "ELEVENLABS_VOICE_CHANGE_ID")
                  (vc_format fl)) as (l & -> & Hl).
      exists l. rewrite http_calls_after_load, H0. simpl. now rewrite app_nil_r.
    + rewrite finish_http.
      destruct (voiceChange_calls (log (EStat inputPath) w) inputPath (vc_output fl)
                  (vc_voice fl) (vc_format fl)) as (l & -> & Hl).
      exists l. now rewrite H0.
  - rewrite checkHealth_spec.
    destruct (String.eqb (effective w "ELEVENLABS_API_KEY") "").
    + exists []. cbn [final]. rewrite http_calls_after_load.
      split; [reflexivity | simpl; lia].
    + eexists [_]. cbn [final]. rewrite http_calls_after_load.
      split; [reflexivity | simpl; lia].
  - intros. apply textToSpeech_calls.
  - intros. apply voiceChange_calls.
Qed.

(** X7. The file system changes only after a 200: when an operation ends
    with a file system other than the one it started with, it has sent a
    request and the service answered it with status 200. *)
Theorem file_system_changes_only_after_200 (w : World)
    (text inputPath outputPath voiceID format : string)
    (stability similarityBoost style speed : float) (speakerBoost : bool) :
  (fs (final (textToSpeech text outputPath voiceID format stability similarityBoost
                style speed speakerBoost w)) = fs w
   \/ exists (rq : Request) (resp : Response),
        http_calls (trace (final (textToSpeech text outputPath voiceID format stability
                                    similarityBoost style speed speakerBoost w)))
        = http_calls (trace w) ++ [rq]
        /\ remote w rq = inr resp /\ StatusCode resp = 200%Z)
  /\ (fs (final (voiceChange inputPath outputPath voiceID format w)) = fs w
      \/ exists (rq : Request) (resp : Response),
           http_calls (trace (final (voiceChange inputPath outputPath voiceID format w)))
           = http_calls (trace w) ++ [rq]
           /\ remote w rq = inr resp /\ StatusCode resp = 200%Z).
Proof.
  split.
  - rewrite textToSpeech_spec. cbv zeta.
    destruct (String.eqb (effective w "ELEVENLABS_API_KEY") ""); [now left|].
    destruct (outputFormats !! format) as [apiFormat|]; [|now left].
    destruct (json_Marshal _) as [|jsonBody]; [now left|].
    destruct (http_NewRequest _ _ _) as [|rq0]; [now left|].
    set (rq := sent _ _ rq0).
    destruct (remote w rq) as [|resp] eqn:Hr; [now left|].
    destruct (decide (StatusCode resp = 200%Z)) as [Hs|Hs].
    + right. exists rq, resp. split; [|now split].
      now rewrite materialize_http, http_calls_after_load.
    + left. now rewrite materialize_non200.
  - rewrite voiceChange_spec. cbv zeta.
    destruct (String.eqb (effective w "ELEVENLABS_API_KEY") ""); [now left|].
    destruct (outputFormats !! format) as [apiFormat|]; [|now left].
    destruct (open_file _ _ _) as [|inputFile]; [now left|].
    destruct (read_file _ _) as [|audio]; [now left|].
    destruct (http_NewRequest _ _ _) as [|rq0]; [now left|].
    set (rq := sent _ _ rq0).
    destruct (remote w rq) as [|resp] eqn:Hr; [now left|].
    destruct (decide (StatusCode resp = 200%Z)) as [Hs|Hs].
    + right. exists rq, resp. split; [|now split].
      now rewrite materialize_http, http_calls_after_load.
    + left. now rewrite materialize_non200.
Qed.

(** X8. When the request gets no response (a transport failure with
    cause [err]), the operation returns the error "request failed: <err>";
    the request event is the only event, and the file system is as it
    was. *)
Theorem transport_failure_is_reported (w : World)
    (text inputPath outputPath voiceID format : string)
    (stability similarityBoost style speed : float) (speakerBoost : bool)
    (req : Request) (err : string) :
  remote w req = inl err ->
  (http_calls (trace (final (textToSpeech text outputPath voiceID format stability
                               similarityBoost style speed speakerBoost w)))
   = http_calls (trace w) ++ [req] ->
   exists w',
     textToSpeech text outputPath voiceID format stability similarityBoost style speed
       speakerBoost w
     = Ret (Some ("request failed: " +:+ err)) w'
     /\ fs w' = fs w
     /\ trace w' = trace w ++ load_trace w
                   ++ [EGetenv "ELEVENLABS_API_KEY";
                       EOtel (tts_request_event text voiceID format);
                       EHTTP req])
  /\ (http_calls (trace (final (voiceChange inputPath outputPath voiceID format w)))
      = http_calls (trace w) ++ [req] ->
      exists w',
        voiceChange inputPath outputPath voiceID format w
        = Ret (Some ("request failed: " +:+ err)) w'
        /\ fs w' = fs w
        /\ trace w' = trace w ++ load_trace w
                      ++ [EGetenv "ELEVENLABS_API_KEY";
                          EOpen inputPath;
                          EOtel (voice_request_event inputPath voiceID format);
                          EHTTP req]).
Proof.
  intros Hr. split.
  - rewrite textToSpeech_spec. cbv zeta.
    destruct (String.eqb (effective w "ELEVENLABS_API_KEY") ""); [no_call|].
    destruct (outputFormats !! format) as [apiFormat|]; [|no_call].
    destruct (json_Marshal _) as [|jsonBody]; [no_call|].
    destruct (http_NewRequest _ _ _) as [|rq0]; [no_call|].
    set (rq := sent _ _ rq0).
    intros E. assert (rq = req) as Hq.
    { destruct (remote w rq) as [|resp].
      - cbn [final] in E. rewrite http_calls_after_load in E. now apply same_call in E.
      - rewrite materialize_http, http_calls_after_load in E. now apply same_call in E. }
    rewrite Hq, Hr. eexists. split; [reflexivity|]. split; reflexivity.
  - rewrite voiceChange_spec. cbv zeta.
    destruct (String.eqb (effective w "ELEVENLABS_API_KEY") ""); [no_call|].
    destruct (outputFormats !! format) as [apiFormat|]; [|no_call].
    destruct (open_file _ _ _) as [|inputFile]; [no_call|].
    destruct (read_file _ _) as [|audio]; [no_call|].
    destruct (http_NewRequest _ _ _) as [|rq0]; [no_call|].
    set (rq := sent _ _ rq0).
    intros E. assert (rq = req) as Hq.
    { destruct (remote w rq) as [|resp].
      - cbn [final] in E. rewrite http_calls_after_load in E. now apply same_call in E.
      - rewrite materialize_http, http_calls_after_load in E. now apply same_call in E. }
    rewrite Hq, Hr. eexists. split; [reflexivity|]. split; reflexivity.
Qed.

(** ** Partial results and missing inputs *)

Lemma put_again (p : list string) :
  forall (n n' : FS.Node) (a b : string),
    FS.put n p (FS.NFile a) = inr n' ->
    exists n'', FS.put n' p (FS.NFile b) = inr n''.
Proof.
  induction p as [|e p IH]; intros n n' a b H; simpl in H.
  - destruct n; [|discriminate]. injection H as <-. simpl. eauto.
  - destruct n as [|ch]; [discriminate|].
    destruct (ch !! e) as [c|] eqn:Hc.
    + destruct (FS.put c p (FS.NFile a)) as [|c'] eqn:Hp; [discriminate|].
      injection H as <-. simpl. rewrite lookup_insert_eq.
      destruct (IH c c' a b Hp) as [c'' ->]. eauto.
    + destruct p; [|discriminate]. injection H as <-. simpl.
      rewrite lookup_insert_eq. simpl. eauto.
Qed.

Lemma create_places_a_file (t t' : FS.Node) (cwd place : list string) (p : string) :
  FS.create t cwd p = inr (place, t') -> FS.put t place (FS.NFile "") = inr t'.
Proof.
  unfold FS.create. destruct (String.eqb p ""); [discriminate|].
  destruct (FS.create_target _ _ _) as [|tg]; [discriminate|].
  destruct (FS.put t tg (FS.NFile "")) as [|r] eqn:Hp; [discriminate|].
  now intros [= <- <-].
Qed.

Lemma grown_by {A} (l a b : list A) : l ++ a = l ++ b -> b = a.
Proof. intros E. apply app_inv_head in E. now symmetry. Qed.

(** Whatever the handling of a response wrote is what the destination
    holds afterwards. *)
Lemma materialize_written (complete outputPath : string) (resp : Response)
    (w w' : World) (r : option string) (t : list Effect) (data : string) :
  materialize complete outputPath resp w = Ret r w' ->
  trace w' = trace w ++ t ->
  EWrite outputPath data ∈ t ->
  FS.stat (fs w') (cwd w') outputPath = inr (FS.NFile data).
Proof.
  unfold materialize.
  destruct (negb (StatusCode resp =? 200)%Z).
  { intros [= <- <-] Ht. rewrite <- (app_nil_r (trace w)) in Ht at 1.
    apply grown_by in Ht. subst t. intros Hin. now apply elem_of_nil in Hin. }
  unfold bind, os_MkdirAll.
  destruct (FS.mkdirAll (fs w) (cwd w) (Filepath.Dir outputPath)) as [[? ?]|t1].
  { intros [= <- <-] Ht. simpl in Ht. apply grown_by in Ht. subst t. intros Hin.
    apply list_elem_of_singleton in Hin. discriminate. }
  unfold os_Create; simpl.
  destruct (FS.create t1 (cwd w) outputPath) as [|[place t2]] eqn:Hc.
  { intros [= <- <-] Ht. simpl in Ht. rewrite <- app_assoc in Ht.
    apply grown_by in Ht. subst t. simpl. intros Hin.
    apply elem_of_cons in Hin as [Hin|Hin]; [discriminate|].
    apply list_elem_of_singleton in Hin. discriminate. }
  unfold io_Copy; simpl.
  destruct (put_again _ _ _ "" (RespBody resp) (create_places_a_file _ _ _ _ _ Hc))
    as [t3 Hp].
  rewrite Hp.
  destruct (FSFacts.create_then_write _ _ _ _ _ _ _ Hc Hp) as [_ Hst].
  assert (Hdata : forall t0 : list Effect,
             EWrite outputPath data
             ∈ EMkdirAll (Filepath.Dir outputPath) :: ECreate outputPath
               :: EWrite outputPath (RespBody resp) :: t0 ->
             (forall x, x ∈ t0 -> x <> EWrite outputPath data) ->
             data = RespBody resp).
  { intros t0 Hin Hno.
    apply elem_of_cons in Hin as [Hin|Hin]; [discriminate|].
    apply elem_of_cons in Hin as [Hin|Hin]; [discriminate|].
    apply elem_of_cons in Hin as [Hin|Hin]; [congruence|].
    now destruct (Hno _ Hin). }
  destruct (ReadErr resp).
  - intros [= <- <-] Ht. simpl in *. rewrite <- !app_assoc in Ht.
    apply grown_by in Ht. subst t. intros Hin.
    rewrite (Hdata [] Hin); [exact Hst|].
    intros x Hx. now apply elem_of_nil in Hx.
  - unfold otel_Info, emit, ret. intros [= <- <-] Ht. simpl in *.
    rewrite <- !app_assoc in Ht. apply grown_by in Ht. subst t. intros Hin.
    rewrite (Hdata [_] Hin); [exact Hst|].
    intros x Hx. apply list_elem_of_singleton in Hx. subst x. discriminate.
Qed.

Lemma materialize_writes (complete outputPath : string) (resp : Response)
    (w : World) (pre : list Effect) (w0 : World) :
  trace w = trace w0 ++ pre ->
  (forall data, EWrite outputPath data ∉ pre) ->
  exists t,
    trace (final (materialize complete outputPath resp w)) = trace w0 ++ t
    /\ forall data,
         EWrite outputPath data ∈ t ->
         FS.stat (fs (final (materialize complete outputPath resp w)))
           (cwd (final (materialize complete outputPath resp w))) outputPath
         = inr (FS.NFile data).
Proof.
  intros Hw Hpre.
  destruct (materialize_effects complete outputPath resp w)
    as (r & w' & t & Hm & Ht & _).
  rewrite Hm. cbn [final]. exists (pre ++ t).
  split; [now rewrite Ht, Hw, app_assoc|].
  intros data Hin. apply elem_of_app in Hin as [Hin|Hin]; [now apply Hpre in Hin|].
  eapply materialize_written; eauto.
Qed.

Ltac nothing_written :=
  cbn [final]; eexists; split; [apply trace_after_load|];
  intros data Hin; exfalso;
  apply elem_of_app in Hin as [Hin|Hin];
  [unfold load_trace in Hin; destruct (exe_env_path _);
   repeat (apply elem_of_cons in Hin as [Hin|Hin]; [discriminate|]);
   now apply elem_of_nil in Hin
  |repeat (apply elem_of_cons in Hin as [Hin|Hin]; [discriminate|]);
   now apply elem_of_nil in Hin].

(** X9. No rollback, and no stale content either: whenever an operation
    wrote bytes to the destination, also in a run that then fails because
    the response stream broke, the destination afterwards is a regular
    file holding exactly the bytes written. *)
Theorem destination_holds_what_was_written (w : World)
    (text inputPath outputPath voiceID format : string)
    (stability similarityBoost style speed : float) (speakerBoost : bool) :
  (exists t,
     trace (final (textToSpeech text outputPath voiceID format stability similarityBoost
                     style speed speakerBoost w)) = trace w ++ t
     /\ forall data,
          EWrite outputPath data ∈ t ->
          FS.stat (fs (final (textToSpeech text outputPath voiceID format stability
                                similarityBoost style speed speakerBoost w)))
            (cwd (final (textToSpeech text outputPath voiceID format stability
                           similarityBoost style speed speakerBoost w)))
            outputPath
          = inr (FS.NFile data))
  /\ (exists t,
        trace (final (voiceChange inputPath outputPath voiceID format w)) = trace w ++ t
        /\ forall data,
             EWrite outputPath data ∈ t ->
             FS.stat (fs (final (voiceChange inputPath outputPath voiceID format w)))
               (cwd (final (voiceChange inputPath outputPath voiceID format w)))
               outputPath
             = inr (FS.NFile data)).
Proof.
  split.
  - rewrite textToSpeech_spec. cbv zeta.
    destruct (String.eqb (effective w "ELEVENLABS_API_KEY") ""); [nothing_written|].
    destruct (outputFormats !! format) as [apiFormat|]; [|nothing_written].
    destruct (json_Marshal _) as [|jsonBody]; [nothing_written|].
    destruct (http_NewRequest _ _ _) as [|rq0]; [nothing_written|].
    destruct (remote w _) as [|resp]; [nothing_written|].
    eapply materialize_writes; [apply trace_after_load|].
    intros data Hin.
    apply elem_of_app in Hin as [Hin|Hin];
      [unfold load_trace in Hin; destruct (exe_env_path _)|];
      repeat (apply elem_of_cons in Hin as [Hin|Hin]; [discriminate|]);
      now apply elem_of_nil in Hin.
  - rewrite voiceChange_spec. cbv zeta.
    destruct (String.eqb (effective w "ELEVENLABS_API_KEY") ""); [nothing_written|].
    destruct (outputFormats !! format) as [apiFormat|]; [|nothing_written].
    destruct (open_file _ _ _) as [|inputFile]; [nothing_written|].
    destruct (read_file _ _) as [|audio]; [nothing_written|].
    destruct (http_NewRequest _ _ _) as [|rq0]; [nothing_written|].
    destruct (remote w _) as [|resp]; [nothing_written|].
    eapply materialize_writes; [apply trace_after_load|].
    intros data Hin.
    apply elem_of_app in Hin as [Hin|Hin];
      [unfold load_trace in Hin; destruct (exe_env_path _)|];
      repeat (apply elem_of_cons in Hin as [Hin|Hin]; [discriminate|]);
      now apply elem_of_nil in Hin.
Qed.

Lemma lookup_prefix (a : list string) :
  forall (n x : FS.Node) (b : list string),
    FS.lookup n (a ++ b) = inr x -> exists y, FS.lookup n a = inr y.
Proof.
  induction a as [|e a IH]; intros n x b H; simpl in *; [eauto|].
  destruct n as [|ch]; [discriminate|].
  destruct (ch !! e); [eauto | discriminate].
Qed.

Lemma lookup_removelast (n x : FS.Node) (p : list string) :
  FS.lookup n p = inr x -> exists y, FS.lookup n (removelast p) = inr y.
Proof.
  destruct p as [|e p] using rev_ind; [simpl; eauto|].
  rewrite removelast_last. apply lookup_prefix.
Qed.

(** Resolution from an existing place ends at an existing place. *)
Lemma walk_exists (n : FS.Node) (comps : list string) :
  forall (cur p : list string) (x : FS.Node),
    FS.lookup n cur = inr x ->
    FS.walk n cur comps = inr p ->
    exists y, FS.lookup n p = inr y.
Proof.
  induction comps as [|e rest IH]; intros cur p x Hx H; simpl in H.
  - injection H as <-. eauto.
  - destruct (negb (FS.is_dir n cur)); [discriminate|].
    destruct (String.eqb e "" || String.eqb e "."); [eauto|].
    destruct (String.eqb e "..").
    + destruct (lookup_removelast _ _ _ Hx) as [y Hy]. eauto.
    + destruct (FS.lookup n (cur ++ [e])) as [|y] eqn:Hy; [discriminate|]. eauto.
Qed.

(** [os.Open] fails exactly as [os.Stat] does. *)
Lemma open_file_fails (t : FS.Node) (cwd : list string) (path : string) (e : FS.Errno) :
  FS.stat t cwd path = inl e ->
  open_file t cwd path = inl (FS.PathError "open" path e).
Proof.
  unfold FS.stat, FS.stat_at, open_file.
  destruct (String.eqb path ""); [now intros [= <-]|].
  destruct (FS.walk t (FS.start cwd path) (Filepath.split_slash path)) as [e'|place] eqn:Hw;
    [now intros [= <-]|].
  intros Hl. exfalso.
  destruct (Filepath.split_slash path) as [|c rest] eqn:Hs;
    [now apply FSFacts.split_slash_nonempty in Hs|].
  assert (Hd : FS.is_dir t (FS.start cwd path) = true).
  { simpl in Hw. now destruct (FS.is_dir t (FS.start cwd path)). }
  unfold FS.is_dir in Hd.
  destruct (FS.lookup t (FS.start cwd path)) as [|x] eqn:Hx; [discriminate|].
  destruct (walk_exists _ _ _ _ _ Hx Hw) as [y Hy]. congruence.
Qed.

(** X10. A transformation whose input path cannot be resolved fails
    locally. The command checks first: when the path does not exist it
    prints "ERROR: Input file not found: <path>" and exits with status 1
    before reading any configuration. The operation itself, with a
    credential and a supported format, returns "failed to open input
    file: open <path>: <reason>". Neither sends a request nor changes the
    file system. *)
Theorem missing_input_fails_locally (w : World) (fl : voiceFlags)
    (inputPath outputPath voiceID format token : string) (rest : list string)
    (e : FS.Errno) :
  FS.stat (fs w) (cwd w) inputPath = inl e ->
  (vc_args fl = inputPath :: rest ->
   e = FS.ENOENT ->
   exists w',
     cmdVoice fl w = Exit 1 w'
     /\ trace w' = trace w ++ [EStat inputPath;
                               EStderr ("ERROR: Input file not found: " +:+ inputPath
                                        +:+ newline)]
     /\ fs w' = fs w)
  /\ (effective w "ELEVENLABS_API_KEY" <> "" ->
      outputFormats !! format = Some token ->
      exists w',
        voiceChange inputPath outputPath voiceID format w
        = Ret (Some ("failed to open input file: " +:+ "open " +:+ inputPath +:+ ": "
                     +:+ FS.strerror e)) w'
        /\ http_calls (trace w') = http_calls (trace w)
        /\ fs w' = fs w).
Proof.
  intros Hst. split.
  - intros Ha ->. rewrite cmdVoice_spec, Ha. cbv zeta. rewrite Hst. simpl.
    eexists. split; [reflexivity|]. split; [|reflexivity].
    unfold log; simpl. now rewrite <- app_assoc.
  - intros Hk Hf. rewrite voiceChange_spec. cbv zeta.
    rewrite (eqb_empty_false _ Hk), Hf, (open_file_fails _ _ _ _ Hst).
    eexists. split; [reflexivity|]. split; [|reflexivity].
    rewrite http_calls_after_load. apply app_nil_r.
Qed.

(** ** How a command ends *)

Lemma stdout_writes_app (a b : list Effect) :
  stdout_writes (a ++ b) = stdout_writes a ++ stdout_writes b.
Proof. apply omap_app. Qed.

Lemma stderr_writes_app (a b : list Effect) :
  stderr_writes (a ++ b) = stderr_writes a ++ stderr_writes b.
Proof. apply omap_app. Qed.

Lemma load_trace_stdout_writes (w : World) : stdout_writes (load_trace w) = [].
Proof. unfold load_trace. now destruct (exe_env_path w). Qed.

Lemma load_trace_stderr_writes (w : World) : stderr_writes (load_trace w) = [].
Proof. unfold load_trace. now destruct (exe_env_path w). Qed.

Ltac outputs :=
  rewrite ?stdout_writes_app, ?stderr_writes_app,
    ?load_trace_stdout_writes, ?load_trace_stderr_writes;
  simpl.

(** Storing a response writes to neither stream. *)
Lemma materialize_quiet (complete outputPath : string) (resp : Response) (w : World) :
  exists (r : option string) (w' : World) (t : list Effect),
    materialize complete outputPath resp w = Ret r w'
    /\ trace w' = trace w ++ t
    /\ stdout_writes t = [] /\ stderr_writes t = [].
Proof.
  unfold materialize.
  destruct (negb (StatusCode resp =? 200)%Z).
  { do 2 eexists. exists []. rewrite app_nil_r. split; [reflexivity|]. repeat split. }
  unfold bind, os_MkdirAll.
  destruct (FS.mkdirAll (fs w) (cwd w) (Filepath.Dir outputPath)) as [[? ?]|t1].
  { do 2 eexists. exists [EMkdirAll (Filepath.Dir outputPath)].
    split; [reflexivity|]. split; [trace_eq|]. split; reflexivity. }
  unfold os_Create; simpl.
  destruct (FS.create t1 (cwd w) outputPath) as [|[place t2]].
  { do 2 eexists. exists [EMkdirAll (Filepath.Dir outputPath); ECreate outputPath].
    split; [reflexivity|]. split; [trace_eq|]. split; reflexivity. }
  unfold io_Copy; simpl.
  destruct (FS.put t2 place (FS.NFile (RespBody resp))) as [|t3].
  { do 2 eexists. exists [EMkdirAll (Filepath.Dir outputPath); ECreate outputPath;
                          EWrite outputPath (RespBody resp)].
    split; [reflexivity|]. split; [trace_eq|]. split; reflexivity. }
  destruct (ReadErr resp).
  { do 2 eexists. exists [EMkdirAll (Filepath.Dir outputPath); ECreate outputPath;
                          EWrite outputPath (RespBody resp)].
    split; [reflexivity|]. split; [trace_eq|]. split; reflexivity. }
  do 2 eexists. exists [EMkdirAll (Filepath.Dir outputPath); ECreate outputPath;
                        EWrite outputPath (RespBody resp);
                        EOtel (complete_event complete outputPath)].
  split; [reflexivity|]. split; [trace_eq|]. split; reflexivity.
Qed.

(** An operation writes nothing itself, except the diagnostic of a missing
    credential, with which it ends the process. *)
Lemma textToSpeech_outputs (w : World) (text outputPath voiceID format : string)
    (stability similarityBoost style speed : float) (speakerBoost : bool) :
  exists (failure : option string) (t : list Effect),
    trace (final (textToSpeech text outputPath voiceID format stability similarityBoost
                    style speed speakerBoost w)) = trace w ++ t
    /\ stdout_writes t = []
    /\ match failure with
       | None =>
           stderr_writes t = []
           /\ returned (textToSpeech text outputPath voiceID format stability
                          similarityBoost style speed speakerBoost w) = true
       | Some msg =>
           stderr_writes t = ["ERROR: " +:+ msg +:+ newline]
           /\ exit_code (textToSpeech text outputPath voiceID format stability
                           similarityBoost style speed speakerBoost w) = Some 1%Z
       end.
Proof.
  rewrite textToSpeech_spec. cbv zeta.
  destruct (String.eqb (effective w "ELEVENLABS_API_KEY") "").
  { exists (Some "ELEVENLABS_API_KEY not found in environment"). eexists.
    split; [apply trace_after_load|]. split; outputs; [reflexivity|].
    split; reflexivity. }
  destruct (outputFormats !! format) as [apiFormat|];
    [|exists None; eexists; split; [apply trace_after_load|];
      split; outputs; [reflexivity | split; reflexivity]].
  destruct (json_Marshal _) as [|jsonBody];
    [exists None; eexists; split; [apply trace_after_load|];
     split; outputs; [reflexivity | split; reflexivity]|].
  destruct (http_NewRequest _ _ _) as [|rq0];
    [exists None; eexists; split; [apply trace_after_load|];
     split; outputs; [reflexivity | split; reflexivity]|].
  destruct (remote w _) as [|resp];
    [exists None; eexists; split; [apply trace_after_load|];
     split; outputs; [reflexivity | split; reflexivity]|].
  match goal with |- context [materialize ?c ?o ?r ?v] =>
    destruct (materialize_quiet c o r v) as (r' & w' & t & -> & Ht & Ho & He)
  end.
  exists None. eexists. cbn [final]. rewrite Ht, trace_after_load.
  split; [rewrite <- !app_assoc; reflexivity|].
  split; outputs; rewrite ?Ho, ?He; [reflexivity | split; reflexivity].
Qed.

Lemma voiceChange_outputs (w : World) (inputPath outputPath voiceID format : string) :
  exists (failure : option string) (t : list Effect),
    trace (final (voiceChange inputPath outputPath voiceID format w)) = trace w ++ t
    /\ stdout_writes t = []
    /\ match failure with
       | None =>
           stderr_writes t = []
           /\ returned (voiceChange inputPath outputPath voiceID format w) = true
       | Some msg =>
           stderr_writes t = ["ERROR: " +:+ msg +:+ newline]
           /\ exit_code (voiceChange inputPath outputPath voiceID format w) = Some 1%Z
       end.
Proof.
  rewrite voiceChange_spec. cbv zeta.
  destruct (String.eqb (effective w "ELEVENLABS_API_KEY") "").
  { exists (Some "ELEVENLABS_API_KEY not found in environment"). eexists.
    split; [apply trace_after_load|]. split; outputs; [reflexivity|].
    split; reflexivity. }
  destruct (outputFormats !! format) as [apiFormat|];
    [|exists None; eexists; split; [apply trace_after_load|];
      split; outputs; [reflexivity | split; reflexivity]].
  destruct (open_file _ _ _) as [|inputFile];
    [exists None; eexists; split; [apply trace_after_load|];
     split; outputs; [reflexivity | split; reflexivity]|].
  destruct (read_file _ _) as [|audio];
    [exists None; eexists; split; [apply trace_after_load|];
     split; outputs; [reflexivity | split; reflexivity]|].
  destruct (http_NewRequest _ _ _) as [|rq0];
    [exists None; eexists; split; [apply trace_after_load|];
     split; outputs; [reflexivity | split; reflexivity]|].
  destruct (remote w _) as [|resp];
    [exists None; eexists; split; [apply trace_after_load|];
     split; outputs; [reflexivity | split; reflexivity]|].
  match goal with |- context [materialize ?c ?o ?r ?v] =>
    destruct (materialize_quiet c o r v) as (r' & w' & t & -> & Ht & Ho & He)
  end.
  exists None. eexists. cbn [final]. rewrite Ht, trace_after_load.
  split; [rewrite <- !app_assoc; reflexivity|].
  split; outputs; rewrite ?Ho, ?He; [reflexivity | split; reflexivity].
Qed.

Lemma finish_outcome (failed output : string) (r : Result (option string))
    (w : World) (pre t : list Effect) (failure : option string) :
  trace (final r) = trace w ++ pre ++ t ->
  stdout_writes pre = [] -> stderr_writes pre = [] -> stdout_writes t = [] ->
  match failure with
  | None => stderr_writes t = [] /\ returned r = true
  | Some msg => stderr_writes t = ["ERROR: " +:+ msg +:+ newline] /\ exit_code r = Some 1%Z
  end ->
  ends_as_a_command output w (finish failed output r).
Proof.
  intros Ht Hpo Hpe Ho Hf.
  destruct r as [[err|] w1|c w1], failure as [msg|]; simpl in *;
    destruct Hf as [He Hr]; try discriminate.
  - split; [reflexivity|].
    exists (pre ++ t ++ [EOtel (mkEvent LevelError failed {[ "error" := AStr err ]});
                         EStderr ("ERROR: " +:+ err +:+ newline)]), err.
    rewrite Ht, <- !app_assoc. split; [reflexivity|].
    split; outputs; rewrite ?Hpo, ?Hpe, ?Ho, ?He; reflexivity.
  - exists (pre ++ t ++ [EStdout (output +:+ newline)]).
    rewrite Ht, <- !app_assoc. split; [reflexivity|].
    split; outputs; rewrite ?Hpo, ?Hpe, ?Ho, ?He; reflexivity.
  - injection Hr as ->. split; [reflexivity|].
    exists (pre ++ t), msg. split; [exact Ht|].
    split; outputs; rewrite ?Hpo, ?Hpe, ?Ho, ?He; reflexivity.
Qed.

(** After the parse, a command ends in one of two ways. *)
Lemma cmdTTS_ends (fl : ttsFlags) (w : World) :
  ends_as_a_command (tts_output fl) w (cmdTTS fl w).
Proof.
  rewrite cmdTTS_spec. destruct (tts_args fl) as [|text rest].
  { split; [reflexivity|]. exists [EStderr ("ERROR: Text argument required" +:+ newline)],
      "Text argument required". repeat split. }
  destruct (String.eqb (tts_voice fl) "").
  + destruct (String.eqb (effective w "ELEVENLABS_TTS_VOICE_ID") "").
    { split; [reflexivity|]. eexists. exists "ELEVENLABS_TTS_VOICE_ID not found in environment".
      split; [apply trace_after_load|]. split; outputs; reflexivity. }
    unfold run_tts.
    destruct (textToSpeech_outputs (after_load w [EGetenv "ELEVENLABS_TTS_VOICE_ID"]) text
                (tts_output fl) (effective w "ELEVENLABS_TTS_VOICE_ID") (tts_format fl)
                (tts_stability fl) (tts_similarityBoost fl) (tts_style fl)
                (tts_speed fl) (negb (tts_noSpeakerBoost fl)))
      as (failure & t & Ht & Ho & Hf).
    apply (finish_outcome _ _ _ w (load_trace w ++ [EGetenv "ELEVENLABS_TTS_VOICE_ID"])
             t failure); auto.
    * rewrite Ht, trace_after_load. now rewrite <- !app_assoc.
    * outputs. reflexivity.
    * outputs. reflexivity.
  + unfold run_tts.
    destruct (textToSpeech_outputs w text (tts_output fl) (tts_voice fl) (tts_format fl)
                (tts_stability fl) (tts_similarityBoost fl) (tts_style fl)
                (tts_speed fl) (negb (tts_noSpeakerBoost fl)))
      as (failure & t & Ht & Ho & Hf).
    apply (finish_outcome _ _ _ w [] t failure); auto.
Qed.

Lemma cmdVoice_ends (fl : voiceFlags) (w : World) :
  ends_as_a_command (vc_output fl) w (cmdVoice fl w).
Proof.
  rewrite cmdVoice_spec. destruct (vc_args fl) as [|inputPath rest].
  { split; [reflexivity|].
    exists [EStderr ("ERROR: Input file argument required" +:+ newline)],
      "Input file argument required". repeat split. }
  cbv zeta. destruct (is_not_exist _).
  { split; [reflexivity|].
    exists [EStat inputPath;
            EStderr ("ERROR: Input file not found: " +:+ inputPath +:+ newline)],
      ("Input file not found: " +:+ inputPath).
    split; [unfold log; simpl; now rewrite <- app_assoc|].
    split; [reflexivity|]. simpl. now rewrite <- append_assoc. }
  destruct (String.eqb (vc_voice fl) "").
  + destruct (String.eqb (effective w "ELEVENLABS_VOICE_CHANGE_ID") "").
    { split; [reflexivity|].
      exists ([EStat inputPath] ++ load_trace w
              ++ EGetenv "ELEVENLABS_VOICE_CHANGE_ID"
                 :: ConfigurationMissing "ELEVENLABS_VOICE_CHANGE_ID"),
        "ELEVENLABS_VOICE_CHANGE_ID not found in environment".
      split; [rewrite trace_after_load; unfold log; simpl;
              rewrite <- app_assoc; reflexivity|].
      split; outputs; reflexivity. }
    destruct (voiceChange_outputs
                (after_load (log (EStat inputPath) w) [EGetenv "ELEVENLABS_VOICE_CHANGE_ID"])
                inputPath (vc_output fl) (effective w "ELEVENLABS_VOICE_CHANGE_ID")
                (vc_format fl)) as (failure & t & Ht & Ho & Hf).
    apply (finish_outcome _ _ _ w
             ([EStat inputPath] ++ load_trace w
              ++ [EGetenv "ELEVENLABS_VOICE_CHANGE_ID"])
             t failure); auto.
    * rewrite Ht, trace_after_load. unfold log; simpl. now rewrite <- !app_assoc.
    * outputs. reflexivity.
    * outputs. reflexivity.
  + destruct (voiceChange_outputs (log (EStat inputPath) w) inputPath (vc_output fl)
                (vc_voice fl) (vc_format fl)) as (failure & t & Ht & Ho & Hf).
    apply (finish_outcome _ _ _ w [EStat inputPath] t failure); auto.
    rewrite Ht. unfold log; simpl. now rewrite <- !app_assoc.
Qed.

Section Parsed.

Variable flag_Parse_tts : ttsFlags -> list string -> M ttsFlags.
Variable flag_Parse_voice : voiceFlags -> list string -> M voiceFlags.

(** A command declares its flags, parses, and goes on with the flags as
    parsed unless the parse ended the process. *)
Lemma cmdTTS_args_spec (args : list string) (w : World) :
  cmdTTS_args flag_Parse_tts args w
  = match flag_Parse_tts (tts_defaults w []) args (flags_declared w) with
    | Ret fl w1 => cmdTTS fl w1
    | Exit c w1 => Exit c w1
    end.
Proof.
  unfold cmdTTS_args, getDefaultTTSOutput, os_TempDir, os_Getenv, bind, ret,
    tts_defaults, temp_dir, flags_declared.
  destruct (String.eqb (default "" (environ w !! "TMPDIR")) "") eqn:E;
    cbv beta iota;
    change (environ (log (EGetenv "TMPDIR") w)) with (environ w);
    rewrite ?E; reflexivity.
Qed.

Lemma cmdVoice_args_spec (args : list string) (w : World) :
  cmdVoice_args flag_Parse_voice args w
  = match flag_Parse_voice (voice_defaults w []) args (flags_declared w) with
    | Ret fl w1 => cmdVoice fl w1
    | Exit c w1 => Exit c w1
    end.
Proof.
  unfold cmdVoice_args, getDefaultVoiceOutput, os_TempDir, os_Getenv, bind, ret,
    voice_defaults, temp_dir, flags_declared.
  destruct (String.eqb (default "" (environ w !! "TMPDIR")) "") eqn:E;
    cbv beta iota;
    change (environ (log (EGetenv "TMPDIR") w)) with (environ w);
    rewrite ?E; reflexivity.
Qed.

(** X11. A command ends inside the parse of its command line, or after it
    in one of two ways. When [fs.Parse] ends the process (the flag set is
    made with [flag.ExitOnError]), the command ends as the parse did, with
    its status. When the parse returns, the command goes on with the
    flags as parsed and, counted from there, either returns after exactly
    one write to the standard output, the destination path and a newline,
    and none to the standard error; or exits with status 1 after no write
    to the standard output and exactly one to the standard error, which
    starts with [ERROR: ] and ends with a newline. *)
Theorem commands_end_in_the_parse_or_in_one_of_two_ways (w : World) (args : list string) :
  (forall c w1,
      flag_Parse_tts (tts_defaults w []) args (flags_declared w) = Exit c w1 ->
      cmdTTS_args flag_Parse_tts args w = Exit c w1)
  /\ (forall fl w1,
         flag_Parse_tts (tts_defaults w []) args (flags_declared w) = Ret fl w1 ->
         cmdTTS_args flag_Parse_tts args w = cmdTTS fl w1
         /\ ends_as_a_command (tts_output fl) w1 (cmdTTS fl w1))
  /\ (forall c w1,
         flag_Parse_voice (voice_defaults w []) args (flags_declared w) = Exit c w1 ->
         cmdVoice_args flag_Parse_voice args w = Exit c w1)
  /\ (forall fl w1,
         flag_Parse_voice (voice_defaults w []) args (flags_declared w) = Ret fl w1 ->
         cmdVoice_args flag_Parse_voice args w = cmdVoice fl w1
         /\ ends_as_a_command (vc_output fl) w1 (cmdVoice fl w1)).
Proof.
  rewrite cmdTTS_args_spec, cmdVoice_args_spec.
  split; [|split; [|split]].
  - now intros c w1 ->.
  - intros fl w1 ->. split; [reflexivity | apply cmdTTS_ends].
  - now intros c w1 ->.
  - intros fl w1 ->. split; [reflexivity | apply cmdVoice_ends].
Qed.

End Parsed.

(** ** Which voice a command uses *)

(** X12. The voice a command asks the service for is the caller's
    override when there is one, and the configured default of its role
    otherwise; the text is the first positional argument, and speaker
    boost is on unless [--no-speaker-boost] was given. *)
Theorem override_takes_precedence (w : World) (req : Request) :
  (forall (fl : ttsFlags) (text : string) (rest : list string),
      tts_args fl = text :: rest ->
      http_calls (trace (final (cmdTTS fl w))) = http_calls (trace w) ++ [req] ->
      exists token,
        outputFormats !! tts_format fl = Some token
        /\ URL req
           = "https://api.elevenlabs.io/v1" +:+ "/text-to-speech/"
             +:+ (if String.eqb (tts_voice fl) ""
                  then effective w "ELEVENLABS_TTS_VOICE_ID" else tts_voice fl)
             +:+ "?output_format=" +:+ token
        /\ Body req
           = JSONBody (mkTtsRequest text "eleven_v3"
                         (mkVoiceSettings (tts_stability fl) (tts_similarityBoost fl)
                            (tts_style fl) (tts_speed fl)
                            (negb (tts_noSpeakerBoost fl)))))
  /\ (forall (fl : voiceFlags) (inputPath : string) (rest : list string),
         vc_args fl = inputPath :: rest ->
         http_calls (trace (final (cmdVoice fl w))) = http_calls (trace w) ++ [req] ->
         exists token,
           outputFormats !! vc_format fl = Some token
           /\ URL req
              = "https://api.elevenlabs.io/v1" +:+ "/speech-to-speech/"
                +:+ (if String.eqb (vc_voice fl) ""
                     then effective w "ELEVENLABS_VOICE_CHANGE_ID" else vc_voice fl)
                +:+ "?output_format=" +:+ token).
Proof.
  split.
  - intros fl text rest Ha. rewrite cmdTTS_spec, Ha.
    destruct (String.eqb (tts_voice fl) "").
    + destruct (String.eqb (effective w "ELEVENLABS_TTS_VOICE_ID") ""); [no_call|].
      rewrite finish_http. unfold run_tts. intros E.
      assert (H1 : http_calls (trace (after_load w [EGetenv "ELEVENLABS_TTS_VOICE_ID"]))
                   = http_calls (trace w))
        by (rewrite http_calls_after_load; apply app_nil_r).
      rewrite <- H1 in E.
      apply textToSpeech_sends in E as (token & Hf & _ & -> & _).
      exists token. split; [exact Hf|]. split; reflexivity.
    + rewrite finish_http. unfold run_tts. intros E.
      apply textToSpeech_sends in E as (token & Hf & _ & -> & _).
      exists token. split; [exact Hf|]. split; reflexivity.
  - intros fl inputPath rest Ha. rewrite cmdVoice_spec, Ha. cbv zeta.
    assert (H0 : http_calls (trace (log (EStat inputPath) w)) = http_calls (trace w)).
    { simpl. project_trace. apply app_nil_r. }
    destruct (is_not_exist _).
    { cbn [final]. intros E. simpl in E. rewrite !http_calls_app in E. simpl in E.
      rewrite !app_nil_r in E. rewrite <- (app_nil_r (http_calls (trace w))) in E at 1.
      now apply no_new_call in E. }
    destruct (String.eqb (vc_voice fl) "").
    + destruct (String.eqb (effective w "ELEVENLABS_VOICE_CHANGE_ID") "").
      { cbn [final]. rewrite http_calls_after_load, H0. intros E.
        now apply no_new_call in E. }
      rewrite finish_http. intros E.
      assert (H1 : http_calls (trace (after_load (log (EStat inputPath) w)
                                        [EGetenv "ELEVENLABS_VOICE_CHANGE_ID"]))
                   = http_calls (trace w))
        by (rewrite http_calls_after_load, H0; apply app_nil_r).
      rewrite <- H1 in E.
      apply voiceChange_sends in E as (token & audio & Hf & _ & _ & ->).
      exists token. split; [exact Hf | reflexivity].
    + rewrite finish_http. intros E. rewrite <- H0 in E.
      apply voiceChange_sends in E as (token & audio & Hf & _ & _ & ->).
      exists token. split; [exact Hf | reflexivity].
Qed.

(** ** The dispatch of [main] *)

Lemma printUsage_spec (w : World) : printUsage w = Ret tt (after_usage w).
Proof.
  unfold printUsage, getDefaultTTSOutput, getDefaultVoiceOutput, os_TempDir,
    os_Getenv, after_usage, temp_dir, bind, ret, emit.
  destruct (String.eqb (default "" (environ w !! "TMPDIR")) "") eqn:E;
    cbv beta iota;
    change (environ (log (EGetenv "TMPDIR") w)) with (environ w);
    rewrite E; reflexivity.
Qed.

Lemma eqb_other (a b : string) : a <> b -> String.eqb a b = false.
Proof. intros H. now apply String.eqb_neq. Qed.

(** Decides the comparisons of [main] between two literal strings. *)
Ltac closed_tests :=
  repeat match goal with
         | |- context [String.eqb (String ?a ?s) (String ?b ?t)] =>
             let v := eval vm_compute in (String.eqb (String a s) (String b t)) in
             change (String.eqb (String a s) (String b t)) with v
         end;
  cbn [orb]; cbv iota.

Section Dispatch.

Variable flag_Parse_tts : ttsFlags -> list string -> M ttsFlags.
Variable flag_Parse_voice : voiceFlags -> list string -> M voiceFlags.


(** X14. Started without an operation, [main] only prints. With
    [--version] or [-V] it prints the version line and returns; with
    [--help] or [-h] it prints the usage text and returns; with no
    argument it prints the usage text and exits with status 1; with an
    argument it does not know it names that argument on the standard error,
    prints the usage text and exits with status 1. In none of these cases
    does it load an env file, read a setting, send a request or touch
    the file system. *)
Theorem main_without_an_operation (w : World) (prog arg1 : string) (rest : list string) :
  ((arg1 = "--version" \/ arg1 = "-V") ->
   main flag_Parse_tts flag_Parse_voice (prog :: arg1 :: rest) w
   = Ret tt (log (EStdout ("pink-elevenlabs v2.0.0" +:+ newline)) w))
  /\ ((arg1 = "--help" \/ arg1 = "-h") ->
      main flag_Parse_tts flag_Parse_voice (prog :: arg1 :: rest) w
      = Ret tt (after_usage w))
  /\ main flag_Parse_tts flag_Parse_voice [prog] w = Exit 1 (after_usage w)
  /\ main flag_Parse_tts flag_Parse_voice [] w = Exit 1 (after_usage w)
  /\ (arg1 ∉ known_commands ->
      main flag_Parse_tts flag_Parse_voice (prog :: arg1 :: rest) w
      = Exit 1 (after_usage (log (EStderr ("Unknown command: " +:+ arg1 +:+ newline)) w)))
  /\ fs (after_usage w) = fs w
  /\ environ (after_usage w) = environ w
  /\ http_calls (trace (after_usage w)) = http_calls (trace w)
  /\ env_reads (trace (after_usage w)) = env_reads (trace w) ++ ["TMPDIR"; "TMPDIR"].
Proof.
  split; [|split; [|split; [|split; [|split]]]].
  - intros [-> | ->]; reflexivity.
  - intros [-> | ->]; unfold main; closed_tests;
      unfold bind, ret; now rewrite printUsage_spec.
  - unfold main, bind. now rewrite printUsage_spec.
  - unfold main, bind. now rewrite printUsage_spec.
  - intros Hn. unfold known_commands in Hn.
    repeat (apply not_elem_of_cons in Hn as [? Hn]).
    unfold main. rewrite !eqb_other by assumption.
    cbn [orb]. unfold bind, ret, emit. now rewrite printUsage_spec.
  - split; [reflexivity|]. split; [reflexivity|].
    unfold after_usage, log; simpl. project_trace.
    split; [now rewrite !app_nil_r | now rewrite <- !app_assoc].
Qed.

(** X15. A command line without options runs the command on the declared
    defaults. When the parse of [[arg]] leaves every flag at its default
    and makes [arg] the positional argument, [main] on [tts arg] is
    [cmdTTS], and on [voice arg] is [cmdVoice], with the output in the
    temporary directory, no voice override and the format [opus]; a
    synthesis then asks for the configured voice in the format
    [opus_48000_96] with stability 0.0, similarity boost 0.75, style 0.5,
    speed 1.0 and speaker boost on. *)
Theorem command_without_options_uses_the_defaults (w : World) (prog arg : string) :
  (forall w0, flag_Parse_tts (tts_defaults w []) [arg] w0 = Ret (tts_defaults w [arg]) w0) ->
  (forall w0, flag_Parse_voice (voice_defaults w []) [arg] w0
              = Ret (voice_defaults w [arg]) w0) ->
  main flag_Parse_tts flag_Parse_voice [prog; "tts"; arg] w
  = cmdTTS (tts_defaults w [arg]) (flags_declared w)
  /\ main flag_Parse_tts flag_Parse_voice [prog; "voice"; arg] w
     = cmdVoice (voice_defaults w [arg]) (flags_declared w)
  /\ (forall req,
         http_calls (trace (final (main flag_Parse_tts flag_Parse_voice
                                     [prog; "tts"; arg] w)))
         = http_calls (trace w) ++ [req] ->
         URL req = "https://api.elevenlabs.io/v1" +:+ "/text-to-speech/"
                   +:+ effective w "ELEVENLABS_TTS_VOICE_ID"
                   +:+ "?output_format=" +:+ "opus_48000_96"
         /\ Body req = JSONBody (mkTtsRequest arg "eleven_v3"
                                   (mkVoiceSettings 0%float 0.75%float 0.5%float 1%float
                                      true))).
Proof.
  intros Ht Hv.
  assert (Etts : main flag_Parse_tts flag_Parse_voice [prog; "tts"; arg] w
                 = cmdTTS (tts_defaults w [arg]) (flags_declared w)).
  { unfold main; closed_tests. unfold bind at 1. unfold ret at 1.
    unfold cmdTTS_args, getDefaultTTSOutput, os_TempDir, os_Getenv, bind, ret.
    destruct (String.eqb (default "" (environ w !! "TMPDIR")) "") eqn:E;
      cbv beta iota;
      change (environ (log (EGetenv "TMPDIR") w)) with (environ w);
      rewrite ?E; cbv beta iota;
      pose proof (Ht (flags_declared w)) as H; unfold tts_defaults, temp_dir in H;
      rewrite E in H; unfold flags_declared in H; rewrite H;
      unfold tts_defaults, temp_dir, flags_declared; rewrite E; reflexivity. }
  assert (Evc : main flag_Parse_tts flag_Parse_voice [prog; "voice"; arg] w
                = cmdVoice (voice_defaults w [arg]) (flags_declared w)).
  { unfold main; closed_tests. unfold bind at 1. unfold ret at 1.
    unfold cmdVoice_args, getDefaultVoiceOutput, os_TempDir, os_Getenv, bind, ret.
    destruct (String.eqb (default "" (environ w !! "TMPDIR")) "") eqn:E;
      cbv beta iota;
      change (environ (log (EGetenv "TMPDIR") w)) with (environ w);
      rewrite ?E; cbv beta iota;
      pose proof (Hv (flags_declared w)) as H; unfold voice_defaults, temp_dir in H;
      rewrite E in H; unfold flags_declared in H; rewrite H;
      unfold voice_defaults, temp_dir, flags_declared; rewrite E; reflexivity. }
  split; [exact Etts|]. split; [exact Evc|].
  intros req. rewrite Etts, cmdTTS_spec.
  change (tts_args (tts_defaults w [arg])) with [arg].
  change (tts_voice (tts_defaults w [arg])) with "".
  change (String.eqb "" "") with true. cbv iota.
  change (effective (flags_declared w) "ELEVENLABS_TTS_VOICE_ID")
    with (effective w "ELEVENLABS_TTS_VOICE_ID").
  assert (H0 : http_calls (trace (flags_declared w)) = http_calls (trace w)).
  { unfold flags_declared, log; simpl. project_trace. now rewrite !app_nil_r. }
  destruct (String.eqb (effective w "ELEVENLABS_TTS_VOICE_ID") "").
  { cbn [final]. rewrite http_calls_after_load, H0. intros E.
    now apply no_new_call in E. }
  rewrite finish_http. unfold run_tts. intros E.
  assert (H1 : http_calls (trace (after_load (flags_declared w)
                                    [EGetenv "ELEVENLABS_TTS_VOICE_ID"]))
               = http_calls (trace w))
    by (rewrite http_calls_after_load, H0; apply app_nil_r).
  rewrite <- H1 in E.
  apply textToSpeech_sends in E as (token & Hf & _ & -> & _).
  change (tts_format (tts_defaults w [arg])) with "opus" in Hf.
  assert (token = "opus_48000_96") as -> by (vm_compute in Hf; congruence).
  split; reflexivity.
Qed.

End Dispatch.

(** ** The further properties on concrete runs *)

(** X2 where the credential comes from the env file next to the
    executable. *)
Lemma resolving_again_gives_the_same_value_witness :
  exists w2,
    resolveRequired APIKey (final (resolveRequired APIKey two_env_files))
    = Ret "key-next-to-executable" w2
    /\ environ w2 = environ (final (resolveRequired APIKey two_env_files)).
Proof.
  apply (resolving_again_gives_the_same_value APIKey two_env_files).
  vm_compute. reflexivity.
Defined.

(** X3 in the studio. *)
Lemma synthesis_request_shape_witness :
  exists token,
    outputFormats !! "opus" = Some token
    /\ Method studio_tts_request = "POST"
    /\ URL studio_tts_request
       = "https://api.elevenlabs.io/v1" +:+ "/text-to-speech/" +:+ "voice-default"
         +:+ "?output_format=" +:+ token
    /\ Header studio_tts_request !! "xi-api-key"
       = Some (effective studio "ELEVENLABS_API_KEY")
    /\ effective studio "ELEVENLABS_API_KEY" <> ""
    /\ Header studio_tts_request !! "Content-Type" = Some "application/json"
    /\ Timeout studio_tts_request = 120%Z
    /\ Body studio_tts_request
       = JSONBody (mkTtsRequest "hello" "eleven_v3"
                     (mkVoiceSettings 0%float 0.75%float 0.5%float 1%float true))
    /\ non_finite 0%float = false /\ non_finite 0.75%float = false
    /\ non_finite 0.5%float = false /\ non_finite 1%float = false.
Proof.
  apply (synthesis_request_shape studio "hello" "/tmp/out/speech.ogg" "voice-default"
           "opus" 0%float 0.75%float 0.5%float 1%float true studio_tts_request).
  vm_compute. reflexivity.
Defined.

(** X4 in the studio. *)
Lemma transformation_request_shape_witness :
  exists token audio,
    outputFormats !! "mp3" = Some token
    /\ FS.stat (fs studio) (cwd studio) "in.ogg" = inr (FS.NFile audio)
    /\ Method studio_voice_request = "POST"
    /\ URL studio_voice_request
       = "https://api.elevenlabs.io/v1" +:+ "/speech-to-speech/" +:+ "voice-target"
         +:+ "?output_format=" +:+ token
    /\ Header studio_voice_request !! "xi-api-key"
       = Some (effective studio "ELEVENLABS_API_KEY")
    /\ effective studio "ELEVENLABS_API_KEY" <> ""
    /\ Header studio_voice_request !! "Content-Type"
       = Some ("multipart/form-data; boundary=" +:+ boundary studio)
    /\ Timeout studio_voice_request = 120%Z
    /\ Body studio_voice_request
       = MultipartBody (boundary studio)
           [FormFile "audio" (Filepath.Base "in.ogg") audio;
            FormField "model_id" "eleven_multilingual_sts_v2"].
Proof.
  apply (transformation_request_shape studio "in.ogg" "out/changed.ogg" "voice-target"
           "mp3" studio_voice_request).
  vm_compute. reflexivity.
Defined.

(** X5 in the studio, with a speed that is not a number. *)
Lemma non_finite_setting_is_rejected_witness :
  exists (value : string) (w' : World),
    textToSpeech "hello" "/tmp/out/speech.ogg" "voice-default" "opus"
      0%float 0.75%float 0.5%float PrimFloat.nan true studio
    = Ret (Some ("failed to marshal request: json: unsupported value: " +:+ value)) w'
    /\ http_calls (trace w') = http_calls (trace studio)
    /\ fs w' = fs studio.
Proof.
  apply (non_finite_setting_is_rejected studio "hello" "/tmp/out/speech.ogg"
           "voice-default" "opus" "opus_48000_96").
  - vm_compute. discriminate.
  - reflexivity.
  - vm_compute. reflexivity.
Defined.

(** X8 without a network. *)
Lemma transport_failure_is_reported_witness :
  (exists w',
     textToSpeech "hello" "/tmp/out/speech.ogg" "voice-default" "opus"
       0%float 0.75%float 0.5%float 1%float true offline
     = Ret (Some ("request failed: " +:+ "dial tcp: connection refused")) w'
     /\ fs w' = fs offline
     /\ trace w' = trace offline ++ load_trace offline
                   ++ [EGetenv "ELEVENLABS_API_KEY";
                       EOtel (tts_request_event "hello" "voice-default" "opus");
                       EHTTP studio_tts_request])
  /\ (exists w',
        voiceChange "in.ogg" "out/changed.ogg" "voice-target" "mp3" offline
        = Ret (Some ("request failed: " +:+ "dial tcp: connection refused")) w'
        /\ fs w' = fs offline
        /\ trace w' = trace offline ++ load_trace offline
                      ++ [EGetenv "ELEVENLABS_API_KEY";
                          EOpen "in.ogg";
                          EOtel (voice_request_event "in.ogg" "voice-target" "mp3");
                          EHTTP studio_voice_request]).
Proof.
  split.
  - apply (proj1 (transport_failure_is_reported offline "hello" "in.ogg"
                    "/tmp/out/speech.ogg" "voice-default" "opus"
                    0%float 0.75%float 0.5%float 1%float true
                    studio_tts_request "dial tcp: connection refused" eq_refl)).
    vm_compute. reflexivity.
  - apply (proj2 (transport_failure_is_reported offline "hello" "in.ogg"
                    "out/changed.ogg" "voice-target" "mp3"
                    0%float 0.75%float 0.5%float 1%float true
                    studio_voice_request "dial tcp: connection refused" eq_refl)).
    vm_compute. reflexivity.
Defined.

(** X10 in the studio, for a file that is not there. *)
Lemma missing_input_fails_locally_witness :
  (exists w',
     cmdVoice (mkVoiceFlags "out/changed.ogg" "" "mp3" ["missing.ogg"]) studio
     = Exit 1 w'
     /\ trace w' = trace studio
                   ++ [EStat "missing.ogg";
                       EStderr ("ERROR: Input file not found: " +:+ "missing.ogg"
                                +:+ newline)]
     /\ fs w' = fs studio)
  /\ (exists w',
        voiceChange "missing.ogg" "out/changed.ogg" "voice-target" "mp3" studio
        = Ret (Some ("failed to open input file: " +:+ "open " +:+ "missing.ogg" +:+ ": "
                     +:+ FS.strerror FS.ENOENT)) w'
        /\ http_calls (trace w') = http_calls (trace studio)
        /\ fs w' = fs studio).
Proof.
  assert (Hs : FS.stat (fs studio) (cwd studio) "missing.ogg" = inl FS.ENOENT)
    by (vm_compute; reflexivity).
  destruct (missing_input_fails_locally studio
              (mkVoiceFlags "out/changed.ogg" "" "mp3" ["missing.ogg"])
              "missing.ogg" "out/changed.ogg" "voice-target" "mp3" "mp3_44100_128" []
              FS.ENOENT Hs) as [Ha Hb].
  split.
  - exact (Ha eq_refl eq_refl).
  - apply Hb; [vm_compute; discriminate | reflexivity].
Defined.

(** X12 in the studio: without an override the configured voices are
    asked for. *)
Lemma override_takes_precedence_witness :
  (exists token,
     outputFormats !! tts_format (tts_flags "" "opus") = Some token
     /\ URL studio_tts_request
        = "https://api.elevenlabs.io/v1" +:+ "/text-to-speech/"
          +:+ (if String.eqb (tts_voice (tts_flags "" "opus")) ""
               then effective studio "ELEVENLABS_TTS_VOICE_ID"
               else tts_voice (tts_flags "" "opus"))
          +:+ "?output_format=" +:+ token
     /\ Body studio_tts_request
        = JSONBody (mkTtsRequest "hello" "eleven_v3"
                      (mkVoiceSettings (tts_stability (tts_flags "" "opus"))
                         (tts_similarityBoost (tts_flags "" "opus"))
                         (tts_style (tts_flags "" "opus"))
                         (tts_speed (tts_flags "" "opus"))
                         (negb (tts_noSpeakerBoost (tts_flags "" "opus"))))))
  /\ (exists token,
        outputFormats !! vc_format (voice_flags "" "mp3") = Some token
        /\ URL studio_voice_request
           = "https://api.elevenlabs.io/v1" +:+ "/speech-to-speech/"
             +:+ (if String.eqb (vc_voice (voice_flags "" "mp3")) ""
                  then effective studio "ELEVENLABS_VOICE_CHANGE_ID"
                  else vc_voice (voice_flags "" "mp3"))
             +:+ "?output_format=" +:+ token).
Proof.
  split.
  - apply (proj1 (override_takes_precedence studio studio_tts_request)
             (tts_flags "" "opus") "hello" [] eq_refl).
    vm_compute. reflexivity.
  - apply (proj2 (override_takes_precedence studio studio_voice_request)
             (voice_flags "" "mp3") "in.ogg" [] eq_refl).
    vm_compute. reflexivity.
Defined.

(** X14 in the studio, for the version flag and for a command that does
    not exist. *)
Lemma main_without_an_operation_witness :
  main positional_tts positional_voice ["pink-elevenlabs"; "-V"] studio
  = Ret tt (log (EStdout ("pink-elevenlabs v2.0.0" +:+ newline)) studio)
  /\ main positional_tts positional_voice ["pink-elevenlabs"; "sing"; "hello"] studio
     = Exit 1 (after_usage (log (EStderr ("Unknown command: " +:+ "sing" +:+ newline))
                              studio)).
Proof.
  split.
  - apply (proj1 (main_without_an_operation positional_tts positional_voice studio
                    "pink-elevenlabs" "-V" [])).
    now right.
  - apply (proj1 (proj2 (proj2 (proj2 (proj2
             (main_without_an_operation positional_tts positional_voice studio
                "pink-elevenlabs" "sing" ["hello"])))))).
    unfold known_commands. rewrite !not_elem_of_cons.
    repeat split; try discriminate. apply not_elem_of_nil.
Defined.

(** X15 in the studio, for [pink-elevenlabs tts hello] and
    [pink-elevenlabs voice in.ogg] parsed without options. *)
Lemma command_without_options_uses_the_defaults_witness :
  main positional_tts positional_voice ["pink-elevenlabs"; "tts"; "hello"] studio
  = cmdTTS (tts_defaults studio ["hello"]) (flags_declared studio)
  /\ main positional_tts positional_voice ["pink-elevenlabs"; "voice"; "hello"] studio
     = cmdVoice (voice_defaults studio ["hello"]) (flags_declared studio)
  /\ URL studio_tts_request
     = "https://api.elevenlabs.io/v1" +:+ "/text-to-speech/"
       +:+ effective studio "ELEVENLABS_TTS_VOICE_ID"
       +:+ "?output_format=" +:+ "opus_48000_96"
  /\ Body studio_tts_request
     = JSONBody (mkTtsRequest "hello" "eleven_v3"
                   (mkVoiceSettings 0%float 0.75%float 0.5%float 1%float true)).
Proof.
  destruct (command_without_options_uses_the_defaults positional_tts positional_voice
              studio "pink-elevenlabs" "hello"
              (fun _ => eq_refl) (fun _ => eq_refl)) as (H1 & H2 & H3).
  split; [exact H1|]. split; [exact H2|].
  apply H3. vm_compute. reflexivity.
Defined.

(** X11 in the studio: a parse that refuses the command line, and a parse
    without options followed by a successful synthesis. *)
Lemma commands_end_in_the_parse_or_in_one_of_two_ways_witness :
  cmdTTS_args refusing_tts ["--bogus"] studio = Exit 2 (flags_declared studio)
  /\ cmdTTS_args positional_tts ["hello"] studio
     = cmdTTS (tts_defaults studio ["hello"]) (flags_declared studio)
  /\ ends_as_a_command (tts_output (tts_defaults studio ["hello"])) (flags_declared studio)
       (cmdTTS (tts_defaults studio ["hello"]) (flags_declared studio))
  /\ returned (cmdTTS (tts_defaults studio ["hello"]) (flags_declared studio)) = true.
Proof.
  split.
  - apply (proj1 (commands_end_in_the_parse_or_in_one_of_two_ways
                    refusing_tts refusing_voice studio ["--bogus"])).
    reflexivity.
  - destruct (proj1 (proj2 (commands_end_in_the_parse_or_in_one_of_two_ways
                              positional_tts positional_voice studio ["hello"]))
                (tts_defaults studio ["hello"]) (flags_declared studio) eq_refl)
      as [Ha Hb].
    split; [exact Ha|]. split; [exact Hb|]. vm_compute. reflexivity.
Defined.
